(** * trip-task: booking lifecycle, acceptance and chat synchronisation

    A shallow embedding of the booking and chat code of the trip-task
    application: the [bookings] and [messages] relations with their
    row-level policies and the [accept_booking] procedure (SQL), the
    [bookingService] and [riderService] objects, the chat screen
    ([StatusButton], [updateBookingStatus], the message poll, the insert
    subscription, [sendMessage]), the chat panel and the trip form.

    Conventions of the embedding.
    - Identifiers (UUID columns) are [string]s.
    - Timestamps (TIMESTAMP WITH TIME ZONE columns, ISO strings on the
      client) are instants on one clock, a [Z]; every operation that
      reads the clock takes the current instant [now].
    - Text the client trims or tests for emptiness is a JavaScript
      string: its list of UTF-16 code units.
    - A relation is the list of its rows; UPDATE maps over the rows,
      INSERT appends one.
    - The ambient session ([supabase.auth.getUser()], [auth.uid()]) is an
      [option Uuid] passed to every operation.
    - A supabase call returns [{ data, error }]: a [Result]. *)

From Stdlib Require Import ZArith NArith Ascii String Lia.
From stdpp Require Import base option list strings sorting.

Local Open Scope Z_scope.

(** ** JavaScript strings *)

Module Js.

Definition str := list N.

(** The code units of an ASCII literal. *)
Definition lit (s : string) : str :=
  (fun a => N_of_ascii a) <$> list_ascii_of_string s.

(** ECMAScript WhiteSpace and LineTerminator code points, the ones
    [String.prototype.trim] strips; all of them are single code units. *)
Definition is_white_space (c : N) : bool :=
  ((c =? 9) || (c =? 10) || (c =? 11) || (c =? 12) || (c =? 13) || (c =? 32)
   || (c =? 160) || (c =? 5760) || ((8192 <=? c) && (c <=? 8202))
   || (c =? 8232) || (c =? 8233) || (c =? 8239) || (c =? 8287)
   || (c =? 12288) || (c =? 65279))%N.

Fixpoint trimStart (s : str) : str :=
  match s with
  | c :: s' => if is_white_space c then trimStart s' else s
  | [] => []
  end.

Definition trimEnd (s : str) : str := reverse (trimStart (reverse s)).

Definition trim (s : str) : str := trimEnd (trimStart s).

(** Truthiness of a string: the empty string is falsy. *)
Definition truthy (s : str) : bool :=
  match s with [] => false | _ => true end.

(** [a || b] on strings. *)
Definition or_else (a b : str) : str := if truthy a then a else b.

(** [x || null] on a nullable string column. *)
Definition or_null (x : option str) : option str :=
  match x with
  | Some s => if truthy s then Some s else None
  | None => None
  end.

End Js.

(** ** Data model (services/bookingService.ts, the schema) *)

Definition Uuid := string.
Definition Timestamp := Z.

Inductive BookingStatus :=
  pending | accepted | on_the_way | completed | cancelled.

Inductive BookingType := trip | task.

Global Instance BookingStatus_eq_dec : EqDecision BookingStatus.
Proof. solve_decision. Defined.

Record Booking := {
  id : Uuid;
  user_id : Uuid;
  rider_id : option Uuid;
  pickup_location : Js.str;
  dropoff_location : Js.str;
  scheduled_time : option Timestamp;
  status : BookingStatus;
  created_at : Timestamp;
  updated_at : Timestamp;
  notes : option Js.str;
  is_asap : bool;
  completed_at : option Timestamp;
  cancelled_at : option Timestamp;
  cancelled_by : option Uuid;
  cancellation_reason : option Js.str;
  booking_type : BookingType;
  name : Js.str
}.

Record CreateBookingData := {
  cb_pickup_location : Js.str;
  cb_dropoff_location : Js.str;
  cb_scheduled_time : option Timestamp;
  cb_notes : option Js.str;
  cb_is_asap : option bool;
  cb_booking_type : BookingType;
  cb_name : Js.str
}.

Record RiderProfile := {
  rp_user_id : Uuid;
  rp_is_available : bool
}.

Record Profile := {
  p_id : Uuid;
  p_username : Js.str;
  p_avatar_url : option Js.str
}.

(** A row of [messages]; the three attachment columns are nullable. *)
Record MessageRow := {
  m_id : Uuid;
  m_booking_id : Uuid;
  m_sender_id : Uuid;
  m_content : Js.str;
  m_created_at : Timestamp;
  m_image_url : option Js.str;
  m_file_url : option Js.str;
  m_file_name : option Js.str
}.

(** The persistent store. *)
Record Db := {
  bookings : list Booking;
  rider_profiles : list RiderProfile;
  profiles : list Profile;
  messages : list MessageRow
}.

Definition with_bookings (db : Db) (t : list Booking) : Db :=
  {| bookings := t; rider_profiles := rider_profiles db;
     profiles := profiles db; messages := messages db |}.

Definition with_messages (db : Db) (t : list MessageRow) : Db :=
  {| bookings := bookings db; rider_profiles := rider_profiles db;
     profiles := profiles db; messages := t |}.

(** ** Results of store calls *)

Inductive Error :=
  | NotAuthenticated        (* 'User not authenticated', 'Not authenticated' *)
  | NotARider               (* 'User is not a rider' *)
  | NoSingleRow             (* .single() on zero or several rows (PGRST116) *)
  | RlsViolation            (* new row violates row-level security policy *)
  | DuplicateKey            (* primary key violation *)
  | Raised (msg : string).  (* RAISE EXCEPTION in a procedure *)

Inductive Result (A : Type) :=
  | Ok (data : A)
  | Err (error : Error).
Arguments Ok {A} data.
Arguments Err {A} error.

Definition is_ok {A} (r : Result A) : bool :=
  match r with Ok _ => true | Err _ => false end.

(** ** Row-level security on [bookings] *)

Module Rls.

(** [auth.uid() = col]: false when there is no session. *)
Definition uid_is (uid : option Uuid) (col : Uuid) : Prop := uid = Some col.

(** [auth.uid() = col] for a nullable column: NULL equals nothing. *)
Definition uid_is_opt (uid : option Uuid) (col : option Uuid) : Prop :=
  is_Some uid ∧ uid = col.

Global Instance uid_is_dec uid col : Decision (uid_is uid col).
Proof. unfold uid_is. apply _. Defined.
Global Instance uid_is_opt_dec uid col : Decision (uid_is_opt uid col).
Proof. unfold uid_is_opt. apply _. Defined.

(** An UPDATE policy: USING is tested on the stored row, WITH CHECK on
    the row as updated. *)
Record UpdatePolicy := {
  pol_using : Db → option Uuid → Booking → bool;
  pol_check : Db → option Uuid → Booking → bool
}.

(** lib/bookings_policies.sql: "Users can update their own bookings". *)
Definition users_update_own : UpdatePolicy := {|
  pol_using _ uid b := bool_decide (uid_is uid (user_id b));
  pol_check _ uid b := bool_decide (uid_is uid (user_id b))
|}.

(** lib/bookings_policies.sql: "Riders can update assigned bookings". *)
Definition riders_update_assigned : UpdatePolicy := {|
  pol_using _ uid b := bool_decide (uid_is_opt uid (rider_id b));
  pol_check _ uid b := bool_decide (uid_is_opt uid (rider_id b))
|}.

(** EXISTS (SELECT 1 FROM rider_profiles WHERE user_id = auth.uid()
    AND is_available = true). *)
Definition available_rider (db : Db) (uid : option Uuid) : bool :=
  existsb (fun rp => bool_decide (uid_is uid (rp_user_id rp))
                     && rp_is_available rp) (rider_profiles db).



(** The two policy sets of the repository. *)
Definition bookings_policies : list UpdatePolicy :=
  [users_update_own; riders_update_assigned].


(** Permissive policies are combined with OR. *)
Definition may_update (ps : list UpdatePolicy) (db : Db)
    (uid : option Uuid) (b : Booking) : bool :=
  existsb (fun p => pol_using p db uid b) ps.

Definition may_become (ps : list UpdatePolicy) (db : Db)
    (uid : option Uuid) (b : Booking) : bool :=
  existsb (fun p => pol_check p db uid b) ps.

(** The messages policies: owner or rider of the referenced booking
    (SELECT, and [can_send_message] for INSERT). *)
Definition party_of (db : Db) (uid : option Uuid) (booking_id : Uuid) : bool :=
  existsb (fun b => bool_decide (id b = booking_id)
                    && (bool_decide (uid_is uid (user_id b))
                        || bool_decide (uid_is_opt uid (rider_id b))))
          (bookings db).

End Rls.

(** ** The store's UPDATE on [bookings] *)

Module Sql.

(** BEFORE UPDATE trigger [update_updated_at_column]. *)
Definition update_updated_at_column (now : Timestamp) (b : Booking) : Booking :=
  {| id := id b; user_id := user_id b; rider_id := rider_id b;
     pickup_location := pickup_location b;
     dropoff_location := dropoff_location b;
     scheduled_time := scheduled_time b; status := status b;
     created_at := created_at b; updated_at := now; notes := notes b;
     is_asap := is_asap b; completed_at := completed_at b;
     cancelled_at := cancelled_at b; cancelled_by := cancelled_by b;
     cancellation_reason := cancellation_reason b;
     booking_type := booking_type b; name := name b |}.

(** UPDATE bookings SET [set] WHERE [whr], as the table owner (no row
    policy): the new table and the rows written. *)
Definition update (now : Timestamp) (whr : Booking → bool)
    (set : Booking → Booking) (t : list Booking)
    : list Booking * list Booking :=
  let upd b := update_updated_at_column now (set b) in
  ((fun b => if whr b then upd b else b) <$> t,
   upd <$> filter (fun b => whr b) t).

(** The same statement through the API, under the row policies [ps] for
    the session [uid]: USING restricts the rows, and one new row that
    fails WITH CHECK aborts the statement. The rows returned are those
    written. *)
Definition update_rls (ps : list Rls.UpdatePolicy) (db : Db)
    (uid : option Uuid) (now : Timestamp) (whr : Booking → bool)
    (set : Booking → Booking) : Result (list Booking * list Booking) :=
  let res := update now (fun b => whr b && Rls.may_update ps db uid b) set
                    (bookings db) in
  if forallb (Rls.may_become ps db uid) res.2 then Ok res
  else Err RlsViolation.

(** [.select().single()]: exactly one row, or the request fails and its
    transaction is rolled back. *)
Definition single {A} (rows : list A) : Result A :=
  match rows with
  | [r] => Ok r
  | _ => Err NoSingleRow
  end.

End Sql.

(** ** The object passed to [.update({...})]

    Only the keys present in the object are written; a key whose value is
    [undefined] is not sent. *)

Record Patch := {
  set_status : option BookingStatus;
  set_rider_id : option Uuid;
  set_updated_at : option Timestamp;
  set_completed_at : option Timestamp;
  set_cancelled_at : option Timestamp;
  set_cancelled_by : option Uuid;
  set_cancellation_reason : option Js.str
}.

(** A nullable column takes the patch's value when the key is present. *)
Definition overwrite {A} (new old : option A) : option A :=
  match new with Some v => Some v | None => old end.

Definition apply_patch (p : Patch) (b : Booking) : Booking :=
  {| id := id b; user_id := user_id b;
     rider_id := overwrite (set_rider_id p) (rider_id b);
     pickup_location := pickup_location b;
     dropoff_location := dropoff_location b;
     scheduled_time := scheduled_time b;
     status := default (status b) (set_status p);
     created_at := created_at b;
     updated_at := default (updated_at b) (set_updated_at p);
     notes := notes b; is_asap := is_asap b;
     completed_at := overwrite (set_completed_at p) (completed_at b);
     cancelled_at := overwrite (set_cancelled_at p) (cancelled_at b);
     cancelled_by := overwrite (set_cancelled_by p) (cancelled_by b);
     cancellation_reason :=
       overwrite (set_cancellation_reason p) (cancellation_reason b);
     booking_type := booking_type b; name := name b |}.

Definition id_is (i : Uuid) (b : Booking) : bool := bool_decide (id b = i).

(** ** services/bookingService.ts *)

Module bookingService.

Section WithPolicies.

(** The UPDATE policies in force, the session, the clock. *)
Variable ps : list Rls.UpdatePolicy.
Variable uid : option Uuid.
Variable now : Timestamp.

(** [supabase.from('bookings').update(p).eq('id', i).select().single()]. *)
Definition update_by_id (db : Db) (i : Uuid) (p : Patch)
    : Db * Result Booking :=
  match Sql.update_rls ps db uid now (id_is i) (apply_patch p) with
  | Err e => (db, Err e)
  | Ok (t', rows) =>
      match Sql.single rows with
      | Ok b => (with_bookings db t', Ok b)
      | Err e => (db, Err e)
      end
  end.

(** The row INSERT builds: the columns the client sends, the schema's
    defaults for the others. *)
Definition new_booking (new_id user : Uuid) (data : CreateBookingData)
    : Booking :=
  {| id := new_id; user_id := user; rider_id := None;
     pickup_location := cb_pickup_location data;
     dropoff_location := cb_dropoff_location data;
     scheduled_time := cb_scheduled_time data;
     status := pending;
     created_at := now; updated_at := now;
     notes := cb_notes data;
     is_asap := default false (cb_is_asap data);
     completed_at := None; cancelled_at := None; cancelled_by := None;
     cancellation_reason := None;
     booking_type := cb_booking_type data; name := cb_name data |}.

(** [createBooking(data)]; [new_id] is the identifier the store draws
    for the row. The INSERT policy asks [auth.uid() = user_id], which
    holds since the client sends [user.id]. *)
Definition createBooking (new_id : Uuid) (db : Db) (data : CreateBookingData)
    : Db * Result Booking :=
  match uid with
  | None => (db, Err NotAuthenticated)
  | Some user =>
      if existsb (id_is new_id) (bookings db) then (db, Err DuplicateKey)
      else
        let b := new_booking new_id user data in
        (with_bookings db (bookings db ++ [b]), Ok b)
  end.

Definition cancelBooking (db : Db) (i : Uuid) (reason : Js.str)
    : Db * Result Booking :=
  update_by_id db i
    {| set_status := Some cancelled; set_rider_id := None;
       set_updated_at := None; set_completed_at := None;
       set_cancelled_at := Some now; set_cancelled_by := uid;
       set_cancellation_reason := Some reason |}.

Definition completeBooking (db : Db) (i : Uuid) : Db * Result Booking :=
  update_by_id db i
    {| set_status := Some completed; set_rider_id := None;
       set_updated_at := None; set_completed_at := Some now;
       set_cancelled_at := None; set_cancelled_by := None;
       set_cancellation_reason := None |}.

Definition acceptBooking (db : Db) (i : Uuid) (riderId : Uuid)
    : Db * Result Booking :=
  update_by_id db i
    {| set_status := Some accepted; set_rider_id := Some riderId;
       set_updated_at := None; set_completed_at := None;
       set_cancelled_at := None; set_cancelled_by := None;
       set_cancellation_reason := None |}.

Definition startTrip (db : Db) (i : Uuid) : Db * Result Booking :=
  update_by_id db i
    {| set_status := Some on_the_way; set_rider_id := None;
       set_updated_at := None; set_completed_at := None;
       set_cancelled_at := None; set_cancelled_by := None;
       set_cancellation_reason := None |}.

End WithPolicies.

End bookingService.

(** ** The [accept_booking] procedure (schema script) *)

Module Schema.

(** The WHERE clause of the procedure's test and of its UPDATE. *)
Definition available_for_acceptance (booking_id : Uuid) (b : Booking) : bool :=
  id_is booking_id b && bool_decide (status b = pending)
  && bool_decide (rider_id b = None).

(** [accept_booking(booking_id)], SECURITY DEFINER: it runs as its owner,
    outside the row policies. [uid] is [auth.uid()]. *)
Definition accept_booking (uid : option Uuid) (now : Timestamp) (db : Db)
    (booking_id : Uuid) : Db * Result unit :=
  if negb (Rls.available_rider db uid) then
    (db, Err (Raised "User is not an available rider"))
  else if negb (existsb (available_for_acceptance booking_id) (bookings db))
  then (db, Err (Raised "Booking is not available for acceptance"))
  else
    (* past the first test [uid] is a user: [rider_id] is set to it *)
    let '(t', rows) :=
      Sql.update now (available_for_acceptance booking_id)
        (apply_patch
           {| set_status := Some accepted; set_rider_id := uid;
              set_updated_at := Some now; set_completed_at := None;
              set_cancelled_at := None; set_cancelled_by := None;
              set_cancellation_reason := None |})
        (bookings db) in
    match rows with
    | [] => (db, Err (Raised "Failed to update booking"))
    | _ => (with_bookings db t', Ok tt)
    end.

End Schema.

(** ** SELECT policies on [bookings] *)

Module RlsSelect.

(** lib/bookings_policies.sql: "Users can view their own bookings". *)
Definition view_own (_ : Db) (uid : option Uuid) (b : Booking) : bool :=
  bool_decide (Rls.uid_is uid (user_id b))
  || bool_decide (Rls.uid_is_opt uid (rider_id b)).

(** The migration: "Users can view their own bookings and riders can see
    pending bookings". *)
Definition view_own_or_pending (db : Db) (uid : option Uuid) (b : Booking)
    : bool :=
  view_own db uid b
  || (bool_decide (status b = pending) && bool_decide (rider_id b = None)
      && existsb (fun rp => bool_decide (Rls.uid_is uid (rp_user_id rp)))
                 (rider_profiles db)).

End RlsSelect.

(** ** services/riderService.ts *)

Module riderService.

Record UserSummary := {
  u_id : Uuid;
  u_username : Js.str;
  u_avatar_url : option Js.str
}.

(** [{ ...booking, user: {...} }]. *)
Record BookingWithUser := {
  booking : Booking;
  user : UserSummary
}.

(** ORDER BY created_at DESC. *)
Definition newer_first (a b : Booking) : Prop := created_at b ≤ created_at a.

Global Instance newer_first_dec a b : Decision (newer_first a b).
Proof. unfold newer_first. apply _. Defined.

(** [new Map(profiles.map(p => [p.id, p])).get(k)]: of two entries with
    one key the later one stays. *)
Definition profileMap_get (ps : list Profile) (k : Uuid) : option Profile :=
  last (filter (fun p => p_id p = k) ps).

Section WithSession.

Variable sel : Db → option Uuid → Booking → bool.
Variable uid : option Uuid.

(** [isRider()]: the rider profile of the session's user. [.single()]
    fails with PGRST116 unless exactly one row matches, and that failure
    is answered with [isRider: false]. *)
Definition isRider (db : Db) : bool * option RiderProfile :=
  match uid with
  | None => (false, None)
  | Some u =>
      match filter (fun rp => rp_user_id rp = u) (rider_profiles db) with
      | [rp] => (true, Some rp)
      | _ => (false, None)
      end
  end.

Definition with_user (ps : list Profile) (b : Booking) : BookingWithUser :=
  {| booking := b;
     user :=
       {| u_id := user_id b;
          u_username :=
            Js.or_else (name b)
              (Js.or_else
                 (from_option p_username [] (profileMap_get ps (user_id b)))
                 (Js.lit "Unknown User"));
          u_avatar_url :=
            Js.or_null (profileMap_get ps (user_id b) ≫= p_avatar_url) |} |}.

Definition getAvailableBookings (db : Db) : Result (list BookingWithUser) :=
  match uid with
  | None => Err NotAuthenticated
  | Some _ =>
      if negb (isRider db).1 then Err NotARider
      else
        let rows :=
          merge_sort newer_first
            (filter (fun b => status b = pending ∧ rider_id b = None)
               (filter (fun b => sel db uid b) (bookings db))) in
        match rows with
        | [] => Ok []
        | _ =>
            let userIds := user_id <$> rows in
            let found :=
              filter (fun p => p_id p ∈ userIds) (profiles db) in
            Ok (with_user found <$> rows)
        end
  end.

(** [acceptBooking(bookingId)]: the session and the rider profile are
    checked on the client, the claim itself is the procedure's, and the
    row is read back. *)
Definition acceptBooking (now : Timestamp) (db : Db) (bookingId : Uuid)
    : Db * Result unit :=
  match uid with
  | None => (db, Err NotAuthenticated)
  | Some u =>
      match filter (fun rp => rp_user_id rp = u) (rider_profiles db) with
      | [rp] =>
          if negb (rp_is_available rp) then
            (db, Err (Raised "User is not an available rider"))
          else
            match Schema.accept_booking uid now db bookingId with
            | (db', Err e) => (db', Err e)
            | (db', Ok _) =>
                match Sql.single
                        (filter (fun b => id b = bookingId)
                           (filter (fun b => sel db' uid b) (bookings db')))
                with
                | Ok _ => (db', Ok tt)
                | Err e => (db', Err e)
                end
            end
      | _ => (db, Err NoSingleRow)
      end
  end.

End WithSession.

End riderService.

(** ** The [messages] relation as the client reads and writes it *)

Module Messages.

(** ORDER BY created_at ASC. *)
Definition older_first (a b : MessageRow) : Prop :=
  m_created_at a ≤ m_created_at b.

Global Instance older_first_dec a b : Decision (older_first a b).
Proof. unfold older_first. apply _. Defined.

(** [from('messages').select('*').eq('booking_id', i)
      .order('created_at', { ascending: true })] under the SELECT policy. *)
Definition select_by_booking (db : Db) (uid : option Uuid) (i : Uuid)
    : list MessageRow :=
  merge_sort older_first
    (filter (fun m => m_booking_id m = i)
       (filter (fun m => Rls.party_of db uid (m_booking_id m)) (messages db))).

(** [from('profiles').select(...).in('id', ids)]; profiles are readable
    by everyone. *)
Definition select_profiles (db : Db) (ids : list Uuid) : list Profile :=
  filter (fun p => p_id p ∈ ids) (profiles db).

(** [from('profiles').select(...).eq('id', i).single()]. *)
Definition select_profile (db : Db) (i : Uuid) : Result Profile :=
  Sql.single (filter (fun p => p_id p = i) (profiles db)).

(** [from('messages').insert({ booking_id, sender_id, content })]: the
    INSERT policy is [can_send_message(auth.uid(), booking_id)]; the
    store draws [new_id] and stamps the row. *)
Definition insert (db : Db) (uid : option Uuid) (now : Timestamp)
    (new_id booking_id sender_id : Uuid) (content : Js.str)
    : Db * Result MessageRow :=
  if negb (Rls.party_of db uid booking_id) then (db, Err RlsViolation)
  else if existsb (fun m => bool_decide (m_id m = new_id)) (messages db)
  then (db, Err DuplicateKey)
  else
    let m := {| m_id := new_id; m_booking_id := booking_id;
                m_sender_id := sender_id; m_content := content;
                m_created_at := now; m_image_url := None;
                m_file_url := None; m_file_name := None |} in
    (with_messages db (messages db ++ [m]), Ok m).

End Messages.

(** ** screens/ChatScreen.tsx *)

Module ChatScreen.

Record MessageSender := {
  s_id : Uuid;
  s_username : Js.str;
  s_avatar_url : Js.str
}.

Record Message := {
  msg_id : Uuid;
  msg_content : Js.str;
  msg_created_at : Timestamp;
  msg_sender_id : Uuid;
  msg_booking_id : Uuid;
  msg_sender : MessageSender;
  msg_image_url : option Js.str;
  msg_file_url : option Js.str;
  msg_file_name : option Js.str
}.

Inductive Alert :=
  | AlertError (msg : string)
  | AlertSuccess.

(** The component's state, as far as the operations below use it. *)
Record State := {
  bookingId : option Uuid;      (* route.params.bookingId *)
  user : option Uuid;           (* useAuth().user?.id *)
  bookingStatus : BookingStatus;
  isRider : bool;
  view : list Message;          (* the [messages] state *)
  newMessage : Js.str;
  error : option string
}.

Definition setBookingStatus (s : BookingStatus) (st : State) : State :=
  {| bookingId := bookingId st; user := user st; bookingStatus := s;
     isRider := isRider st; view := view st; newMessage := newMessage st;
     error := error st |}.

Definition setMessages (v : list Message) (st : State) : State :=
  {| bookingId := bookingId st; user := user st;
     bookingStatus := bookingStatus st; isRider := isRider st; view := v;
     newMessage := newMessage st; error := error st |}.

Definition setNewMessage (s : Js.str) (st : State) : State :=
  {| bookingId := bookingId st; user := user st;
     bookingStatus := bookingStatus st; isRider := isRider st;
     view := view st; newMessage := s; error := error st |}.

Definition setError (e : string) (st : State) : State :=
  {| bookingId := bookingId st; user := user st;
     bookingStatus := bookingStatus st; isRider := isRider st;
     view := view st; newMessage := newMessage st; error := Some e |}.




(** *** StatusButton *)

(** [handlePress]: the status it asks [onStatusUpdate] for, if any.
    Presses are taken one at a time, so the [isUpdating] latch, which
    drops a press made while another is in flight, is always open. *)
Definition handlePress (bookingStatus : BookingStatus)
    : option BookingStatus :=
  match bookingStatus with
  | accepted => Some on_the_way
  | on_the_way => Some completed
  | _ => None
  end.

Section WithStore.

Variable ps : list Rls.UpdatePolicy.
Variable now : Timestamp.

(** [updateBookingStatus(newStatus)]: the UPDATE is restricted to the row
    whose status is still the one the screen shows. *)
Definition updateBookingStatus (db : Db) (st : State) (i : Uuid)
    (newStatus : BookingStatus) : Db * State * Alert :=
  match
    Sql.update_rls ps db (user st) now
      (fun b => id_is i b && bool_decide (status b = bookingStatus st))
      (apply_patch
         {| set_status := Some newStatus; set_rider_id := None;
            set_updated_at := Some now; set_completed_at := None;
            set_cancelled_at := None; set_cancelled_by := None;
            set_cancellation_reason := None |})
  with
  | Err _ => (db, st, AlertError "Failed to update booking status")
  | Ok (_, []) => (db, st, AlertError "Failed to update booking status")
  | Ok (t', _) =>
      (with_bookings db t', setBookingStatus newStatus st, AlertSuccess)
  end.

(** A press on the status button of a header that is drawn. Every
    header draws the button only when [isRider] holds, and the button
    handles the press only in the two states it is drawn for. On the
    screen without a booking [bookingId] is undefined: the request
    [.match({ id: undefined, ... })] is refused by the store, which
    is reported like any other failure. *)
Definition pressStatusButton (db : Db) (st : State)
    : Db * State * option Alert :=
  if isRider st then
    match handlePress (bookingStatus st) with
    | Some target =>
        match bookingId st with
        | Some i =>
            let '(db', st', a) := updateBookingStatus db st i target in
            (db', st', Some a)
        | None =>
            (db, st, Some (AlertError "Failed to update booking status"))
        end
    | None => (db, st, None)
    end
  else (db, st, None).

End WithStore.

(** *** The message view *)

Definition sender_of (p : Profile) : MessageSender :=
  {| s_id := p_id p;
     s_username := Js.or_else (p_username p) (Js.lit "Unknown");
     s_avatar_url := Js.or_else (default [] (p_avatar_url p)) [] |}.

Definition with_sender (m : MessageRow) (p : Profile) : Message :=
  {| msg_id := m_id m; msg_content := m_content m;
     msg_created_at := m_created_at m; msg_sender_id := m_sender_id m;
     msg_booking_id := m_booking_id m; msg_sender := sender_of p;
     msg_image_url := Js.or_null (m_image_url m);
     msg_file_url := Js.or_null (m_file_url m);
     msg_file_name := Js.or_null (m_file_name m) |}.

(** *** fetchInitialData *)




(** [profilesData.find(profile => profile.id === message.sender_id)]. *)
Definition find_sender (profilesData : list Profile) (m : MessageRow)
    : option Profile :=
  head (filter (fun p => p_id p = m_sender_id m) profilesData).

(** The [map] to a message or [null], then the [filter] of the nulls. *)
Definition messagesWithSenders (profilesData : list Profile)
    (messagesData : list MessageRow) : list Message :=
  omap (fun m => with_sender m <$> find_sender profilesData m) messagesData.

(** One tick of the poll, given what its two queries answer. *)
Definition pollCycle (messagesQ : Result (list MessageRow))
    (profilesQ : list Uuid → Result (list Profile)) (st : State) : State :=
  match messagesQ with
  | Err _ => setError "Error polling messages" st
  | Ok messagesData =>
      match profilesQ (m_sender_id <$> messagesData) with
      | Err _ => setError "Error polling messages" st
      | Ok profilesData =>
          setMessages (messagesWithSenders profilesData messagesData) st
      end
  end.

(** One tick of the poll against a store that answers. *)
Definition poll (db : Db) (i : Uuid) (st : State) : State :=
  pollCycle (Ok (Messages.select_by_booking db (user st) i))
    (fun ids => Ok (Messages.select_profiles db ids)) st.

(** The INSERT handler of the subscription, given what the profile query
    answers: the new message goes to the end of the view. *)
Definition onInsert (profileQ : Result Profile) (payload : MessageRow)
    (st : State) : State :=
  match profileQ with
  | Err _ => st
  | Ok senderProfile =>
      setMessages (view st ++ [with_sender payload senderProfile]) st
  end.

Definition push (db : Db) (payload : MessageRow) (st : State) : State :=
  onInsert (Messages.select_profile db (m_sender_id payload)) payload st.

(** *** sendMessage *)

Inductive SendOutcome :=
  | Returned        (* the guard returned: nothing was done *)
  | Sent            (* the row is stored and shown *)
  | Alerted.        (* Alert 'Failed to send message' *)

Definition sendMessage (now : Timestamp) (new_id : Uuid) (db : Db)
    (st : State) : Db * State * SendOutcome :=
  match Js.trim (newMessage st), bookingId st, user st with
  | [], _, _ | _, None, _ | _, _, None => (db, st, Returned)
  | content, Some i, Some u =>
      match Messages.insert db (user st) now new_id i u content with
      | (db', Err _) => (db', st, Alerted)
      | (db', Ok message) =>
          (* sender:profiles(...) embeds the sender's profile, or null *)
          match head (filter (fun p => p_id p = m_sender_id message)
                        (profiles db')) with
          | None => (db', st, Alerted)
          | Some p =>
              (db',
               setNewMessage []
                 (setMessages (view st ++ [with_sender message p]) st),
               Sent)
          end
      end
  end.

End ChatScreen.

(** ** components/ChatPanel.tsx *)

Module ChatPanel.

Inductive SendOutcome :=
  | Returned        (* the guard returned: nothing was done *)
  | Sent
  | Logged.         (* console.error('Error sending message:', error) *)

(** [handleSendMessage]: the new content of the input box comes with the
    outcome. *)
Definition handleSendMessage (uid : option Uuid) (now : Timestamp)
    (new_id : Uuid) (db : Db) (bookingId : Uuid) (newMessage : Js.str)
    : Db * Js.str * SendOutcome :=
  match Js.trim newMessage, uid with
  | [], _ | _, None => (db, newMessage, Returned)
  | content, Some u =>
      match Messages.insert db uid now new_id bookingId u content with
      | (db', Err _) => (db', newMessage, Logged)
      | (db', Ok _) => (db', [], Sent)
      end
  end.

End ChatPanel.

(** ** screens/TripScreen.tsx *)

Module TripScreen.

(** The form. [scheduledTime] is declared a [Date]; [validateTripForm]
    nevertheless tests it for presence, so it is optional here. *)
Record FormData := {
  fd_name : Js.str;
  pickupLocation : Js.str;
  dropoffLocation : Js.str;
  isASAP : bool;
  scheduledTime : option Timestamp;
  specialNotes : Js.str
}.

Inductive Field := f_name | f_pickupLocation | f_dropoffLocation
  | f_scheduledTime.

(** The [errors] object of [validateTripForm], as the list of its keys in
    insertion order. *)
Definition validationErrors (fd : FormData) : list Field :=
  (if Js.truthy (Js.trim (fd_name fd)) then [] else [f_name])
  ++ (if Js.truthy (Js.trim (pickupLocation fd)) then []
      else [f_pickupLocation])
  ++ (if Js.truthy (Js.trim (dropoffLocation fd)) then []
      else [f_dropoffLocation])
  ++ (if negb (isASAP fd) && negb (bool_decide (is_Some (scheduledTime fd)))
      then [f_scheduledTime] else []).

(** [Object.keys(errors).length === 0]. *)
Definition validateTripForm (fd : FormData) : bool :=
  bool_decide (validationErrors fd = []).

Inductive SubmitOutcome :=
  | MustBeLoggedIn          (* 'You must be logged in to create a trip' *)
  | MissingInformation      (* the validation alert *)
  | StoreError (e : Error)  (* the service's error, shown *)
  | Created (b : Booking).  (* 'Your trip has been created successfully!' *)

(** The argument [handleSubmit] builds for [createBooking]. *)
Definition booking_data (fd : FormData) : CreateBookingData :=
  {| cb_pickup_location := pickupLocation fd;
     cb_dropoff_location := dropoffLocation fd;
     cb_scheduled_time := scheduledTime fd;
     cb_notes :=
       if Js.truthy (Js.trim (specialNotes fd))
       then Some (Js.lit "Special Notes: " ++ specialNotes fd) else None;
     cb_is_asap := Some (isASAP fd);
     cb_booking_type := trip;
     cb_name := fd_name fd |}.

Definition handleSubmit (uid : option Uuid) (now : Timestamp) (new_id : Uuid) (db : Db) (fd : FormData)
    : Db * SubmitOutcome :=
  match uid with
  | None => (db, MustBeLoggedIn)
  | Some _ =>
      if negb (validateTripForm fd) then (db, MissingInformation)
      else
        match bookingService.createBooking uid now new_id db
                (booking_data fd) with
        | (db', Err e) => (db', StoreError e)
        | (db', Ok b) => (db', Created b)
        end
  end.

End TripScreen.

(** ** Vocabulary of the statements *)

(** The row an UPDATE with patch [p] writes in place of [b]: the patch,
    then the trigger. *)
Definition touch (now : Timestamp) (p : Patch) (b : Booking) : Booking :=
  Sql.update_updated_at_column now (apply_patch p b).

(** The rows [.eq('id', i)] selects for the session under the policies. *)
Definition admitted (ps : list Rls.UpdatePolicy) (uid : option Uuid)
    (db : Db) (i : Uuid) (b : Booking) : bool :=
  id_is i b && Rls.may_update ps db uid b.

(** The chain of the status enumeration: the successor the application
    moves a booking to ([accept_booking], then the two presses of
    [StatusButton]). *)
Definition next_status (s : BookingStatus) : option BookingStatus :=
  match s with
  | pending => Some accepted
  | accepted => Some on_the_way
  | on_the_way => Some completed
  | completed | cancelled => None
  end.

(** The transitions of the specification's state machine: stay, one step
    along the chain, or Cancelled from a state that is not terminal. *)
Definition spec_step (s s' : BookingStatus) : Prop :=
  s' = s ∨ next_status s = Some s'
  ∨ (s' = cancelled ∧ s ≠ completed ∧ s ≠ cancelled).

(** The transitions the guarded operations make: stay, one step along
    the chain, or Cancelled from any state. *)
Definition code_step (s s' : BookingStatus) : Prop :=
  s' = s ∨ next_status s = Some s' ∨ s' = cancelled.

Definition row_step (b b' : Booking) : Prop :=
  id b' = id b ∧ code_step (status b) (status b').

(** One operation on the table: the rows stay in place and each makes a
    [code_step]; new rows come at the end, Pending. *)
Definition table_step (t t' : list Booking) : Prop :=
  ∃ t1 news, t' = t1 ++ news ∧ Forall2 row_step t t1
             ∧ Forall (fun b => status b = pending ∧ rider_id b = None) news.

(** The lifecycle operations as the screens issue them. *)
Inductive Op :=
  | op_create (uid : option Uuid) (now : Timestamp) (new_id : Uuid)
      (data : CreateBookingData)          (* bookingService.createBooking *)
  | op_accept (uid : option Uuid) (now : Timestamp) (bookingId : Uuid)
                                          (* riderService.acceptBooking *)
  | op_advance (now : Timestamp) (st : ChatScreen.State)
                                          (* a press on StatusButton *)
  | op_cancel (uid : option Uuid) (now : Timestamp) (i : Uuid)
      (reason : Js.str).                  (* bookingService.cancelBooking *)

Section Run.

Variable sel : Db → option Uuid → Booking → bool.
Variable ps : list Rls.UpdatePolicy.

Definition run_op (db : Db) (op : Op) : Db :=
  match op with
  | op_create uid now new_id data =>
      (bookingService.createBooking uid now new_id db data).1
  | op_accept uid now i => (riderService.acceptBooking sel uid now db i).1
  | op_advance now st => (ChatScreen.pressStatusButton ps now db st).1.1
  | op_cancel uid now i reason =>
      (bookingService.cancelBooking ps uid now db i reason).1
  end.

(** The stores after each operation of a sequence. *)
Fixpoint run_ops (db : Db) (ops : list Op) : list Db :=
  match ops with
  | [] => []
  | op :: ops' => run_op db op :: run_ops (run_op db op) ops'
  end.

End Run.

(** The statuses the row at position [k] shows over a sequence of
    stores, from the store it first appears in. *)
Definition status_trace (k : nat) (dbs : list Db) : list BookingStatus :=
  omap (fun db => status <$> bookings db !! k) dbs.

(** The session's user is the booking's owner or its assigned rider. *)
Definition is_party (uid : option Uuid) (b : Booking) : Prop :=
  ∃ u, uid = Some u ∧ (user_id b = u ∨ rider_id b = Some u).

(** What no operation of the chat screen writes once it is mounted,
    except [fetchInitialData], which sets [isRider]. *)
Definition same_screen (st1 st : ChatScreen.State) : Prop :=
  ChatScreen.bookingId st = ChatScreen.bookingId st1
  ∧ ChatScreen.user st = ChatScreen.user st1
  ∧ ChatScreen.isRider st = ChatScreen.isRider st1.

(** The object [updateBookingStatus] passes to [.update]. *)
Definition status_patch (now : Timestamp) (s : BookingStatus) : Patch :=
  {| set_status := Some s; set_rider_id := None; set_updated_at := Some now;
     set_completed_at := None; set_cancelled_at := None;
     set_cancelled_by := None; set_cancellation_reason := None |}.

(** The object [cancelBooking] passes to [.update]. *)
Definition cancel_patch (uid : option Uuid) (now : Timestamp)
    (reason : Js.str) : Patch :=
  {| set_status := Some cancelled; set_rider_id := None;
     set_updated_at := None; set_completed_at := None;
     set_cancelled_at := Some now; set_cancelled_by := uid;
     set_cancellation_reason := Some reason |}.

(** The cancellation stamps go with the status: [cancelled_at] and
    [cancelled_by] are set exactly on a Cancelled booking. *)
Definition cancel_stamped (b : Booking) : Prop :=
  (is_Some (cancelled_at b) ↔ status b = cancelled)
  ∧ (is_Some (cancelled_by b) ↔ status b = cancelled).

(** The order of the message view: creation time, ascending. *)
Definition view_older_first (a b : ChatScreen.Message) : Prop :=
  ChatScreen.msg_created_at a ≤ ChatScreen.msg_created_at b.

(** The order of the list of available bookings: creation time,
    descending. *)
Definition offered_newer_first (a b : riderService.BookingWithUser) : Prop :=
  created_at (riderService.booking b) ≤ created_at (riderService.booking a).

(** A blank text: empty, or white space only. *)
Definition blank (s : Js.str) : Prop :=
  Forall (fun c => Js.is_white_space c = true) s.

(** ** Sample data *)

Module Sample.

Definition a_booking (s : BookingStatus) (rider : option Uuid)
    (done_at gone_at : option Timestamp) (gone_by : option Uuid)
    (why : option Js.str) : Booking :=
  {| id := "b1"; user_id := "U1"; rider_id := rider;
     pickup_location := Js.lit "A"; dropoff_location := Js.lit "B";
     scheduled_time := None; status := s; created_at := 1; updated_at := 5;
     notes := None; is_asap := true; completed_at := done_at;
     cancelled_at := gone_at; cancelled_by := gone_by;
     cancellation_reason := why; booking_type := trip;
     name := Js.lit "Airport" |}.

Definition store (t : list Booking) : Db :=
  {| bookings := t;
     rider_profiles := [ {| rp_user_id := "R1"; rp_is_available := true |};
                         {| rp_user_id := "R2"; rp_is_available := true |} ];
     profiles := [ {| p_id := "U1"; p_username := Js.lit "una";
                      p_avatar_url := None |};
                   {| p_id := "R1"; p_username := Js.lit "rio";
                      p_avatar_url := None |} ];
     messages := [] |}.

Definition b_pending : Booking :=
  a_booking pending None None None None None.
Definition b_accepted : Booking :=
  a_booking accepted (Some "R1") None None None None.
Definition b_on_the_way : Booking :=
  a_booking on_the_way (Some "R1") None None None None.
Definition b_completed : Booking :=
  a_booking completed (Some "R1") (Some 7) None None None.
Definition b_cancelled : Booking :=
  a_booking cancelled (Some "R1") None (Some 8) (Some "U1")
    (Some (Js.lit "changed plans")).

Definition a_message (i sender : Uuid) (sent : Timestamp) (text : string)
    : MessageRow :=
  {| m_id := i; m_booking_id := "b1"; m_sender_id := sender;
     m_content := Js.lit text; m_created_at := sent; m_image_url := None;
     m_file_url := None; m_file_name := None |}.

(** The store with booking b1 accepted by R1 and the given messages. *)
Definition chat_store (ms : list MessageRow) : Db :=
  with_messages (store [b_accepted]) ms.

(** The chat screen of [who], showing booking b1 in state [s]. *)
Definition chat (s : BookingStatus) (who : Uuid) (rider : bool)
    : ChatScreen.State :=
  {| ChatScreen.bookingId := Some "b1"; ChatScreen.user := Some who;
     ChatScreen.bookingStatus := s; ChatScreen.isRider := rider;
     ChatScreen.view := []; ChatScreen.newMessage := [];
     ChatScreen.error := None |}.

End Sample.

(** * The read paths, the other screens, the profile service *)

(** ** [Array.prototype.sort] *)

Module JsArray.

(** [xs.sort(cmp)] is a stable sort. [before a b] stands for
    [cmp(a, b) <= 0]; with a comparator that is a total preorder every
    stable sort returns this list: each element, taken from the right,
    goes in front of the first one it may precede. *)
Fixpoint insert {A} (before : A → A → bool) (x : A) (l : list A) : list A :=
  match l with
  | [] => [x]
  | y :: l' => if before x y then x :: l else y :: insert before x l'
  end.

Definition sort {A} (before : A → A → bool) (l : list A) : list A :=
  foldr (insert before) [] l.

End JsArray.

(** ** services/bookingService.ts: the read paths *)

Module bookingReads.

Section WithSession.

Variable sel : Db → option Uuid → Booking → bool.
Variable uid : option Uuid.

(** [getBooking(id)]: [.select('*').eq('id', id).single()]. *)
Definition getBooking (db : Db) (i : Uuid) : Result Booking :=
  Sql.single
    (filter (fun b => id b = i)
       (filter (fun b => sel db uid b) (bookings db))).

(** [getUserBookings(status?)]: the rows the SELECT policy shows,
    of the given status if there is one, newest first. *)
Definition getUserBookings (db : Db) (st : option BookingStatus)
    : list Booking :=
  let visible := filter (fun b => sel db uid b) (bookings db) in
  merge_sort riderService.newer_first
    match st with
    | Some s => filter (fun b => status b = s) visible
    | None => visible
    end.

End WithSession.

End bookingReads.

(** ** screens/BookingStatusScreen.tsx, screens/BookingHistoryScreen.tsx *)

Module BookingLists.

(** The comparator of both screens,
    [new Date(b.created_at).getTime() - new Date(a.created_at).getTime()],
    is at most zero when [a] is not older than [b]. *)
Definition newest_first (a b : Booking) : bool :=
  bool_decide (created_at b ≤ created_at a).

Section WithSession.

Variable sel : Db → option Uuid → Booking → bool.
Variable uid : option Uuid.

(** [fetchBookings] of a screen that keeps the statuses [kept]; the
    argument [shown] is the list the screen holds, which stays when
    nobody is signed in. *)
Definition fetchBookings (kept : list BookingStatus) (db : Db)
    (shown : list Booking) : list Booking :=
  match uid with
  | None => shown
  | Some _ =>
      JsArray.sort newest_first
        (filter (fun b => status b ∈ kept)
           (bookingReads.getUserBookings sel uid db None))
  end.

End WithSession.

(** BookingStatusScreen: ['pending', 'accepted', 'on_the_way']. *)
Definition active_statuses : list BookingStatus :=
  [pending; accepted; on_the_way].

(** BookingHistoryScreen: ['completed', 'cancelled']. *)
Definition history_statuses : list BookingStatus := [completed; cancelled].

(** The rows under a tab, [bookings.filter(b => b.status === tab)], and
    the number in the tab's badge. *)
Definition filteredBookings (tab : BookingStatus) (shown : list Booking)
    : list Booking :=
  filter (fun b => status b = tab) shown.

Definition count (tab : BookingStatus) (shown : list Booking) : nat :=
  length (filteredBookings tab shown).

End BookingLists.

(** ** screens/BookingDetailsScreen.tsx *)

Module BookingDetailsScreen.

Record State := {
  bookingId : Uuid;             (* route.params.bookingId *)
  booking : option Booking;
  error : option Error;
  isUserBooking : bool
}.

Section WithSession.

Variable sel : Db → option Uuid → Booking → bool.
Variable ps : list Rls.UpdatePolicy.
Variable uid : option Uuid.

(** [loadBooking]: a failure sets [error] and nothing else; a success
    sets the booking and the ownership flag and leaves [error] as it
    is. *)
Definition loadBooking (db : Db) (st : State) : State :=
  match bookingReads.getBooking sel uid db (bookingId st) with
  | Err e =>
      {| bookingId := bookingId st; booking := booking st;
         error := Some e; isUserBooking := isUserBooking st |}
  | Ok b =>
      {| bookingId := bookingId st; booking := Some b; error := error st;
         isUserBooking := bool_decide (uid = Some (user_id b)) |}
  end.

(** The screen draws the details, and with them the cancel button on a
    Pending booking, only when [error] is null and a booking is there. *)
Definition cancelButton (st : State) : bool :=
  match error st, booking st with
  | None, Some b => bool_decide (status b = pending)
  | _, _ => false
  end.

Inductive Outcome :=
  | NoButton                  (* there is nothing to press *)
  | AlertError (e : Error)    (* Alert.alert('Error', error.message) *)
  | AlertSuccess.             (* 'Booking cancelled successfully' *)

(** A press on "Cancel Booking", confirmed with "Yes, Cancel". *)
Definition handleCancelBooking (now : Timestamp) (db : Db) (st : State)
    : Db * Outcome :=
  if cancelButton st then
    match bookingService.cancelBooking ps uid now db (bookingId st)
            (Js.lit "Cancelled by user") with
    | (db', Err e) => (db', AlertError e)
    | (db', Ok _) => (db', AlertSuccess)
    end
  else (db, NoButton).

End WithSession.

End BookingDetailsScreen.

(** ** services/riderService.ts: the other lists *)

Module riderReads.

(** The [user] object of an active booking carries the profile's
    [updated_at] as well. *)
Record ActiveUser := {
  au_id : Uuid;
  au_username : Js.str;
  au_avatar_url : option Js.str;
  au_updated_at : Timestamp
}.

Record ActiveBooking := {
  ab_booking : Booking;
  ab_user : ActiveUser
}.

(** A completed booking comes with the owner's profile, or null. *)
Record CompletedBooking := {
  cb_booking : Booking;
  cb_user : option Profile
}.

Section WithSession.

Variable sel : Db → option Uuid → Booking → bool.
Variable uid : option Uuid.

(** The [updated_at] column of a profile row, NOT NULL in the schema;
    the [Profile] record holds the three columns the other queries
    select. *)
Variable updated_at_of : Profile → Timestamp.

Definition with_active_user (now : Timestamp) (ps : list Profile)
    (b : Booking) : ActiveBooking :=
  {| ab_booking := b;
     ab_user :=
       {| au_id := user_id b;
          au_username :=
            Js.or_else
              (from_option p_username []
                 (riderService.profileMap_get ps (user_id b)))
              (Js.lit "Unknown User");
          au_avatar_url :=
            Js.or_null
              (riderService.profileMap_get ps (user_id b) ≫= p_avatar_url);
          au_updated_at :=
            from_option updated_at_of now
              (riderService.profileMap_get ps (user_id b)) |} |}.

(** [getActiveBookings()]: the bookings assigned to the caller that are
    Accepted or OnTheWay, in the store's order. *)
Definition getActiveBookings (now : Timestamp) (db : Db)
    : Result (list ActiveBooking) :=
  match uid with
  | None => Err NotAuthenticated
  | Some u =>
      if negb (riderService.isRider uid db).1 then Err NotARider
      else
        let rows :=
          filter (fun b => status b ∈ [accepted; on_the_way])
            (filter (fun b => rider_id b = Some u)
               (filter (fun b => sel db uid b) (bookings db))) in
        match rows with
        | [] => Ok []
        | _ =>
            let userIds := user_id <$> rows in
            let found := filter (fun p => p_id p ∈ userIds) (profiles db) in
            Ok (with_active_user now found <$> rows)
        end
  end.

(** [getCompletedBookings()]: every Completed booking the caller may
    see, newest first; neither the session nor the rider profile is
    checked. *)
Definition getCompletedBookings (db : Db) : list CompletedBooking :=
  let rows :=
    merge_sort riderService.newer_first
      (filter (fun b => status b = completed)
         (filter (fun b => sel db uid b) (bookings db))) in
  let userIds := remove_dups (user_id <$> rows) in
  let found := filter (fun p => p_id p ∈ userIds) (profiles db) in
  (fun b =>
     {| cb_booking := b;
        cb_user := head (filter (fun p => p_id p = user_id b) found) |})
    <$> rows.

End WithSession.

End riderReads.

(** ** components/ChatPanel.tsx: the list the panel shows *)

Module ChatPanelView.

(** [fetchMessages]: the booking's messages, oldest first. *)
Definition fetchMessages (db : Db) (uid : option Uuid) (bookingId : Uuid)
    : list MessageRow :=
  Messages.select_by_booking db uid bookingId.

(** The INSERT handler of the panel's subscription. *)
Definition onInsert (payload : MessageRow) (shown : list MessageRow)
    : list MessageRow :=
  shown ++ [payload].

End ChatPanelView.

(** ** screens/SignUpScreen.tsx *)

Module SignUpScreen.

Inductive Problem := Missing | TooShort | NotAnAddress.

(** [newErrors]: a key is absent when the field is in order. *)
Record ValidationErrors := {
  e_username : option Problem;
  e_email : option Problem;
  e_password : option Problem
}.

(** [s.includes('@')]. *)
Definition has_at (s : Js.str) : bool := bool_decide (64%N ∈ s).

Definition newErrors (username email password : Js.str) : ValidationErrors :=
  {| e_username :=
       if negb (Js.truthy (Js.trim username)) then Some Missing
       else if bool_decide (length username < 3)%nat then Some TooShort
       else None;
     e_email :=
       if negb (Js.truthy (Js.trim email)) then Some Missing
       else if negb (has_at email) then Some NotAnAddress
       else None;
     e_password :=
       if negb (Js.truthy (Js.trim password)) then Some Missing
       else if bool_decide (length password < 6)%nat then Some TooShort
       else None |}.

(** [validateInputs]: [Object.keys(newErrors).length === 0]. *)
Definition validateInputs (username email password : Js.str) : bool :=
  match newErrors username email password with
  | {| e_username := None; e_email := None; e_password := None |} => true
  | _ => false
  end.

End SignUpScreen.

(** ** screens/TaskScreen.tsx *)

Module TaskScreen.

Inductive Priority := Low | Normal | High.

Definition priority_text (p : Priority) : Js.str :=
  match p with
  | Low => Js.lit "Low"
  | Normal => Js.lit "Normal"
  | High => Js.lit "High"
  end.

(** As in the trip form, [scheduledTime] is declared a [Date] and
    tested for presence. *)
Record FormData := {
  fd_name : Js.str;
  itemsList : Js.str;
  storePreference : Js.str;
  dropoffLocation : Js.str;
  isASAP : bool;
  scheduledTime : option Timestamp;
  specialNotes : Js.str;
  taskPriority : Priority
}.

Inductive Field := f_name | f_itemsList | f_storePreference
  | f_dropoffLocation | f_scheduledTime.

Definition validationErrors (fd : FormData) : list Field :=
  (if Js.truthy (Js.trim (fd_name fd)) then [] else [f_name])
  ++ (if Js.truthy (Js.trim (itemsList fd)) then [] else [f_itemsList])
  ++ (if Js.truthy (Js.trim (storePreference fd)) then []
      else [f_storePreference])
  ++ (if Js.truthy (Js.trim (dropoffLocation fd)) then []
      else [f_dropoffLocation])
  ++ (if negb (isASAP fd) && negb (bool_decide (is_Some (scheduledTime fd)))
      then [f_scheduledTime] else []).

Definition validateTaskForm (fd : FormData) : bool :=
  bool_decide (validationErrors fd = []).

(** The template literal of the notes; the line break is code unit 10. *)
Definition task_notes (fd : FormData) : Js.str :=
  Js.lit "Items: " ++ itemsList fd ++ [10%N] ++ Js.lit "Priority: "
  ++ priority_text (taskPriority fd)
  ++ (if Js.truthy (Js.trim (specialNotes fd))
      then [10%N] ++ Js.lit "Special Notes: " ++ specialNotes fd else []).

Definition booking_data (fd : FormData) : CreateBookingData :=
  {| cb_pickup_location := storePreference fd;
     cb_dropoff_location := dropoffLocation fd;
     cb_scheduled_time := scheduledTime fd;
     cb_notes := Some (task_notes fd);
     cb_is_asap := Some (isASAP fd);
     cb_booking_type := task;
     cb_name := fd_name fd |}.

Definition handleSubmit (uid : option Uuid) (now : Timestamp)
    (new_id : Uuid) (db : Db) (fd : FormData)
    : Db * TripScreen.SubmitOutcome :=
  match uid with
  | None => (db, TripScreen.MustBeLoggedIn)
  | Some _ =>
      if negb (validateTaskForm fd) then (db, TripScreen.MissingInformation)
      else
        match bookingService.createBooking uid now new_id db
                (booking_data fd) with
        | (db', Err e) => (db', TripScreen.StoreError e)
        | (db', Ok b) => (db', TripScreen.Created b)
        end
  end.

End TaskScreen.

(** ** services/profileService.ts *)

Module profileService.

(** A row of [profiles], all four columns (lib/supabase.sql). *)
Record Row := {
  r_id : Uuid;
  r_username : Js.str;
  r_avatar_url : option Js.str;
  r_updated_at : Timestamp
}.

(** The argument of [upsertProfile]. *)
Record Input := {
  i_id : Uuid;
  i_username : Js.str;
  i_avatar_url : option Js.str
}.

(** [.maybeSingle()]: no row is [null], several rows are an error. *)
Definition maybeSingle {A} (rows : list A) : Result (option A) :=
  match rows with
  | [] => Ok None
  | [r] => Ok (Some r)
  | _ => Err NoSingleRow
  end.

(** [getProfile(userId)]; profiles are readable by everyone. *)
Definition getProfile (t : list Row) (userId : Uuid) : Result (option Row) :=
  maybeSingle (filter (fun r => r_id r = userId) t).

Section WithSession.

Variable uid : option Uuid.

(** UPDATE and INSERT on [profiles]: [auth.uid() = id], USING and
    WITH CHECK. *)
Definition own (r : Row) : bool := bool_decide (uid = Some (r_id r)).

(** [upsertProfile(profile)]: read, then update the row that is there or
    insert one. The error of [getProfile] here is the several-rows
    error, whose message does not contain 'no rows', so it is
    returned. *)
Definition upsertProfile (now : Timestamp) (t : list Row) (p : Input)
    : list Row * Result Row :=
  let new_row :=
    {| r_id := i_id p; r_username := i_username p;
       r_avatar_url := Js.or_null (i_avatar_url p); r_updated_at := now |} in
  match getProfile t (i_id p) with
  | Err e => (t, Err e)
  | Ok (Some _) =>
      (* the identifier is not among the keys written: the row keeps it *)
      let hit r := bool_decide (r_id r = i_id p) && own r in
      let set r :=
        {| r_id := r_id r; r_username := i_username p;
           r_avatar_url := Js.or_null (i_avatar_url p);
           r_updated_at := now |} in
      let rows := set <$> filter (fun r => hit r) t in
      if forallb own rows then
        match Sql.single rows with
        | Ok r => ((fun r => if hit r then set r else r) <$> t, Ok r)
        | Err e => (t, Err e)
        end
      else (t, Err RlsViolation)
  | Ok None =>
      if own new_row then (t ++ [new_row], Ok new_row)
      else (t, Err RlsViolation)
  end.

End WithSession.

End profileService.

(** ** screens/AvailableBookingsScreen.tsx *)

Module AvailableBookingsScreen.

Record State := {
  bookings : list riderService.BookingWithUser;
  loading : bool;
  error : option string
}.

Inductive Alert :=
  | AlertError      (* 'Failed to accept booking. Please try again.' *)
  | AlertSuccess.   (* 'Booking accepted successfully' *)

Section WithSession.

Variable sel : Db → option Uuid → Booking → bool.
Variable uid : option Uuid.

(** [loadData]: the error is cleared first; the list is replaced only by
    a list that arrived; [finally] lowers [loading]. *)
Definition loadData (db : Db) (st : State) : State :=
  if negb (riderService.isRider uid db).1 then
    {| bookings := bookings st; loading := false;
       error := Some "This app is for riders only. Please use the customer app instead." |}
  else
    match riderService.getAvailableBookings sel uid db with
    | Ok data => {| bookings := data; loading := false; error := None |}
    | Err _ =>
        {| bookings := bookings st; loading := false;
           error := Some "Failed to load bookings. Please try again." |}
    end.

(** [handleAcceptBooking(bookingId)]: a press while [loading] holds
    returns at once, through the [finally] that lowers [loading]. *)
Definition handleAcceptBooking (now : Timestamp) (db : Db) (st : State)
    (bookingId : Uuid) : Db * State * option Alert :=
  if loading st then
    (db, {| bookings := bookings st; loading := false; error := error st |},
     None)
  else
    match riderService.acceptBooking sel uid now db bookingId with
    | (db', Err _) =>
        (db',
         {| bookings := bookings st; loading := false; error := error st |},
         Some AlertError)
    | (db', Ok _) => (db', loadData db' st, Some AlertSuccess)
    end.

End WithSession.

End AvailableBookingsScreen.

(** ** screens/ActiveBookingsScreen.tsx *)

Module ActiveBookingsScreen.

Record State := {
  activeBookings : list riderReads.ActiveBooking;
  availableBookings : list riderService.BookingWithUser;
  completedBookings : list riderReads.CompletedBooking;
  selectedBooking : option riderReads.ActiveBooking;
  error : option string;
  isRider : option bool
}.

Inductive Alert :=
  | AlertError.     (* 'Failed to accept booking. Please try again.' *)

Section WithSession.

Variable sel : Db → option Uuid → Booking → bool.
Variable uid : option Uuid.
Variable updated_at_of : Profile → Timestamp.

(** [loadData]: the three lists are read together and replaced
    together; a selected booking is refreshed from the active list when
    it is still there. *)
Definition loadData (now : Timestamp) (db : Db) (st : State) : State :=
  if negb (riderService.isRider uid db).1 then
    {| activeBookings := activeBookings st;
       availableBookings := availableBookings st;
       completedBookings := completedBookings st;
       selectedBooking := selectedBooking st;
       error := Some "This app is for riders only. Please use the customer app instead.";
       isRider := Some false |}
  else
    match riderReads.getActiveBookings sel uid updated_at_of now db,
          riderService.getAvailableBookings sel uid db with
    | Ok active, Ok available =>
        {| activeBookings := active;
           availableBookings := available;
           completedBookings := riderReads.getCompletedBookings sel uid db;
           selectedBooking :=
             match selectedBooking st with
             | Some s =>
                 match head (filter
                               (fun b => id (riderReads.ab_booking b)
                                         = id (riderReads.ab_booking s))
                               active) with
                 | Some updatedBooking => Some updatedBooking
                 | None => Some s
                 end
             | None => None
             end;
           error := None;
           isRider := Some true |}
    | _, _ =>
        {| activeBookings := activeBookings st;
           availableBookings := availableBookings st;
           completedBookings := completedBookings st;
           selectedBooking := selectedBooking st;
           error := Some "Failed to load bookings. Please try again.";
           isRider := Some true |}
    end.

(** [handleAcceptBooking(bookingId)]: the lists are reloaded after an
    acceptance that went through, and only then. *)
Definition handleAcceptBooking (now now' : Timestamp) (db : Db) (st : State)
    (bookingId : Uuid) : Db * State * option Alert :=
  match riderService.acceptBooking sel uid now db bookingId with
  | (db', Err _) => (db', st, Some AlertError)
  | (db', Ok _) => (db', loadData now' db' st, None)
  end.

End WithSession.

End ActiveBookingsScreen.

(** ** screens/ChatScreen.tsx: attachments *)

Module ChatMedia.

(** [s.startsWith(p)]. *)
Fixpoint startsWith (p s : Js.str) : bool :=
  match p, s with
  | [], _ => true
  | c :: p', d :: s' => bool_decide (c = d) && startsWith p' s'
  | _ :: _, [] => false
  end.

(** [s.replace(p, '')] for a string [p]: the first occurrence goes. *)
Fixpoint remove_first (p s : Js.str) : Js.str :=
  if startsWith p s then drop (length p) s
  else match s with
       | [] => []
       | c :: s' => c :: remove_first p s'
       end.

(** [s.split('/').pop()]: what follows the last slash. [cur] is the
    segment read so far. *)
Fixpoint last_segment_from (cur s : Js.str) : Js.str :=
  match s with
  | [] => cur
  | c :: s' =>
      if bool_decide (c = 47%N) then last_segment_from [] s'
      else last_segment_from (cur ++ [c]) s'
  end.

Definition last_segment (s : Js.str) : Js.str := last_segment_from [] s.

(** The class [a-zA-Z0-9.-] of [uploadAndSendFile]. *)
Definition safe (c : N) : bool :=
  ((97 <=? c) && (c <=? 122) || (65 <=? c) && (c <=? 90)
   || (48 <=? c) && (c <=? 57) || (c =? 46) || (c =? 45))%N.

(** [fileName.replace(/[^a-zA-Z0-9.-]/g, '_')], code unit by code
    unit. *)
Definition safeFileName (fileName : Js.str) : Js.str :=
  (fun c => if safe c then c else 95%N) <$> fileName.

(** [`${bookingId}/${safeFileName}`]. *)
Definition filePath (bookingId : Uuid) (fileName : Js.str) : Js.str :=
  Js.lit bookingId ++ [47%N] ++ safeFileName fileName.

(** The content of the message that carries an attachment. *)
Definition image_content (publicUrl : Js.str) : Js.str :=
  Js.lit "image:" ++ publicUrl.

Definition file_content (publicUrl : Js.str) : Js.str :=
  Js.lit "file:" ++ publicUrl.

(** What [renderMessageContent] draws. *)
Inductive Rendered :=
  | Picture (imageUrl : Js.str)
  | Document (fileUrl fileName : Js.str)
  | Words (content : Js.str).

Definition renderMessageContent (content : Js.str) : Rendered :=
  if startsWith (Js.lit "image:") content then
    Picture (remove_first (Js.lit "image:") content)
  else if startsWith (Js.lit "file:") content then
    let fileUrl := remove_first (Js.lit "file:") content in
    Document fileUrl (Js.or_else (last_segment fileUrl) (Js.lit "File"))
  else Words content.

End ChatMedia.

(** ** Vocabulary of the further statements *)

(** What no lifecycle operation rewrites in a booking: who ordered what,
    when; and the rider, once there is one. *)
Definition kept (b b' : Booking) : Prop :=
  id b' = id b ∧ user_id b' = user_id b ∧ created_at b' = created_at b
  ∧ pickup_location b' = pickup_location b
  ∧ dropoff_location b' = dropoff_location b
  ∧ scheduled_time b' = scheduled_time b ∧ notes b' = notes b
  ∧ is_asap b' = is_asap b ∧ booking_type b' = booking_type b
  ∧ name b' = name b
  ∧ ∀ r, rider_id b = Some r → rider_id b' = Some r.

(** SELECT policies that show a booking to its owner and to its rider:
    both policy sets of the repository do. *)
Definition shows_own (sel : Db → option Uuid → Booking → bool) : Prop :=
  ∀ db u b, user_id b = u ∨ rider_id b = Some u → sel db (Some u) b = true.

(** The objects [startTrip] and [completeBooking] pass to [.update]. *)
Definition start_patch : Patch :=
  {| set_status := Some on_the_way; set_rider_id := None;
     set_updated_at := None; set_completed_at := None;
     set_cancelled_at := None; set_cancelled_by := None;
     set_cancellation_reason := None |}.

Definition complete_patch (now : Timestamp) : Patch :=
  {| set_status := Some completed; set_rider_id := None;
     set_updated_at := None; set_completed_at := Some now;
     set_cancelled_at := None; set_cancelled_by := None;
     set_cancellation_reason := None |}.

(** * Properties *)

(** ** The store's UPDATE *)

Section SqlUpdate.

Variable now : Timestamp.
Variable whr : Booking → bool.
Variable set : Booking → Booking.

Lemma update_table (t : list Booking) :
  (Sql.update now whr set t).1
  = (fun b => if whr b then Sql.update_updated_at_column now (set b) else b)
      <$> t.
Proof. reflexivity. Qed.

Lemma update_rows (t : list Booking) :
  (Sql.update now whr set t).2
  = (fun b => Sql.update_updated_at_column now (set b))
      <$> filter (fun b => whr b) t.
Proof. reflexivity. Qed.

(** A statement that writes no row leaves the table as it is. *)
Lemma update_no_row (t : list Booking) :
  (Sql.update now whr set t).2 = [] → (Sql.update now whr set t).1 = t.
Proof.
  rewrite update_table, update_rows.
  induction t as [|b t IH]; [done|].
  rewrite filter_cons. cbn [fmap list_fmap].
  destruct (whr b) eqn:Hb.
  - rewrite decide_True by done. done.
  - rewrite decide_False by (intros []). intros H. f_equal. by apply IH.
Qed.


End SqlUpdate.

Lemma single_Ok {A} (rows : list A) (r : A) :
  Sql.single rows = Ok r ↔ rows = [r].
Proof.
  destruct rows as [|x [|y rows]]; cbn; split; intros H;
    try discriminate; congruence.
Qed.

Lemma id_is_true (i : Uuid) (b : Booking) : id_is i b = true ↔ id b = i.
Proof. unfold id_is. apply bool_decide_eq_true. Qed.

(** ** [bookingService]: what an UPDATE by identifier does *)

Section UpdateById.

Variable ps : list Rls.UpdatePolicy.
Variable uid : option Uuid.
Variable now : Timestamp.

(** A failed call leaves the store as it was. *)
Lemma update_by_id_Err (db db' : Db) (i : Uuid) (p : Patch) (e : Error) :
  bookingService.update_by_id ps uid now db i p = (db', Err e) → db' = db.
Proof.
  unfold bookingService.update_by_id.
  destruct (Sql.update_rls _ _ _ _ _ _) as [[t' rows]|e']; [|congruence].
  destruct (Sql.single rows); congruence.
Qed.

(** A successful call wrote exactly one row: the one row with this
    identifier that the policies let the session update. *)
Lemma update_by_id_Ok (db db' : Db) (i : Uuid) (p : Patch) (b' : Booking) :
  bookingService.update_by_id ps uid now db i p = (db', Ok b') →
  ∃ b, filter (fun x => admitted ps uid db i x) (bookings db) = [b]
       ∧ b' = touch now p b
       ∧ Rls.may_become ps db uid b' = true
       ∧ db' = with_bookings db
                 ((fun x => if admitted ps uid db i x then touch now p x else x)
                    <$> bookings db).
Proof.
  unfold bookingService.update_by_id, Sql.update_rls.
  destruct (forallb _ _) eqn:Hchk; [|congruence].
  destruct (Sql.update _ _ _ _) as [t' rows] eqn:Hupd.
  destruct (Sql.single rows) as [r|] eqn:Hs; [|congruence].
  intros [= <- <-]. apply single_Ok in Hs. subst rows.
  pose proof (f_equal snd Hupd) as H2. pose proof (f_equal fst Hupd) as H1.
  rewrite update_rows in H2. rewrite update_table in H1. cbn in H1, H2.
  destruct (filter _ (bookings db)) as [|b [|]] eqn:Hf; try discriminate.
  injection H2 as H2. exists b. split; [done|]. split; [by subst|].
  split.
  - cbn in Hchk. rewrite andb_true_r in Hchk. by subst r.
  - by subst t'.
Qed.

(** The call succeeds as soon as exactly one row has the identifier and
    is open to the session, and the row as written passes WITH CHECK. *)
Lemma update_by_id_succeeds (db : Db) (i : Uuid) (p : Patch) (b : Booking) :
  filter (fun x => admitted ps uid db i x) (bookings db) = [b] →
  Rls.may_become ps db uid (touch now p b) = true →
  (bookingService.update_by_id ps uid now db i p).2 = Ok (touch now p b).
Proof.
  unfold admitted, touch. intros Hf Hchk.
  unfold bookingService.update_by_id, Sql.update_rls.
  unfold Sql.update. cbn. rewrite Hf. cbn. rewrite Hchk. done.
Qed.

End UpdateById.

(** ** The [accept_booking] procedure *)

Section AcceptBooking.

Variable uid : option Uuid.
Variable now : Timestamp.

(** A call that raises leaves the store as it was. *)
Lemma accept_booking_Err (db db' : Db) (i : Uuid) (e : Error) :
  Schema.accept_booking uid now db i = (db', Err e) → db' = db.
Proof.
  unfold Schema.accept_booking.
  destruct (negb (Rls.available_rider db uid)); [congruence|].
  destruct (negb (existsb _ _)); [congruence|].
  destruct (Sql.update _ _ _ _) as [t' [|r rows]]; congruence.
Qed.

Lemma available_rider_session (db : Db) :
  Rls.available_rider db uid = true → is_Some uid.
Proof.
  unfold Rls.available_rider. rewrite existsb_exists.
  intros (rp & _ & H). apply andb_true_iff in H as [H _].
  apply bool_decide_eq_true in H. unfold Rls.uid_is in H. by rewrite H.
Qed.

(** A call that returns wrote the conditioned UPDATE: the caller is an
    available rider, some row with this identifier was Pending without a
    rider, and exactly the rows of that kind became Accepted with the
    caller as rider, stamped [now]. *)
Lemma accept_booking_Ok (db db' : Db) (i : Uuid) :
  Schema.accept_booking uid now db i = (db', Ok tt) →
  Rls.available_rider db uid = true
  ∧ (∃ b, b ∈ bookings db ∧ id b = i ∧ status b = pending
          ∧ rider_id b = None)
  ∧ Forall2
      (fun b b' =>
         if Schema.available_for_acceptance i b
         then id b' = id b ∧ status b' = accepted ∧ rider_id b' = uid
              ∧ updated_at b' = now
         else b' = b)
      (bookings db) (bookings db')
  ∧ rider_profiles db' = rider_profiles db ∧ profiles db' = profiles db
  ∧ messages db' = messages db.
Proof.
  unfold Schema.accept_booking.
  destruct (Rls.available_rider db uid) eqn:Hr; cbn [negb]; [|congruence].
  destruct (existsb _ _) eqn:Hex; cbn [negb]; [|congruence].
  destruct (Sql.update _ _ _ _) as [t' rows] eqn:Hupd.
  destruct rows as [|r rows]; [congruence|]. intros [= <-].
  split; [done|]. split.
  - apply existsb_exists in Hex as (b & Hin & Hb).
    unfold Schema.available_for_acceptance in Hb.
    apply andb_true_iff in Hb as [Hb H3]. apply andb_true_iff in Hb as [H1 H2].
    exists b. rewrite list_elem_of_In. apply id_is_true in H1.
    apply bool_decide_eq_true in H2, H3. done.
  - split; [|done]. cbn [bookings with_bookings].
    pose proof (f_equal fst Hupd) as H1. cbn in H1. subst t'.
    apply available_rider_session in Hr as [u ->]. clear Hex Hupd.
    induction (bookings db) as [|b t IH]; constructor; [|exact IH].
    destruct (Schema.available_for_acceptance i b) eqn:Hb; [|done].
    cbn. unfold Schema.available_for_acceptance in Hb.
    apply andb_true_iff in Hb as [Hb H3]. apply andb_true_iff in Hb as [H1 H2].
    done.
Qed.

(** On a booking that is not Pending without a rider, an available rider
    is told so. *)
Lemma accept_booking_unavailable (db : Db) (i : Uuid) :
  Rls.available_rider db uid = true →
  (∀ b, b ∈ bookings db → id b = i →
        ¬ (status b = pending ∧ rider_id b = None)) →
  Schema.accept_booking uid now db i
  = (db, Err (Raised "Booking is not available for acceptance")).
Proof.
  intros Hr Hno. unfold Schema.accept_booking. rewrite Hr. cbn [negb].
  destruct (existsb _ _) eqn:Hex; [|done]. exfalso.
  apply existsb_exists in Hex as (b & Hin & Hb).
  unfold Schema.available_for_acceptance in Hb.
  apply andb_true_iff in Hb as [Hb H3]. apply andb_true_iff in Hb as [H1 H2].
  apply id_is_true in H1. apply bool_decide_eq_true in H2, H3.
  apply (Hno b); [by apply list_elem_of_In|done|done].
Qed.

(** On a Pending booking without a rider, an available rider gets it. *)
Lemma accept_booking_available (db : Db) (i : Uuid) (b : Booking) :
  Rls.available_rider db uid = true →
  b ∈ bookings db → id b = i → status b = pending → rider_id b = None →
  (Schema.accept_booking uid now db i).2 = Ok tt.
Proof.
  intros Hr Hin Hi Hs Hn. unfold Schema.accept_booking. rewrite Hr. cbn [negb].
  assert (Hb : Schema.available_for_acceptance i b = true).
  { unfold Schema.available_for_acceptance, id_is.
    by rewrite !bool_decide_eq_true_2. }
  assert (Hex : existsb (Schema.available_for_acceptance i) (bookings db)
                = true).
  { apply existsb_exists. exists b. by rewrite <- list_elem_of_In. }
  rewrite Hex. cbn [negb].
  destruct (Sql.update _ _ _ _) as [t' rows] eqn:Hupd.
  pose proof (f_equal snd Hupd) as H2. rewrite update_rows in H2. cbn in H2.
  destruct rows as [|r rows]; [|done]. exfalso.
  apply fmap_nil_inv in H2.
  apply (filter_nil_not_elem_of _ _ b H2); [by rewrite Hb|done].
Qed.

End AcceptBooking.

(** C1. [bookingService.acceptBooking] does not condition its write on
    the row being Pending without a rider: called by the assigned rider
    of a booking that is already on the way, it affects one row and puts
    the booking back to Accepted; called by the owner of a completed
    booking for another rider, it affects one row and hands the booking
    to that rider. The [accept_booking] procedure refuses both. *)
Theorem acceptBooking_writes_unconditionally :
  let db1 := Sample.store [Sample.b_on_the_way] in
  let db2 := Sample.store [Sample.b_completed] in
  (∃ b', bookingService.acceptBooking Rls.bookings_policies (Some "R1") 10
           db1 "b1" "R1"
         = (Sample.store [b'], Ok b')
         ∧ status b' = accepted ∧ rider_id b' = Some "R1")
  ∧ (∃ b', bookingService.acceptBooking Rls.bookings_policies (Some "U1") 10
             db2 "b1" "R2"
           = (Sample.store [b'], Ok b')
           ∧ status b' = accepted ∧ rider_id b' = Some "R2")
  ∧ Schema.accept_booking (Some "R1") 10 db1 "b1"
    = (db1, Err (Raised "Booking is not available for acceptance"))
  ∧ Schema.accept_booking (Some "R2") 10 db2 "b1"
    = (db2, Err (Raised "Booking is not available for acceptance")).
Proof.
  cbv zeta. split; [|split; [|split]].
  - eexists. split; [vm_compute; reflexivity|]. by vm_compute.
  - eexists. split; [vm_compute; reflexivity|]. by vm_compute.
  - by vm_compute.
  - by vm_compute.
Qed.

(** ** Status transitions of the guarded operations *)

Lemma code_step_refl (s : BookingStatus) : code_step s s.
Proof. by left. Qed.

Lemma row_step_refl (b : Booking) : row_step b b.
Proof. split; [done|apply code_step_refl]. Qed.

Lemma table_step_refl (t : list Booking) : table_step t t.
Proof.
  exists t, []. rewrite app_nil_r. split; [done|]. split; [|constructor].
  induction t; constructor; auto using row_step_refl.
Qed.

(** An UPDATE whose SET clause makes a [code_step] on every row it
    selects is a [table_step]. *)
Lemma update_table_step (now : Timestamp) (whr : Booking → bool)
    (set : Booking → Booking) (t : list Booking) :
  (∀ b, whr b = true →
        id (set b) = id b ∧ code_step (status b) (status (set b))) →
  table_step t (Sql.update now whr set t).1.
Proof.
  intros Hset. exists (Sql.update now whr set t).1, [].
  rewrite app_nil_r. split; [done|]. split; [|constructor].
  rewrite update_table.
  induction t as [|b t IH]; constructor; [|exact IH].
  destruct (whr b) eqn:Hb; [|apply row_step_refl].
  destruct (Hset b Hb) as [Hid Hst]. split; cbn; done.
Qed.

Lemma update_rls_table (ps : list Rls.UpdatePolicy) (db : Db)
    (uid : option Uuid) (now : Timestamp) (whr : Booking → bool)
    (set : Booking → Booking) (t' rows : list Booking) :
  Sql.update_rls ps db uid now whr set = Ok (t', rows) →
  t' = (Sql.update now (fun b => whr b && Rls.may_update ps db uid b) set
          (bookings db)).1.
Proof.
  unfold Sql.update_rls. destruct (forallb _ _); [|discriminate].
  destruct (Sql.update _ _ _ _). by intros [= -> ->].
Qed.

(** [cancelBooking] moves the rows it writes to Cancelled. *)
Lemma cancelBooking_table_step (ps : list Rls.UpdatePolicy)
    (uid : option Uuid) (now : Timestamp) (db : Db) (i : Uuid)
    (reason : Js.str) :
  table_step (bookings db)
    (bookings (bookingService.cancelBooking ps uid now db i reason).1).
Proof.
  unfold bookingService.cancelBooking, bookingService.update_by_id.
  destruct (Sql.update_rls _ _ _ _ _ _) as [[t' rows]|e] eqn:Hu;
    [|apply table_step_refl].
  destruct (Sql.single rows); [|apply table_step_refl].
  apply update_rls_table in Hu. cbn. subst t'.
  apply update_table_step. intros b _. split; [done|]. right. by right.
Qed.

Lemma handlePress_next (s target : BookingStatus) :
  ChatScreen.handlePress s = Some target → next_status s = Some target.
Proof. by destruct s. Qed.

(** A press on [StatusButton] moves the rows it writes one step along
    the chain: the UPDATE selects rows in the state the button was drawn
    for and writes that state's successor. *)
Lemma pressStatusButton_table_step (ps : list Rls.UpdatePolicy)
    (now : Timestamp) (db : Db) (st : ChatScreen.State) :
  table_step (bookings db)
    (bookings (ChatScreen.pressStatusButton ps now db st).1.1).
Proof.
  unfold ChatScreen.pressStatusButton.
  destruct (ChatScreen.isRider st); [|apply table_step_refl].
  destruct (ChatScreen.handlePress _) as [target|] eqn:Hp;
    [|apply table_step_refl].
  destruct (ChatScreen.bookingId st) as [i|]; [|apply table_step_refl].
  apply handlePress_next in Hp. unfold ChatScreen.updateBookingStatus.
  destruct (Sql.update_rls _ _ _ _ _ _) as [[t' rows]|e] eqn:Hu;
    [|apply table_step_refl].
  destruct rows as [|r rows]; [apply table_step_refl|].
  apply update_rls_table in Hu. cbn. subst t'.
  apply update_table_step. intros b Hb. split; [done|].
  apply andb_true_iff in Hb as [Hb _]. apply andb_true_iff in Hb as [_ Hb].
  apply bool_decide_eq_true in Hb. right. left. cbn. by rewrite Hb.
Qed.

(** [riderService.acceptBooking] moves the rows it writes from Pending
    to Accepted. *)
Lemma acceptBooking_table_step
    (sel : Db → option Uuid → Booking → bool) (uid : option Uuid)
    (now : Timestamp) (db : Db) (i : Uuid) :
  table_step (bookings db)
    (bookings (riderService.acceptBooking sel uid now db i).1).
Proof.
  unfold riderService.acceptBooking.
  destruct uid as [u|]; [|apply table_step_refl].
  destruct (filter _ (rider_profiles db)) as [|rp [|]];
    try apply table_step_refl.
  destruct (negb (rp_is_available rp)); [apply table_step_refl|].
  destruct (Schema.accept_booking _ _ _ _) as [db' [[]|e]] eqn:Ha.
  - assert (Hstep : table_step (bookings db) (bookings db')).
    { apply accept_booking_Ok in Ha as (_ & _ & Hrows & _).
      exists (bookings db'), []. rewrite app_nil_r. split; [done|].
      split; [|constructor].
      eapply Forall2_impl; [exact Hrows|]. intros b b' Hb. cbn in Hb.
      destruct (Schema.available_for_acceptance i b) eqn:Hav.
      - destruct Hb as (Hid & Hst & _). split; [done|].
        unfold Schema.available_for_acceptance in Hav.
        apply andb_true_iff in Hav as [Hav _].
        apply andb_true_iff in Hav as [_ Hav].
        apply bool_decide_eq_true in Hav. right. left.
        by rewrite Hav, Hst.
      - subst b'. apply row_step_refl. }
    by destruct (Sql.single _).
  - apply accept_booking_Err in Ha. subst db'. apply table_step_refl.
Qed.

(** [createBooking] adds one row, Pending and without a rider, or none. *)
Lemma createBooking_table_step (uid : option Uuid) (now : Timestamp)
    (new_id : Uuid) (db : Db) (data : CreateBookingData) :
  table_step (bookings db)
    (bookings (bookingService.createBooking uid now new_id db data).1).
Proof.
  unfold bookingService.createBooking.
  destruct uid as [u|]; [|apply table_step_refl].
  destruct (existsb _ _); [apply table_step_refl|].
  cbn. eexists (bookings db), [_]. split; [done|]. split.
  - induction (bookings db); constructor; auto using row_step_refl.
  - by repeat constructor.
Qed.

Lemma run_op_table_step (sel : Db → option Uuid → Booking → bool)
    (ps : list Rls.UpdatePolicy) (db : Db) (op : Op) :
  table_step (bookings db) (bookings (run_op sel ps db op)).
Proof.
  destruct op; cbn.
  - apply createBooking_table_step.
  - apply acceptBooking_table_step.
  - apply pressStatusButton_table_step.
  - apply cancelBooking_table_step.
Qed.

(** Under a [table_step] a row keeps its position and identifier. *)
Lemma table_step_lookup (t t' : list Booking) (k : nat) (b : Booking) :
  table_step t t' → t !! k = Some b →
  ∃ b', t' !! k = Some b' ∧ row_step b b'.
Proof.
  intros (t1 & news & -> & Hrows & _) Hk.
  destruct (Forall2_lookup_l _ _ _ _ _ Hrows Hk) as (b' & Hk' & Hstep).
  exists b'. split; [|done]. by apply lookup_app_l_Some.
Qed.

Lemma status_trace_cons (k : nat) (db : Db) (dbs : list Db) :
  status_trace k (db :: dbs)
  = match bookings db !! k with
    | Some b => status b :: status_trace k dbs
    | None => status_trace k dbs
    end.
Proof. unfold status_trace. cbn. by destruct (bookings db !! k). Qed.

(** Against the specification's machine the guarded operations differ in
    one point: Cancelled is open from the terminal states as well. *)
Lemma code_step_spec_step (s s' : BookingStatus) :
  code_step s s'
  ↔ spec_step s s' ∨ (s' = cancelled ∧ (s = completed ∨ s = cancelled)).
Proof.
  unfold code_step, spec_step.
  destruct s, s'; cbn; split; intros H; try tauto;
    repeat match goal with
           | H : _ ∨ _ |- _ => destruct H
           | H : _ ∧ _ |- _ => destruct H
           end; try discriminate; try congruence; auto 10.
Qed.

(** A Cancelled booking stays Cancelled; a Completed one can only be
    cancelled. *)
Lemma code_step_terminal (s' : BookingStatus) :
  (code_step cancelled s' → s' = cancelled)
  ∧ (code_step completed s' → s' = completed ∨ s' = cancelled).
Proof.
  unfold code_step. cbn. split; intros [?|[?|?]]; try discriminate; auto.
Qed.

(** C2, as the code has it. Over every sequence of lifecycle operations
    issued the way the screens issue them ([createBooking],
    [riderService.acceptBooking], a press on [StatusButton],
    [cancelBooking]), under any row policies, each row
    keeps its identifier and the statuses it shows change only by one step
    along Pending, Accepted, OnTheWay, Completed, or to Cancelled; the
    move to Cancelled is open from every state. *)
Theorem lifecycle_trace_steps (sel : Db → option Uuid → Booking → bool)
    (ps : list Rls.UpdatePolicy) (ops : list Op) (db : Db) (k : nat) :
  Sorted code_step (status_trace k (db :: run_ops sel ps db ops))
  ∧ ∀ b, bookings db !! k = Some b →
         Forall (fun db' => ∃ b', bookings db' !! k = Some b' ∧ id b' = id b)
           (run_ops sel ps db ops).
Proof.
  revert db. induction ops as [|op ops IH]; intros db.
  - split; [|constructor]. rewrite status_trace_cons. cbn.
    destruct (bookings db !! k); repeat constructor.
  - pose proof (run_op_table_step sel ps db op) as Hstep.
    destruct (IH (run_op sel ps db op)) as [IHs IHb].
    cbn [run_ops]. split.
    + rewrite status_trace_cons.
      destruct (bookings db !! k) as [b|] eqn:Hk; [|exact IHs].
      destruct (table_step_lookup _ _ _ _ Hstep Hk) as (b' & Hk' & _ & Hst).
      constructor; [exact IHs|].
      rewrite status_trace_cons, Hk'. by constructor.
    + intros b Hk.
      destruct (table_step_lookup _ _ _ _ Hstep Hk) as (b' & Hk' & Hid & _).
      constructor; [by exists b'|].
      eapply Forall_impl; [exact (IHb b' Hk')|].
      intros db' (b'' & ? & ?). exists b''. split; [done|congruence].
Qed.

(** C2 as stated fails: [cancelBooking], called by the owner, moves a
    Completed booking to Cancelled. *)
Lemma cancelBooking_leaves_completed :
  let db := Sample.store [Sample.b_completed] in
  let trace :=
    status_trace 0
      (db :: run_ops RlsSelect.view_own Rls.bookings_policies db
               [op_cancel (Some "U1") 10 "b1" (Js.lit "not needed")]) in
  trace = [completed; cancelled] ∧ ¬ Sorted spec_step trace.
Proof.
  cbv zeta. split; [by vm_compute|].
  replace (status_trace _ _) with [completed; cancelled] by (by vm_compute).
  intros H. inversion H as [|? ? _ Hhd]; subst.
  inversion Hhd as [|? ? Hs]; subst.
  destruct Hs as [Hs|[Hs|(_ & Hs & _)]]; by try discriminate.
Qed.

(** ** Completion and its timestamp *)

(** [completeBooking] writes [completed_at] with the status. *)
Lemma completeBooking_sets_completed_at (ps : list Rls.UpdatePolicy)
    (uid : option Uuid) (now : Timestamp) (db db' : Db) (i : Uuid)
    (b' : Booking) :
  bookingService.completeBooking ps uid now db i = (db', Ok b') →
  status b' = completed ∧ completed_at b' = Some now.
Proof.
  intros H. apply update_by_id_Ok in H as (b & _ & -> & _). done.
Qed.

(** A press on [StatusButton] writes no row's [completed_at]. *)
Lemma pressStatusButton_keeps_completed_at (ps : list Rls.UpdatePolicy)
    (now : Timestamp) (db : Db) (st : ChatScreen.State) :
  Forall2 (fun b b' => completed_at b' = completed_at b)
    (bookings db) (bookings (ChatScreen.pressStatusButton ps now db st).1.1).
Proof.
  assert (Hrefl : ∀ t : list Booking,
             Forall2 (fun b b' => completed_at b' = completed_at b) t t).
  { induction t; constructor; auto. }
  unfold ChatScreen.pressStatusButton.
  destruct (ChatScreen.isRider st); [|apply Hrefl].
  destruct (ChatScreen.handlePress _) as [target|]; [|apply Hrefl].
  destruct (ChatScreen.bookingId st) as [i|]; [|apply Hrefl].
  unfold ChatScreen.updateBookingStatus.
  destruct (Sql.update_rls _ _ _ _ _ _) as [[t' rows]|e] eqn:Hu;
    [|apply Hrefl].
  destruct rows as [|r rows]; [apply Hrefl|].
  apply update_rls_table in Hu. cbn. subst t'. rewrite update_table.
  induction (bookings db) as [|b t IH]; constructor; [|exact IH].
  by destruct (_ && _).
Qed.

(** C3. The press that completes a booking leaves [completed_at] null:
    the rider of a booking on the way presses the status button, the row
    becomes Completed and its [completed_at] is still null, where
    [completeBooking] on the same row sets it. *)
Theorem status_button_completes_without_timestamp :
  let db := Sample.store [Sample.b_on_the_way] in
  let st := Sample.chat on_the_way "R1" true in
  (∃ b', ChatScreen.pressStatusButton Rls.bookings_policies 10 db st
         = (Sample.store [b'], ChatScreen.setBookingStatus completed st,
            Some ChatScreen.AlertSuccess)
         ∧ status b' = completed ∧ completed_at b' = None)
  ∧ (∃ b', bookingService.completeBooking Rls.bookings_policies (Some "R1")
             10 db "b1"
           = (Sample.store [b'], Ok b')
           ∧ status b' = completed ∧ completed_at b' = Some 10).
Proof.
  cbv zeta. split.
  - eexists. split; [vm_compute; reflexivity|]. by vm_compute.
  - eexists. split; [vm_compute; reflexivity|]. by vm_compute.
Qed.

(** ** Who may update a booking *)

Lemma uid_is_opt_iff (uid : option Uuid) (col : option Uuid) :
  Rls.uid_is_opt uid col ↔ ∃ u, uid = Some u ∧ col = Some u.
Proof.
  unfold Rls.uid_is_opt. split.
  - intros [[u ->] <-]. by exists u.
  - intros (u & -> & ->). by split.
Qed.

Lemma is_party_iff (uid : option Uuid) (b : Booking) :
  is_party uid b ↔ Rls.uid_is uid (user_id b) ∨ Rls.uid_is_opt uid (rider_id b).
Proof.
  unfold is_party, Rls.uid_is. rewrite uid_is_opt_iff. split.
  - intros (u & -> & [<-|Hr]); [by left|right; by exists u].
  - intros [->|(u & -> & Hr)]; [exists (user_id b)|exists u]; auto.
Qed.

(** Under lib/bookings_policies.sql a row is open to its owner and to
    its assigned rider, and to nobody else. *)
Lemma may_update_bookings_policies (db : Db) (uid : option Uuid)
    (b : Booking) :
  Rls.may_update Rls.bookings_policies db uid b = true ↔ is_party uid b.
Proof.
  rewrite is_party_iff. unfold Rls.may_update. cbn.
  rewrite orb_false_r, orb_true_iff, !bool_decide_eq_true. done.
Qed.

Lemma may_become_bookings_policies (db : Db) (uid : option Uuid)
    (b : Booking) :
  Rls.may_become Rls.bookings_policies db uid b = true ↔ is_party uid b.
Proof.
  rewrite is_party_iff. unfold Rls.may_become. cbn.
  rewrite orb_false_r, orb_true_iff, !bool_decide_eq_true. done.
Qed.


(** With a primary key, a WHERE clause that pins the identifier selects
    at most the one row. *)
Lemma filter_by_id_unique (P : Booking → bool) (t : list Booking)
    (b : Booking) :
  NoDup (id <$> t) → b ∈ t → P b = true →
  (∀ x, P x = true → id x = id b) →
  filter (fun x => P x) t = [b].
Proof.
  intros Hnd Hin Hb Hid. induction t as [|x t IH]; [by inversion Hin|].
  cbn in Hnd. apply NoDup_cons in Hnd as [Hx Hnd].
  assert (Hrest : ∀ y, y ∈ t → id y ∉ id <$> t → False).
  { intros y Hy Hn. apply Hn. apply list_elem_of_fmap. by exists y. }
  rewrite filter_cons. apply elem_of_cons in Hin as [<-|Hin].
  - rewrite decide_True by (by rewrite Hb). f_equal.
    destruct (filter (fun x => P x) t) as [|y ys] eqn:Hf; [done|]. exfalso.
    assert (Hy : y ∈ filter (fun x => P x) t) by (rewrite Hf; left).
    apply list_elem_of_filter in Hy as [Hy Hyin]. apply Is_true_true in Hy.
    apply Hx. rewrite <- (Hid y Hy). apply list_elem_of_fmap. by exists y.
  - destruct (decide (P x)) as [Hpx|Hpx]; [|by apply IH].
    exfalso. apply Is_true_true in Hpx. apply Hx. rewrite (Hid x Hpx).
    apply list_elem_of_fmap. by exists b.
Qed.

Lemma NoDup_id_inj (t : list Booking) (x y : Booking) :
  NoDup (id <$> t) → x ∈ t → y ∈ t → id x = id y → x = y.
Proof.
  intros Hnd Hx Hy Hid.
  apply list_elem_of_lookup in Hx as [j Hj].
  apply list_elem_of_lookup in Hy as [k Hk].
  assert (j = k); [|congruence].
  apply (NoDup_lookup (id <$> t) j k (id x)); [done| |].
  - by rewrite list_lookup_fmap, Hj.
  - by rewrite list_lookup_fmap, Hk, Hid.
Qed.

(** ** The status button *)

Section StatusButton.

Variable ps : list Rls.UpdatePolicy.
Variable now : Timestamp.



End StatusButton.

(** A press on the status button by a party of the booking, on a screen
    that shows the row's state, under lib/bookings_policies.sql. *)
Lemma pressStatusButton_party (now : Timestamp) (db : Db)
    (st : ChatScreen.State) (b : Booking) (s : BookingStatus) :
  NoDup (id <$> bookings db) → b ∈ bookings db →
  ChatScreen.bookingId st = Some (id b) → ChatScreen.isRider st = true →
  status b = ChatScreen.bookingStatus st →
  ChatScreen.handlePress (ChatScreen.bookingStatus st) = Some s →
  is_party (ChatScreen.user st) b →
  ChatScreen.pressStatusButton Rls.bookings_policies now db st
  = (with_bookings db
       ((fun x => if id_is (id b) x then touch now (status_patch now s) x
                  else x) <$> bookings db),
     ChatScreen.setBookingStatus s st, Some ChatScreen.AlertSuccess).
Proof.
  intros Hnd Hin Hi Hr Hst Hh Hp.
  unfold ChatScreen.pressStatusButton. rewrite Hi, Hr, Hh.
  unfold ChatScreen.updateBookingStatus, Sql.update_rls, Sql.update.
  cbv zeta. cbn [fst snd].
  set (whr := fun x : Booking =>
         id_is (id b) x
         && bool_decide (status x = ChatScreen.bookingStatus st)
         && Rls.may_update Rls.bookings_policies db (ChatScreen.user st) x).
  assert (Hb : whr b = true).
  { unfold whr. rewrite (proj2 (id_is_true (id b) b) eq_refl).
    rewrite bool_decide_eq_true_2 by done. cbn [andb].
    by apply may_update_bookings_policies. }
  assert (Hf : filter (fun x => whr x) (bookings db) = [b]).
  { apply filter_by_id_unique; try done.
    intros x Hx. unfold whr in Hx. apply andb_true_iff in Hx as [Hx _].
    apply andb_true_iff in Hx as [Hx _]. by apply id_is_true in Hx. }
  change (filter _ (bookings db)) with (filter (fun x => whr x) (bookings db)).
  rewrite Hf. cbn [fmap list_fmap forallb].
  assert (Hchk : Rls.may_become Rls.bookings_policies db (ChatScreen.user st)
                   (touch now (status_patch now s) b) = true).
  { apply may_become_bookings_policies.
    destruct Hp as (u & -> & Hu). by exists u. }
  unfold touch, status_patch in Hchk. rewrite Hchk. cbn [andb].
  f_equal. f_equal. f_equal. apply list_fmap_ext. intros k x Hk.
  apply list_elem_of_lookup_2 in Hk.
  change (id_is (id b) x
          && bool_decide (status x = ChatScreen.bookingStatus st)
          && Rls.may_update Rls.bookings_policies db (ChatScreen.user st) x)
    with (whr x).
  destruct (id_is (id b) x) eqn:Hx.
  - apply id_is_true in Hx.
    rewrite (NoDup_id_inj (bookings db) x b Hnd Hk Hin Hx), Hb. done.
  - unfold whr. by rewrite Hx.
Qed.

(** *** What the load leaves in the screen *)



Lemma same_screen_refl (st : ChatScreen.State) : same_screen st st.
Proof. by repeat split. Qed.






(** ** Cancellation *)

(** C5, as the code has it. Under lib/bookings_policies.sql,
    [cancelBooking] succeeds for the booking's owner and for its assigned
    rider whatever the booking's status, Completed and Cancelled
    included, and writes status Cancelled, [cancelled_at] now,
    [cancelled_by] the session's user and the reason. For any other
    session no row is selected: the call returns the "no single row"
    error of [.single()]. Whenever the call returns an error the store
    is unchanged. *)
Theorem cancelBooking_contract (uid : option Uuid) (now : Timestamp)
    (db : Db) (i : Uuid) (reason : Js.str) :
  let r := bookingService.cancelBooking Rls.bookings_policies uid now db i
             reason in
  match r.2 with
  | Ok b' =>
      ∃ u b, uid = Some u ∧ b ∈ bookings db ∧ id b = i
             ∧ (user_id b = u ∨ rider_id b = Some u)
             ∧ b' = touch now (cancel_patch uid now reason) b
             ∧ status b' = cancelled ∧ cancelled_at b' = Some now
             ∧ cancelled_by b' = Some u
             ∧ cancellation_reason b' = Some reason
             ∧ b' ∈ bookings r.1
  | Err _ => r.1 = db
  end
  ∧ ((∀ b, b ∈ bookings db → id b = i → ¬ is_party uid b) →
     r.2 = Err NoSingleRow)
  ∧ (∀ b, NoDup (id <$> bookings db) → b ∈ bookings db → id b = i →
          is_party uid b →
          r.2 = Ok (touch now (cancel_patch uid now reason) b)).
Proof.
  intros r. subst r. unfold bookingService.cancelBooking.
  fold (cancel_patch uid now reason). split; [|split].
  - destruct (bookingService.update_by_id _ _ _ _ _ _) as [db' [b'|e]] eqn:Hu.
    + cbn. apply update_by_id_Ok in Hu as (b & Hf & -> & _ & ->).
      assert (Hb : b ∈ filter (fun x => admitted Rls.bookings_policies uid
                                          db i x) (bookings db))
        by (rewrite Hf; left).
      apply list_elem_of_filter in Hb as [Hb Hin]. apply Is_true_true in Hb.
      unfold admitted in Hb. apply andb_true_iff in Hb as [H1 H2].
      apply id_is_true in H1.
      pose proof H2 as Hp.
      apply may_update_bookings_policies in Hp as (u & -> & Hp).
      exists u, b. repeat split; try done.
      cbn. apply list_elem_of_fmap. exists b. split; [|done].
      unfold admitted. by rewrite (proj2 (id_is_true i b) H1), H2.
    + cbn. by apply update_by_id_Err in Hu.
  - intros Hno. unfold bookingService.update_by_id, Sql.update_rls.
    assert (Hf : filter (fun b => id_is i b
                           && Rls.may_update Rls.bookings_policies db uid b)
                   (bookings db) = []).
    { destruct (filter _ (bookings db)) as [|b rest] eqn:Hf; [done|]. exfalso.
      assert (Hb : b ∈ filter (fun b => id_is i b
                       && Rls.may_update Rls.bookings_policies db uid b)
                     (bookings db)) by (rewrite Hf; left).
      apply list_elem_of_filter in Hb as [Hb Hin]. apply Is_true_true in Hb.
      apply andb_true_iff in Hb as [H1 H2]. apply id_is_true in H1.
      apply may_update_bookings_policies in H2. by apply (Hno b). }
    unfold Sql.update. cbv zeta. cbn [fst snd]. rewrite Hf. done.
  - intros b Hnd Hin Hid Hp. apply update_by_id_succeeds.
    + apply filter_by_id_unique; try done.
      * unfold admitted. rewrite (proj2 (id_is_true i b) Hid).
        cbn [andb]. by apply may_update_bookings_policies.
      * intros x Hx. unfold admitted in Hx. apply andb_true_iff in Hx as [Hx _].
        apply id_is_true in Hx. congruence.
    + apply may_become_bookings_policies.
      destruct Hp as (u & -> & Hp). by exists u.
Qed.

Lemma cancelBooking_contract_witness :
  (bookingService.cancelBooking Rls.bookings_policies (Some "U1") 10
     (Sample.store [Sample.b_pending]) "b1" (Js.lit "changed plans")).2
  = Ok (touch 10 (cancel_patch (Some "U1") 10 (Js.lit "changed plans"))
          Sample.b_pending).
Proof.
  refine (proj2 (proj2 (cancelBooking_contract (Some "U1") 10
                          (Sample.store [Sample.b_pending]) "b1"
                          (Js.lit "changed plans")))
            Sample.b_pending _ _ _ _).
  - vm_compute. repeat constructor. by apply not_elem_of_nil.
  - left.
  - reflexivity.
  - exists "U1". split; [reflexivity|by left].
Defined.

(** [bookingService.acceptBooking] in general: under
    lib/bookings_policies.sql the owner of a booking can hand it to any
    rider, whatever its status. *)
Lemma acceptBooking_ignores_status (now : Timestamp) (db : Db)
    (riderId : Uuid) (b : Booking) :
  NoDup (id <$> bookings db) → b ∈ bookings db →
  ∃ b', (bookingService.acceptBooking Rls.bookings_policies
           (Some (user_id b)) now db (id b) riderId).2 = Ok b'
        ∧ status b' = accepted ∧ rider_id b' = Some riderId.
Proof.
  intros Hnd Hin. eexists. split.
  - apply update_by_id_succeeds.
    + apply filter_by_id_unique; try done.
      * unfold admitted. rewrite (proj2 (id_is_true (id b) b) eq_refl).
        cbn [andb]. apply may_update_bookings_policies.
        exists (user_id b). auto.
      * intros x Hx. unfold admitted in Hx. apply andb_true_iff in Hx as [Hx _].
        by apply id_is_true in Hx.
    + apply may_become_bookings_policies. exists (user_id b). auto.
  - done.
Qed.

(** The other half of the timestamp invariant holds on the guarded
    paths: under lib/bookings_policies.sql every lifecycle operation
    keeps the cancellation stamps in step with the status. *)
Lemma update_Forall (P : Booking → Prop) (now : Timestamp)
    (whr : Booking → bool) (set : Booking → Booking) (t : list Booking) :
  (∀ b, P b → whr b = true → P (Sql.update_updated_at_column now (set b))) →
  Forall P t → Forall P (Sql.update now whr set t).1.
Proof.
  intros Hset Ht. rewrite update_table. apply Forall_fmap.
  eapply Forall_impl; [exact Ht|]. intros b Hb. cbn.
  destruct (whr b) eqn:Hw; auto.
Qed.

Lemma run_op_cancel_stamped (sel : Db → option Uuid → Booking → bool)
    (db : Db) (op : Op) :
  Forall cancel_stamped (bookings db) →
  Forall cancel_stamped (bookings (run_op sel Rls.bookings_policies db op)).
Proof.
  intros Hinv. destruct op as [uid now new_id data|uid now i|now st
                              |uid now i reason]; cbn.
  - unfold bookingService.createBooking. destruct uid as [u|]; [|done].
    destruct (existsb _ _); [done|]. cbn. apply Forall_app. split; [done|].
    constructor; [|constructor].
    split; cbn; split; intros H; try discriminate; by destruct H.
  - unfold riderService.acceptBooking. destruct uid as [u|]; [|done].
    destruct (filter _ (rider_profiles db)) as [|rp [|]]; try done.
    destruct (negb (rp_is_available rp)); [done|].
    destruct (Schema.accept_booking _ _ _ _) as [db' [[]|e]] eqn:Ha.
    + assert (Forall cancel_stamped (bookings db')); [|by destruct (Sql.single _)].
      revert Ha. unfold Schema.accept_booking.
      destruct (negb (Rls.available_rider _ _)); [congruence|].
      destruct (negb (existsb _ _)); [congruence|].
      destruct (Sql.update _ _ _ _) as [t' rows] eqn:Hu.
      destruct rows; [congruence|]. intros [= <-]. cbn.
      pose proof (f_equal fst Hu) as Ht. cbn [fst] in Ht. subst t'.
      apply update_Forall; [|done]. intros x [H1 H2] Hb.
      unfold Schema.available_for_acceptance in Hb.
      apply andb_true_iff in Hb as [Hb _]. apply andb_true_iff in Hb as [_ Hb].
      apply bool_decide_eq_true in Hb. rewrite Hb in H1, H2.
      split; cbn; (split; [|discriminate]); intros H;
        [apply H1 in H|apply H2 in H]; discriminate.
    + apply accept_booking_Err in Ha. by subst db'.
  - unfold ChatScreen.pressStatusButton.
    destruct (ChatScreen.isRider st); [|done].
    destruct (ChatScreen.handlePress _) as [target|] eqn:Hp; [|done].
    destruct (ChatScreen.bookingId st) as [i|]; [|done].
    unfold ChatScreen.updateBookingStatus.
    destruct (Sql.update_rls _ _ _ _ _ _) as [[t' rows]|e] eqn:Hu; [|done].
    destruct rows as [|r rows]; [done|].
    apply update_rls_table in Hu. cbn. subst t'.
    apply update_Forall; [|done]. intros b [H1 H2] Hb.
    apply andb_true_iff in Hb as [Hb _]. apply andb_true_iff in Hb as [_ Hb].
    apply bool_decide_eq_true in Hb. rewrite Hb in H1, H2.
    assert (ChatScreen.bookingStatus st ≠ cancelled ∧ target ≠ cancelled)
      as [Hs Ht].
    { destruct (ChatScreen.bookingStatus st); cbn in Hp; try discriminate;
        injection Hp as <-; by split. }
    split; cbn; (split; [|done]); intros H;
      [apply H1 in H|apply H2 in H]; done.
  - unfold bookingService.cancelBooking, bookingService.update_by_id.
    destruct (Sql.update_rls _ _ _ _ _ _) as [[t' rows]|e] eqn:Hu; [|done].
    destruct (Sql.single rows); [|done].
    apply update_rls_table in Hu. cbn. subst t'.
    apply update_Forall; [|done]. intros b _ Hb.
    apply andb_true_iff in Hb as [_ Hb].
    apply may_update_bookings_policies in Hb as (u & -> & _).
    split; cbn; split; by eauto.
Qed.

(** C5 as stated fails: [cancelBooking] succeeds on a booking that is
    already Cancelled, and on one that is Completed, and rewrites the
    row. *)
Lemma cancelBooking_on_terminal_booking :
  (∃ b', bookingService.cancelBooking Rls.bookings_policies (Some "R1") 10
           (Sample.store [Sample.b_cancelled]) "b1" (Js.lit "again")
         = (Sample.store [b'], Ok b')
         ∧ status Sample.b_cancelled = cancelled
         ∧ cancelled_by Sample.b_cancelled = Some "U1"
         ∧ cancelled_by b' = Some "R1" ∧ cancelled_at b' = Some 10)
  ∧ (∃ b', bookingService.cancelBooking Rls.bookings_policies (Some "R1") 10
             (Sample.store [Sample.b_completed]) "b1" (Js.lit "again")
           = (Sample.store [b'], Ok b')
           ∧ status Sample.b_completed = completed
           ∧ status b' = cancelled).
Proof.
  split.
  - eexists. split; [vm_compute; reflexivity|]. by vm_compute.
  - eexists. split; [vm_compute; reflexivity|]. by vm_compute.
Qed.

(** ** The message view *)

Global Instance older_first_total : Total Messages.older_first.
Proof. intros a b. unfold Messages.older_first. lia. Qed.

Global Instance older_first_trans : Transitive Messages.older_first.
Proof. intros a b c. unfold Messages.older_first. lia. Qed.

(** The rows a poll fetches come oldest first. *)
Lemma select_by_booking_sorted (db : Db) (uid : option Uuid) (i : Uuid) :
  StronglySorted Messages.older_first (Messages.select_by_booking db uid i).
Proof. apply StronglySorted_merge_sort; apply _. Qed.

(** The rows a poll fetches are rows of the store, of that booking. *)
Lemma select_by_booking_elem (db : Db) (uid : option Uuid) (i : Uuid)
    (m : MessageRow) :
  m ∈ Messages.select_by_booking db uid i
  ↔ m ∈ messages db ∧ m_booking_id m = i
    ∧ Rls.party_of db uid (m_booking_id m) = true.
Proof.
  unfold Messages.select_by_booking.
  rewrite merge_sort_Permutation, !list_elem_of_filter, Is_true_true. tauto.
Qed.

Lemma select_by_booking_NoDup (db : Db) (uid : option Uuid) (i : Uuid) :
  NoDup (m_id <$> messages db) →
  NoDup (m_id <$> Messages.select_by_booking db uid i).
Proof.
  intros Hnd. unfold Messages.select_by_booking.
  rewrite merge_sort_Permutation.
  apply (sublist_NoDup _ (m_id <$> messages db)); [exact Hnd|].
  apply fmap_sublist. etrans; apply sublist_filter; apply _.
Qed.

Lemma messagesWithSenders_cons (ps : list Profile) (m : MessageRow)
    (ms : list MessageRow) :
  ChatScreen.messagesWithSenders ps (m :: ms)
  = match ChatScreen.find_sender ps m with
    | Some p => ChatScreen.with_sender m p
                :: ChatScreen.messagesWithSenders ps ms
    | None => ChatScreen.messagesWithSenders ps ms
    end.
Proof.
  unfold ChatScreen.messagesWithSenders. cbn.
  by destruct (ChatScreen.find_sender ps m).
Qed.

(** What the poll shows is what it fetched, less the messages whose
    sender has no profile among the fetched ones, in the same order. *)
Lemma messagesWithSenders_filter (ps : list Profile) (ms : list MessageRow) :
  Forall2
    (fun m v => ∃ p, ChatScreen.find_sender ps m = Some p
                     ∧ v = ChatScreen.with_sender m p)
    (filter (fun m => is_Some (ChatScreen.find_sender ps m)) ms)
    (ChatScreen.messagesWithSenders ps ms).
Proof.
  induction ms as [|m ms IH]; [constructor|].
  rewrite messagesWithSenders_cons, filter_cons.
  destruct (ChatScreen.find_sender ps m) as [p|] eqn:Hp.
  - rewrite decide_True by done. constructor; [by exists p|exact IH].
  - rewrite decide_False by (by intros [? ?]). exact IH.
Qed.

Lemma messagesWithSenders_ids (ps : list Profile) (ms : list MessageRow) :
  ChatScreen.msg_id <$> ChatScreen.messagesWithSenders ps ms
  = m_id <$> filter (fun m => is_Some (ChatScreen.find_sender ps m)) ms.
Proof.
  induction ms as [|m ms IH]; [done|].
  rewrite messagesWithSenders_cons, filter_cons.
  destruct (ChatScreen.find_sender ps m) as [p|] eqn:Hp.
  - rewrite decide_True by done. cbn. by rewrite IH.
  - rewrite decide_False by (by intros [? ?]). exact IH.
Qed.

Lemma messagesWithSenders_sorted (ps : list Profile) (ms : list MessageRow) :
  StronglySorted Messages.older_first ms →
  StronglySorted view_older_first (ChatScreen.messagesWithSenders ps ms).
Proof.
  induction 1 as [|m ms Hs IH Hall]; [constructor|].
  rewrite messagesWithSenders_cons.
  destruct (ChatScreen.find_sender ps m) as [p|]; [|exact IH].
  constructor; [exact IH|].
  pose proof (messagesWithSenders_filter ps ms) as Hf.
  apply list.Forall_forall. intros v Hv.
  apply list_elem_of_lookup in Hv as [k Hk].
  destruct (Forall2_lookup_r _ _ _ _ _ Hf Hk) as (m' & Hk' & p' & _ & ->).
  apply list_elem_of_lookup_2 in Hk'. apply list_elem_of_filter in Hk' as [_ Hin].
  rewrite list.Forall_forall in Hall. exact (Hall m' Hin).
Qed.

(** The profile [find] meets for a fetched message is a stored profile
    of the sender, and there is one as soon as the store has one. *)
Lemma find_sender_select_profiles (db : Db) (ms : list MessageRow)
    (m : MessageRow) :
  m ∈ ms →
  ChatScreen.find_sender (Messages.select_profiles db (m_sender_id <$> ms)) m
  = head (filter (fun p => p_id p = m_sender_id m) (profiles db)).
Proof.
  intros Hin. unfold ChatScreen.find_sender, Messages.select_profiles.
  f_equal. rewrite list_filter_filter. apply list_filter_iff.
  intros p. split; [tauto|]. intros Hp. split; [done|]. rewrite Hp.
  apply list_elem_of_fmap. by exists m.
Qed.

Lemma head_filter_is_Some {A} (P : A → Prop) `{!∀ x, Decision (P x)}
    (l : list A) :
  is_Some (head (filter P l)) ↔ ∃ x, x ∈ l ∧ P x.
Proof.
  split.
  - intros [x Hx]. apply head_Some_elem_of in Hx.
    apply list_elem_of_filter in Hx as [? ?]. by exists x.
  - intros (x & Hin & Hp).
    destruct (filter P l) as [|y ys] eqn:Hf; [|by eexists].
    exfalso. by apply (filter_nil_not_elem_of P l x Hf Hp).
Qed.

Lemma poll_view (db : Db) (i : Uuid) (st : ChatScreen.State) :
  ChatScreen.view (ChatScreen.poll db i st)
  = ChatScreen.messagesWithSenders
      (Messages.select_profiles db
         (m_sender_id
            <$> Messages.select_by_booking db (ChatScreen.user st) i))
      (Messages.select_by_booking db (ChatScreen.user st) i).
Proof. reflexivity. Qed.

Lemma push_user (db : Db) (payload : MessageRow) (st : ChatScreen.State) :
  ChatScreen.user (ChatScreen.push db payload st) = ChatScreen.user st.
Proof.
  unfold ChatScreen.push, ChatScreen.onInsert.
  by destruct (Messages.select_profile _ _).
Qed.

(** The identifiers a cycle delivers are those of the fetched messages
    that have a profile of their sender among the fetched profiles. *)
Lemma find_sender_is_Some (ps : list Profile) (m : MessageRow) :
  is_Some (ChatScreen.find_sender ps m) ↔ m_sender_id m ∈ p_id <$> ps.
Proof.
  unfold ChatScreen.find_sender. rewrite head_filter_is_Some.
  rewrite list_elem_of_fmap. split.
  - intros (p & Hin & Hp). by exists p.
  - intros (p & Hp & Hin). by exists p.
Qed.

Lemma find_sender_Some (ps : list Profile) (m : MessageRow) (p : Profile) :
  ChatScreen.find_sender ps m = Some p → p ∈ ps ∧ p_id p = m_sender_id m.
Proof.
  unfold ChatScreen.find_sender. intros H. apply head_Some_elem_of in H.
  apply list_elem_of_filter in H. tauto.
Qed.

(** The subscription's handler, in terms of the store: the message goes
    to the end of the view when exactly one profile has the sender's
    identifier, and nowhere otherwise. *)
Lemma push_view (db : Db) (payload : MessageRow) (st : ChatScreen.State) :
  ChatScreen.view (ChatScreen.push db payload st)
  = match filter (fun p => p_id p = m_sender_id payload) (profiles db) with
    | [p] => ChatScreen.view st ++ [ChatScreen.with_sender payload p]
    | _ => ChatScreen.view st
    end.
Proof.
  unfold ChatScreen.push, ChatScreen.onInsert, Messages.select_profile.
  by destruct (filter _ (profiles db)) as [|p [|q l]].
Qed.

(** C6, as the code has it. A poll cycle whose two queries answer
    replaces the view by the batch it fetched: sorted by creation time,
    ascending, as the query returns it, and with no identifier twice
    when the batch has none twice; what it shows does not depend on
    what was pushed before. A cycle one of whose queries fails sets the
    error and leaves the view as it is. A delivery on the subscription
    of a message whose sender has one profile puts the message at the
    end of the view without looking for it there: when the view holds
    the message already, it holds it twice afterwards. *)
Theorem poll_sorts_push_appends (db : Db) (i : Uuid)
    (st : ChatScreen.State) :
  let st1 := ChatScreen.poll db i st in
  StronglySorted view_older_first (ChatScreen.view st1)
  ∧ (NoDup (m_id <$> messages db) →
     NoDup (ChatScreen.msg_id <$> ChatScreen.view st1))
  ∧ (∀ messagesQ profilesQ,
       let st2 := ChatScreen.pollCycle messagesQ profilesQ st in
       match messagesQ with
       | Ok ms =>
           match profilesQ (m_sender_id <$> ms) with
           | Ok ps =>
               ChatScreen.view st2 = ChatScreen.messagesWithSenders ps ms
               ∧ ChatScreen.error st2 = ChatScreen.error st
               ∧ (StronglySorted Messages.older_first ms →
                  StronglySorted view_older_first (ChatScreen.view st2))
               ∧ (NoDup (m_id <$> ms) →
                  NoDup (ChatScreen.msg_id <$> ChatScreen.view st2))
           | Err _ =>
               ChatScreen.view st2 = ChatScreen.view st
               ∧ ChatScreen.error st2 = Some "Error polling messages"%string
           end
       | Err _ =>
           ChatScreen.view st2 = ChatScreen.view st
           ∧ ChatScreen.error st2 = Some "Error polling messages"%string
       end)
  ∧ (∀ st0 payload,
       ChatScreen.view (ChatScreen.push db payload st0)
       = match filter (fun p => p_id p = m_sender_id payload)
                 (profiles db) with
         | [p] => ChatScreen.view st0 ++ [ChatScreen.with_sender payload p]
         | _ => ChatScreen.view st0
         end)
  ∧ (∀ st0 payload p x,
       filter (fun p => p_id p = m_sender_id payload) (profiles db) = [p] →
       x ∈ ChatScreen.view st0 → ChatScreen.msg_id x = m_id payload →
       ChatScreen.view (ChatScreen.push db payload st0)
       = ChatScreen.view st0 ++ [ChatScreen.with_sender payload p]
       ∧ ¬ NoDup (ChatScreen.msg_id
                    <$> ChatScreen.view (ChatScreen.push db payload st0)))
  ∧ (∀ db' payload,
       ChatScreen.view (ChatScreen.poll db' i (ChatScreen.push db payload st1))
       = ChatScreen.view (ChatScreen.poll db' i st)).
Proof.
  cbv zeta. split; [|split; [|split; [|split; [|split]]]].
  - rewrite poll_view. apply messagesWithSenders_sorted.
    apply select_by_booking_sorted.
  - intros Hnd. rewrite poll_view, messagesWithSenders_ids.
    apply (sublist_NoDup _
             (m_id <$> Messages.select_by_booking db (ChatScreen.user st) i)).
    + by apply select_by_booking_NoDup.
    + apply fmap_sublist, sublist_filter.
  - intros messagesQ profilesQ. unfold ChatScreen.pollCycle.
    destruct messagesQ as [ms|e]; [|done].
    destruct (profilesQ (m_sender_id <$> ms)) as [ps|e]; [|done].
    cbn [ChatScreen.view ChatScreen.error ChatScreen.setMessages].
    split; [done|]. split; [done|]. split.
    + apply messagesWithSenders_sorted.
    + intros Hnd. rewrite messagesWithSenders_ids.
      apply (sublist_NoDup _ (m_id <$> ms)); [done|].
      apply fmap_sublist, sublist_filter.
  - intros st0 payload. apply push_view.
  - intros st0 payload p x Hp Hx Hid. rewrite push_view, Hp.
    split; [done|]. rewrite fmap_app, NoDup_app. intros (_ & Hno & _).
    apply (Hno (m_id payload)).
    + rewrite <- Hid. apply list_elem_of_fmap. by exists x.
    + cbn. left.
  - intros db' payload. by rewrite !poll_view, push_user.
Qed.

Lemma view_sorted_times (v : list ChatScreen.Message) :
  StronglySorted view_older_first v →
  StronglySorted Z.le (ChatScreen.msg_created_at <$> v).
Proof.
  induction 1 as [|x v Hs IH Hall]; [constructor|].
  cbn. constructor; [exact IH|]. by apply Forall_fmap.
Qed.

(** C6 as stated fails: a message the poll has delivered and the
    subscription then delivers too is in the view twice, the second time
    at the end, after a younger message; and it stays there twice over
    a poll cycle whose query fails. *)
Lemma push_after_poll_duplicates :
  let early := Sample.a_message "m1" "U1" 2 "where are you" in
  let late := Sample.a_message "m2" "R1" 9 "two minutes" in
  let db := Sample.chat_store [early; late] in
  let st1 := ChatScreen.poll db "b1" (Sample.chat accepted "U1" false) in
  let st2 := ChatScreen.push db early st1 in
  ChatScreen.msg_id <$> ChatScreen.view st1 = ["m1"; "m2"]
  ∧ ChatScreen.msg_id <$> ChatScreen.view st2 = ["m1"; "m2"; "m1"]
  ∧ ChatScreen.msg_created_at <$> ChatScreen.view st2 = [2; 9; 2]
  ∧ ChatScreen.msg_id
      <$> ChatScreen.view
            (ChatScreen.pollCycle (Err NoSingleRow) (fun _ => Ok []) st2)
    = ["m1"; "m2"; "m1"]
  ∧ ¬ NoDup (ChatScreen.msg_id <$> ChatScreen.view st2)
  ∧ ¬ StronglySorted view_older_first (ChatScreen.view st2).
Proof.
  cbv zeta. split; [by vm_compute|]. split; [by vm_compute|].
  split; [by vm_compute|]. split; [by vm_compute|]. split.
  - replace (ChatScreen.msg_id <$> _) with ["m1"; "m2"; "m1"]
      by (by vm_compute).
    intros H. apply NoDup_cons in H as [H _]. apply H.
    apply elem_of_cons. right. apply elem_of_cons. by left.
  - intros H.
    apply view_sorted_times in H.
    replace (ChatScreen.msg_created_at <$> _) with [2; 9; 2]
      in H by (by vm_compute).
    inversion H as [|? ? Hs _]; subst. inversion Hs as [|? ? _ Hall]; subst.
    inversion Hall as [|? ? Hle _]; subst. lia.
Qed.

(** C8. In a poll cycle whose two queries answer, the view is the
    fetched batch, in its order, less exactly the messages of which no
    fetched profile has the sender's identifier: each message delivered
    carries a fetched profile of its own sender, and a message without
    one is not delivered. In any cycle, a later one included, in which
    a profile of the sender is fetched, a message of the batch is
    delivered, with its content and its sender; so it is by a poll on
    a later store that holds the sender's profile. A cycle whose
    profile query fails as a whole delivers no batch: the view stays as
    it was until the next cycle. *)
Theorem poll_omits_only_unenriched (messagesData : list MessageRow)
    (profilesData : list Profile) (st : ChatScreen.State) (db' : Db)
    (i : Uuid) (st' : ChatScreen.State) (e : Error) :
  let delivered :=
    ChatScreen.view
      (ChatScreen.pollCycle (Ok messagesData) (fun _ => Ok profilesData) st)
  in
  Forall2
    (fun m v =>
       ChatScreen.msg_id v = m_id m
       ∧ ChatScreen.msg_content v = m_content m
       ∧ ChatScreen.msg_created_at v = m_created_at m
       ∧ ChatScreen.msg_sender_id v = m_sender_id m
       ∧ ChatScreen.msg_booking_id v = m_booking_id m
       ∧ ChatScreen.s_id (ChatScreen.msg_sender v) = m_sender_id m
       ∧ ∃ p, p ∈ profilesData ∧ p_id p = m_sender_id m
              ∧ v = ChatScreen.with_sender m p)
    (filter (fun m => m_sender_id m ∈ p_id <$> profilesData) messagesData)
    delivered
  ∧ (∀ m, m ∈ messagesData →
          m_sender_id m ∉ p_id <$> profilesData →
          NoDup (m_id <$> messagesData) →
          m_id m ∉ ChatScreen.msg_id <$> delivered)
  ∧ (∀ m, m ∈ messagesData →
          m_sender_id m ∈ p_id <$> profilesData →
          ∃ v, v ∈ delivered ∧ ChatScreen.msg_id v = m_id m
               ∧ ChatScreen.msg_content v = m_content m
               ∧ ChatScreen.s_id (ChatScreen.msg_sender v) = m_sender_id m)
  ∧ (∀ m, m ∈ Messages.select_by_booking db' (ChatScreen.user st') i →
          (∃ p, p ∈ profiles db' ∧ p_id p = m_sender_id m) →
          ∃ v, v ∈ ChatScreen.view (ChatScreen.poll db' i st')
               ∧ ChatScreen.msg_id v = m_id m
               ∧ ChatScreen.msg_content v = m_content m
               ∧ ChatScreen.msg_created_at v = m_created_at m
               ∧ ChatScreen.s_id (ChatScreen.msg_sender v) = m_sender_id m)
  ∧ ChatScreen.view
      (ChatScreen.pollCycle (Ok messagesData) (fun _ => Err e) st)
    = ChatScreen.view st.
Proof.
  cbv zeta. cbn [ChatScreen.pollCycle ChatScreen.view ChatScreen.setMessages].
  assert (Hfilter : ∀ ps (ms : list MessageRow),
            filter (fun m => m_sender_id m ∈ p_id <$> ps) ms
            = filter (fun m => is_Some (ChatScreen.find_sender ps m)) ms).
  { intros ps ms. apply list_filter_iff. intros m.
    by rewrite find_sender_is_Some. }
  assert (Hin : ∀ ps (ms : list MessageRow) m q,
            m ∈ ms → ChatScreen.find_sender ps m = Some q →
            ChatScreen.with_sender m q
            ∈ ChatScreen.messagesWithSenders ps ms).
  { intros ps ms m q Hm Hq. induction ms as [|x ms IH]; [by inversion Hm|].
    rewrite messagesWithSenders_cons.
    apply elem_of_cons in Hm as [<-|Hm].
    - rewrite Hq. left.
    - destruct (ChatScreen.find_sender ps x); [right|]; by apply IH. }
  split; [|split; [|split; [|split; [|done]]]].
  - rewrite Hfilter.
    eapply Forall2_impl; [apply messagesWithSenders_filter|].
    intros m v (p & Hp & ->). apply find_sender_Some in Hp as [Hp Hid].
    cbn. repeat split; try done. by exists p.
  - intros m Hm Hnone Hnd. rewrite messagesWithSenders_ids.
    intros Hid. apply list_elem_of_fmap in Hid as (m' & Hid & Hm').
    apply list_elem_of_filter in Hm' as [Hsome Hin'].
    assert (m' = m) as ->.
    { apply list_elem_of_lookup in Hm as [k Hk].
      apply list_elem_of_lookup in Hin' as [k' Hk'].
      assert (k = k'); [|congruence].
      eapply NoDup_lookup; [exact Hnd| |];
        rewrite list_lookup_fmap; [by rewrite Hk|by rewrite Hk', Hid]. }
    by apply find_sender_is_Some in Hsome.
  - intros m Hm Hsome. apply find_sender_is_Some in Hsome as [q Hq].
    exists (ChatScreen.with_sender m q). split; [by apply Hin|].
    apply find_sender_Some in Hq as [_ Hq]. done.
  - intros m Hm (p & Hp & Hpid).
    rewrite poll_view.
    set (ms := Messages.select_by_booking db' (ChatScreen.user st') i) in *.
    set (ps := Messages.select_profiles db' (m_sender_id <$> ms)).
    assert (Hsome : is_Some (ChatScreen.find_sender ps m)).
    { subst ps. rewrite find_sender_select_profiles by done.
      apply head_filter_is_Some. by exists p. }
    destruct Hsome as [q Hq].
    exists (ChatScreen.with_sender m q). split; [by apply Hin|].
    apply find_sender_Some in Hq as [_ Hq]. done.
Qed.

(** ** Available bookings *)

Global Instance newer_first_total : Total riderService.newer_first.
Proof. intros a b. unfold riderService.newer_first. lia. Qed.

Global Instance newer_first_trans : Transitive riderService.newer_first.
Proof. intros a b c. unfold riderService.newer_first. lia. Qed.

Lemma with_user_sorted (ps : list Profile) (rows : list Booking) :
  StronglySorted riderService.newer_first rows →
  StronglySorted offered_newer_first (riderService.with_user ps <$> rows).
Proof.
  induction 1 as [|b rows Hs IH Hall]; [constructor|].
  cbn. constructor; [exact IH|]. by apply Forall_fmap.
Qed.

Lemma with_user_pending (db : Db) (ps : list Profile) (rows : list Booking) :
  Forall (fun b => status b = pending ∧ rider_id b = None
                   ∧ b ∈ bookings db) rows →
  Forall (fun x => status (riderService.booking x) = pending
                   ∧ rider_id (riderService.booking x) = None
                   ∧ riderService.booking x ∈ bookings db)
    (riderService.with_user ps <$> rows).
Proof.
  intros H. apply Forall_fmap. eapply Forall_impl; [exact H|]. by intros x.
Qed.

(** C9. Every booking [getAvailableBookings] returns is a stored booking
    that is Pending and has no rider, and the list comes newest first. *)
Theorem getAvailableBookings_pending_unassigned
    (sel : Db → option Uuid → Booking → bool) (uid : option Uuid) (db : Db)
    (data : list riderService.BookingWithUser) :
  riderService.getAvailableBookings sel uid db = Ok data →
  Forall (fun x => status (riderService.booking x) = pending
                   ∧ rider_id (riderService.booking x) = None
                   ∧ riderService.booking x ∈ bookings db) data
  ∧ StronglySorted offered_newer_first data.
Proof.
  unfold riderService.getAvailableBookings.
  destruct uid as [u|]; [|discriminate].
  destruct (negb _); [discriminate|].
  set (rows := merge_sort riderService.newer_first _).
  assert (Hsorted : StronglySorted riderService.newer_first rows)
    by (apply StronglySorted_merge_sort; apply _).
  assert (Hrows : Forall (fun b => status b = pending ∧ rider_id b = None
                                   ∧ b ∈ bookings db) rows).
  { apply list.Forall_forall. intros b Hb. subst rows.
    rewrite merge_sort_Permutation in Hb.
    apply list_elem_of_filter in Hb as [[Hs Hr] Hb].
    apply list_elem_of_filter in Hb as [_ Hb]. done. }
  clearbody rows. destruct rows as [|b rows].
  - intros [= <-]. split; constructor.
  - intros H. injection H as <-. split.
    + exact (with_user_pending db _ (b :: rows) Hrows).
    + exact (with_user_sorted _ (b :: rows) Hsorted).
Qed.

Lemma getAvailableBookings_pending_unassigned_witness :
  ∃ data,
    riderService.getAvailableBookings RlsSelect.view_own_or_pending
      (Some "R2")
      (Sample.store [Sample.b_accepted; Sample.b_pending; Sample.b_cancelled])
    = Ok data
    ∧ data ≠ []
    ∧ Forall (fun x => status (riderService.booking x) = pending
                       ∧ rider_id (riderService.booking x) = None
                       ∧ riderService.booking x
                         ∈ bookings
                             (Sample.store [Sample.b_accepted;
                                            Sample.b_pending;
                                            Sample.b_cancelled])) data
    ∧ StronglySorted offered_newer_first data.
Proof.
  eexists. split; [vm_compute; reflexivity|]. split; [discriminate|].
  apply (getAvailableBookings_pending_unassigned
           RlsSelect.view_own_or_pending (Some "R2")).
  vm_compute. reflexivity.
Defined.

(** ** [trim] *)

Lemma blank_nil : blank [].
Proof. constructor. Qed.

Lemma blank_app (l r : Js.str) : blank (l ++ r) ↔ blank l ∧ blank r.
Proof. apply Forall_app. Qed.

Lemma blank_reverse (s : Js.str) : blank (reverse s) ↔ blank s.
Proof.
  unfold blank. rewrite !list.Forall_forall.
  split; intros H c Hc; apply H; by apply elem_of_reverse.
Qed.

(** [trimStart] cuts a blank prefix and stops at the first code unit
    that is not white space. *)
Lemma trimStart_split (s : Js.str) :
  ∃ l, s = l ++ Js.trimStart s ∧ blank l
       ∧ ∀ c, head (Js.trimStart s) = Some c → Js.is_white_space c = false.
Proof.
  induction s as [|c s (l & Hs & Hl & Hh)].
  - exists []. split; [done|]. split; [constructor|]. discriminate.
  - cbn. destruct (Js.is_white_space c) eqn:Hc.
    + exists (c :: l). split; [cbn; by f_equal|]. split; [by constructor|done].
    + exists []. split; [done|]. split; [constructor|].
      cbn. by intros ? [= <-].
Qed.

Lemma trimStart_nil_iff (s : Js.str) : Js.trimStart s = [] ↔ blank s.
Proof.
  induction s as [|c s IH]; [by split; [constructor|]|].
  cbn. destruct (Js.is_white_space c) eqn:Hc.
  - rewrite IH. split; [by constructor|by inversion 1].
  - split; [discriminate|]. inversion 1; congruence.
Qed.

Lemma trimEnd_split (s : Js.str) :
  ∃ r, s = Js.trimEnd s ++ r ∧ blank r
       ∧ ∀ c, last (Js.trimEnd s) = Some c → Js.is_white_space c = false.
Proof.
  destruct (trimStart_split (reverse s)) as (l & Hs & Hl & Hh).
  exists (reverse l). unfold Js.trimEnd. split; [|split].
  - rewrite <- reverse_app, <- Hs. by rewrite reverse_involutive.
  - by apply blank_reverse.
  - intros c. rewrite last_reverse. apply Hh.
Qed.

Lemma trimEnd_nil_iff (s : Js.str) : Js.trimEnd s = [] ↔ blank s.
Proof.
  unfold Js.trimEnd. rewrite <- blank_reverse, <- trimStart_nil_iff.
  split; [|by intros ->].
  intros H. apply (f_equal reverse) in H. by rewrite reverse_involutive in H.
Qed.

(** [trim] gives nothing exactly on a blank text. *)
Lemma trim_nil_iff (s : Js.str) : Js.trim s = [] ↔ blank s.
Proof.
  unfold Js.trim. rewrite trimEnd_nil_iff.
  destruct (trimStart_split s) as (l & Hs & Hl & Hh).
  split.
  - intros H. rewrite Hs. by apply blank_app.
  - intros H. rewrite Hs in H. by apply blank_app in H as [_ H].
Qed.

(** [trim] cuts a blank prefix and a blank suffix, and what is left
    neither starts nor ends with white space. *)
Lemma trim_split (s : Js.str) :
  ∃ l r, s = l ++ Js.trim s ++ r ∧ blank l ∧ blank r
         ∧ (∀ c, head (Js.trim s) = Some c → Js.is_white_space c = false)
         ∧ (∀ c, last (Js.trim s) = Some c → Js.is_white_space c = false).
Proof.
  destruct (trimStart_split s) as (l & Hs & Hl & Hh).
  destruct (trimEnd_split (Js.trimStart s)) as (r & Ht & Hr & Hlast).
  exists l, r. unfold Js.trim. split; [|split; [done|split; [done|split]]].
  - by rewrite <- Ht.
  - intros c Hc. apply Hh. rewrite Ht.
    destruct (Js.trimEnd (Js.trimStart s)); [discriminate|exact Hc].
  - exact Hlast.
Qed.

(** ** Sending a message *)

(** An INSERT into [messages] stores the given content in one new row at
    the end, or stores nothing. *)
Lemma insert_spec (db : Db) (uid : option Uuid) (now : Timestamp)
    (new_id i sender : Uuid) (content : Js.str) :
  let r := Messages.insert db uid now new_id i sender content in
  match r.2 with
  | Ok m => r.1 = with_messages db (messages db ++ [m])
            ∧ m_content m = content ∧ m_sender_id m = sender
            ∧ m_booking_id m = i ∧ m_id m = new_id ∧ m_created_at m = now
  | Err _ => r.1 = db
  end.
Proof.
  cbv zeta. unfold Messages.insert.
  destruct (negb _); [done|]. by destruct (existsb _ _).
Qed.

Lemma insert_succeeds (db : Db) (uid : option Uuid) (now : Timestamp)
    (new_id i sender : Uuid) (content : Js.str) :
  Rls.party_of db uid i = true →
  (∀ m, m ∈ messages db → m_id m ≠ new_id) →
  is_ok (Messages.insert db uid now new_id i sender content).2 = true.
Proof.
  intros Hp Hfresh. unfold Messages.insert. rewrite Hp. cbn [negb].
  destruct (existsb _ _) eqn:Hex; [|done]. exfalso.
  apply existsb_exists in Hex as (m & Hin & Hm).
  apply bool_decide_eq_true in Hm. apply (Hfresh m); [|done].
  by apply list_elem_of_In.
Qed.

(** C10. On a blank text (empty, or white space only) both send
    handlers return at once: the store and the screen are as before and
    nothing is reported. On any text, what a send stores is at most one
    new message row, whose content is the text trimmed: the text less a
    blank prefix and a blank suffix, neither starting nor ending with
    white space. A send of a text that is not blank, by a party of the
    booking, stores that row, from the chat screen and from the chat
    panel alike; the panel then empties its input box. *)
Theorem send_blank_or_trimmed (now : Timestamp) (new_id : Uuid) (db : Db)
    (st : ChatScreen.State) (uid : option Uuid) (i : Uuid) (text : Js.str) :
  let r := ChatScreen.sendMessage now new_id db st in
  let q := ChatPanel.handleSendMessage uid now new_id db i text in
  (blank (ChatScreen.newMessage st) → r = (db, st, ChatScreen.Returned))
  ∧ (blank text → q = (db, text, ChatPanel.Returned))
  ∧ (r.1.1 = db
     ∨ ∃ m, r.1.1 = with_messages db (messages db ++ [m])
            ∧ m_content m = Js.trim (ChatScreen.newMessage st)
            ∧ ¬ blank (ChatScreen.newMessage st))
  ∧ (q.1.1 = db
     ∨ ∃ m, q.1.1 = with_messages db (messages db ++ [m])
            ∧ m_content m = Js.trim text ∧ ¬ blank text)
  ∧ (∀ b u, ¬ blank (ChatScreen.newMessage st) →
            ChatScreen.bookingId st = Some b → ChatScreen.user st = Some u →
            Rls.party_of db (Some u) b = true →
            (∀ m, m ∈ messages db → m_id m ≠ new_id) →
            ∃ m, r.1.1 = with_messages db (messages db ++ [m])
                 ∧ m_content m = Js.trim (ChatScreen.newMessage st)
                 ∧ m_sender_id m = u ∧ m_booking_id m = b)
  ∧ (∀ u, ¬ blank text → uid = Some u →
          Rls.party_of db (Some u) i = true →
          (∀ m, m ∈ messages db → m_id m ≠ new_id) →
          ∃ m, q = (with_messages db (messages db ++ [m]), [],
                    ChatPanel.Sent)
               ∧ m_content m = Js.trim text
               ∧ m_sender_id m = u ∧ m_booking_id m = i
               ∧ m_id m = new_id ∧ m_created_at m = now)
  ∧ (∀ s, ∃ l r, s = l ++ Js.trim s ++ r ∧ blank l ∧ blank r
            ∧ (∀ c, head (Js.trim s) = Some c → Js.is_white_space c = false)
            ∧ (∀ c, last (Js.trim s) = Some c
                    → Js.is_white_space c = false)).
Proof.
  cbv zeta. split; [|split; [|split; [|split; [|split; [|split]]]]].
  - intros Hb. apply trim_nil_iff in Hb.
    unfold ChatScreen.sendMessage. by rewrite Hb.
  - intros Hb. apply trim_nil_iff in Hb.
    unfold ChatPanel.handleSendMessage. by rewrite Hb.
  - unfold ChatScreen.sendMessage.
    destruct (Js.trim (ChatScreen.newMessage st)) as [|c content] eqn:Ht;
      [by left|].
    assert (Hnb : ¬ blank (ChatScreen.newMessage st)).
    { intros Hb. apply trim_nil_iff in Hb. congruence. }
    destruct (ChatScreen.bookingId st) as [b|]; [|by left].
    destruct (ChatScreen.user st) as [u|]; [|by left].
    pose proof (insert_spec db (Some u) now new_id b u (c :: content)) as H.
    cbv zeta in H.
    destruct (Messages.insert _ _ _ _ _ _ _) as [db' [m|e]]; cbn in H.
    + destruct H as (-> & Hc & _).
      right. exists m. by destruct (head _).
    + subst db'. by left.
  - unfold ChatPanel.handleSendMessage.
    destruct (Js.trim text) as [|c content] eqn:Ht; [by left|].
    assert (Hnb : ¬ blank text).
    { intros Hb. apply trim_nil_iff in Hb. congruence. }
    destruct uid as [u|]; [|by left].
    pose proof (insert_spec db (Some u) now new_id i u (c :: content)) as H.
    cbv zeta in H.
    destruct (Messages.insert _ _ _ _ _ _ _) as [db' [m|e]]; cbn in H.
    + destruct H as (-> & Hc & _). right. by exists m.
    + subst db'. by left.
  - intros b u Hnb Hb Hu Hp Hfresh. unfold ChatScreen.sendMessage.
    destruct (Js.trim (ChatScreen.newMessage st)) as [|c content] eqn:Ht.
    { exfalso. apply Hnb. by apply trim_nil_iff. }
    rewrite Hb, Hu.
    pose proof (insert_spec db (Some u) now new_id b u (c :: content)) as H.
    pose proof (insert_succeeds db (Some u) now new_id b u (c :: content)
                  Hp Hfresh) as Hok.
    cbv zeta in H.
    destruct (Messages.insert _ _ _ _ _ _ _) as [db' [m|e]]; cbn in H, Hok;
      [|discriminate].
    destruct H as (-> & Hc & Hs & Hbk & _).
    exists m. by destruct (head _).
  - intros u Hnb -> Hp Hfresh. unfold ChatPanel.handleSendMessage.
    destruct (Js.trim text) as [|c content] eqn:Ht.
    { exfalso. apply Hnb. by apply trim_nil_iff. }
    pose proof (insert_spec db (Some u) now new_id i u (c :: content)) as H.
    pose proof (insert_succeeds db (Some u) now new_id i u (c :: content)
                  Hp Hfresh) as Hok.
    cbv zeta in H.
    destruct (Messages.insert _ _ _ _ _ _ _) as [db' [m|e]]; cbn in H, Hok;
      [|discriminate].
    destruct H as (-> & Hc & Hs & Hbk & Hid & Hat). by exists m.
  - apply trim_split.
Qed.

Lemma send_blank_or_trimmed_witness :
  ∃ m, ChatPanel.handleSendMessage (Some "U1") 10 "m9"
         (Sample.chat_store []) "b1" (Js.lit "  on my way ")
       = (with_messages (Sample.chat_store []) [m], [], ChatPanel.Sent)
       ∧ m_content m = Js.lit "on my way"
       ∧ m_sender_id m = "U1" ∧ m_booking_id m = "b1"
       ∧ m_id m = "m9" ∧ m_created_at m = 10.
Proof.
  refine (proj1 (proj2 (proj2 (proj2 (proj2 (proj2
            (send_blank_or_trimmed 10 "m9" (Sample.chat_store [])
               (ChatScreen.setNewMessage (Js.lit "   ")
                  (Sample.chat accepted "U1" false))
               (Some "U1") "b1" (Js.lit "  on my way ")))))))
            "U1" _ eq_refl eq_refl _).
  - intros H. apply trim_nil_iff in H. vm_compute in H. discriminate H.
  - intros m Hm. by apply elem_of_nil in Hm.
Defined.

(** ** Creating a booking *)

Lemma truthy_trim (s : Js.str) : Js.truthy (Js.trim s) = true ↔ ¬ blank s.
Proof.
  rewrite <- trim_nil_iff. destruct (Js.trim s); cbn; split; done.
Qed.

(** The form passes exactly when no text field is blank and a time is
    there unless the trip is ASAP. *)
Lemma validateTripForm_true (fd : TripScreen.FormData) :
  TripScreen.validateTripForm fd = true
  ↔ ¬ blank (TripScreen.fd_name fd)
    ∧ ¬ blank (TripScreen.pickupLocation fd)
    ∧ ¬ blank (TripScreen.dropoffLocation fd)
    ∧ (TripScreen.isASAP fd = true ∨ is_Some (TripScreen.scheduledTime fd)).
Proof.
  unfold TripScreen.validateTripForm, TripScreen.validationErrors.
  rewrite bool_decide_eq_true, <- !truthy_trim.
  destruct (Js.truthy (Js.trim (TripScreen.fd_name fd)));
    destruct (Js.truthy (Js.trim (TripScreen.pickupLocation fd)));
    destruct (Js.truthy (Js.trim (TripScreen.dropoffLocation fd)));
    destruct (TripScreen.isASAP fd);
    destruct (TripScreen.scheduledTime fd) as [t|]; cbn;
    try rewrite bool_decide_eq_true_2 by (by eexists);
    try rewrite bool_decide_eq_false_2 by (by intros [? ?]); cbn;
    split; try done; try (intros (? & ? & ? & ?); done);
    try (intros _; repeat split; by eauto).
  all: intros (_ & _ & _ & [?|[? ?]]); done.
Qed.

(** [createBooking] stores what it is given: for a signed-in user and a
    fresh identifier it appends the row, Pending and without a rider. *)
Lemma createBooking_inserts (u : Uuid) (now : Timestamp) (new_id : Uuid)
    (db : Db) (data : CreateBookingData) :
  (∀ b, b ∈ bookings db → id b ≠ new_id) →
  bookingService.createBooking (Some u) now new_id db data
  = (with_bookings db
       (bookings db ++ [bookingService.new_booking now new_id u data]),
     Ok (bookingService.new_booking now new_id u data)).
Proof.
  intros Hfresh. unfold bookingService.createBooking.
  destruct (existsb _ _) eqn:Hex; [|done]. exfalso.
  apply existsb_exists in Hex as (b & Hin & Hb). apply id_is_true in Hb.
  apply (Hfresh b); [by apply list_elem_of_In|done].
Qed.

(** C7, as the code has it. The trip form validates before it calls the
    service: when the name, the pickup or the dropoff is blank (empty or
    white space only), or the trip is not ASAP and has no scheduled time,
    the signed-in user is shown the validation alert and the store is not
    touched; otherwise, for a fresh identifier, one booking is appended,
    Pending, without a rider, owned by the user. Unless a booking is
    created the store is unchanged. [createBooking] itself checks no
    field. *)
Theorem handleSubmit_validates_then_inserts (uid : option Uuid)
    (now : Timestamp) (new_id : Uuid) (db : Db) (fd : TripScreen.FormData) :
  let r := TripScreen.handleSubmit uid now new_id db fd in
  let invalid :=
    blank (TripScreen.fd_name fd) ∨ blank (TripScreen.pickupLocation fd)
    ∨ blank (TripScreen.dropoffLocation fd)
    ∨ (TripScreen.isASAP fd = false ∧ TripScreen.scheduledTime fd = None) in
  (invalid → is_Some uid → r = (db, TripScreen.MissingInformation))
  ∧ (¬ invalid → ∀ u, uid = Some u →
       (∀ b, b ∈ bookings db → id b ≠ new_id) →
       ∃ b, r = (with_bookings db (bookings db ++ [b]), TripScreen.Created b)
            ∧ status b = pending ∧ rider_id b = None ∧ user_id b = u
            ∧ id b = new_id
            ∧ pickup_location b = TripScreen.pickupLocation fd
            ∧ dropoff_location b = TripScreen.dropoffLocation fd
            ∧ name b = TripScreen.fd_name fd
            ∧ is_asap b = TripScreen.isASAP fd
            ∧ scheduled_time b = TripScreen.scheduledTime fd)
  ∧ ((∀ b, r.2 ≠ TripScreen.Created b) → r.1 = db)
  ∧ (∀ u data, (∀ b, b ∈ bookings db → id b ≠ new_id) →
       ∃ b, bookingService.createBooking (Some u) now new_id db data
            = (with_bookings db (bookings db ++ [b]), Ok b)
            ∧ status b = pending ∧ rider_id b = None
            ∧ pickup_location b = cb_pickup_location data
            ∧ dropoff_location b = cb_dropoff_location data
            ∧ name b = cb_name data).
Proof.
  cbv zeta. split; [|split; [|split]].
  - intros Hinv [u ->]. unfold TripScreen.handleSubmit.
    destruct (TripScreen.validateTripForm fd) eqn:Hv; [|done]. exfalso.
    apply validateTripForm_true in Hv as (Hn & Hp & Hd & Ht).
    destruct Hinv as [?|[?|[?|[Ha Hs]]]]; try done.
    destruct Ht as [Ht|[t Ht]]; congruence.
  - intros Hvalid u -> Hfresh. unfold TripScreen.handleSubmit.
    assert (Hv : TripScreen.validateTripForm fd = true).
    { apply validateTripForm_true. repeat split; try (intros ?; apply Hvalid; tauto).
      destruct (TripScreen.isASAP fd) eqn:Ha; [by left|]. right.
      destruct (TripScreen.scheduledTime fd) eqn:Hs; [by eexists|].
      exfalso. apply Hvalid. tauto. }
    rewrite Hv. cbn [negb]. rewrite createBooking_inserts by done.
    eexists. split; [reflexivity|]. done.
  - unfold TripScreen.handleSubmit. destruct uid as [u|]; [|done].
    destruct (negb _); [done|].
    destruct (bookingService.createBooking _ _ _ _ _) as [db' [b|e]] eqn:Hc.
    + intros H. by destruct (H b).
    + intros _. unfold bookingService.createBooking in Hc.
      destruct (existsb _ _); by injection Hc as <-.
  - intros u data Hfresh. rewrite createBooking_inserts by done.
    eexists. split; [reflexivity|]. done.
Qed.

Lemma handleSubmit_validates_then_inserts_witness :
  TripScreen.handleSubmit (Some "U1") 10 "b9" (Sample.store [])
    {| TripScreen.fd_name := Js.lit "Airport";
       TripScreen.pickupLocation := [];
       TripScreen.dropoffLocation := Js.lit "B";
       TripScreen.isASAP := true;
       TripScreen.scheduledTime := Some 20;
       TripScreen.specialNotes := [] |}
  = (Sample.store [], TripScreen.MissingInformation).
Proof.
  refine (proj1 (handleSubmit_validates_then_inserts (Some "U1") 10 "b9"
                   (Sample.store []) _) _ _).
  - right. left. constructor.
  - by exists "U1".
Defined.

(** C7 as stated fails: [createBooking] stores a booking whose pickup,
    dropoff and name are empty and which is neither ASAP nor scheduled;
    and the form turns down a pickup of white space only, which is not
    empty. *)
Lemma createBooking_does_not_validate :
  (∃ b, bookingService.createBooking (Some "U1") 10 "b9" (Sample.store [])
          {| cb_pickup_location := []; cb_dropoff_location := [];
             cb_scheduled_time := None; cb_notes := None;
             cb_is_asap := Some false; cb_booking_type := trip;
             cb_name := [] |}
        = (Sample.store [b], Ok b)
        ∧ pickup_location b = [] ∧ dropoff_location b = [] ∧ name b = []
        ∧ is_asap b = false ∧ scheduled_time b = None)
  ∧ TripScreen.handleSubmit (Some "U1") 10 "b9" (Sample.store [])
      {| TripScreen.fd_name := Js.lit "Airport";
         TripScreen.pickupLocation := Js.lit "  ";
         TripScreen.dropoffLocation := Js.lit "B";
         TripScreen.isASAP := true;
         TripScreen.scheduledTime := Some 20;
         TripScreen.specialNotes := [] |}
    = (Sample.store [], TripScreen.MissingInformation).
Proof.
  split; [|by vm_compute].
  eexists. split; [vm_compute; reflexivity|]. by vm_compute.
Qed.

(** ** The scenarios on sample data *)

(** Create, accept, two presses: Pending, Accepted, OnTheWay, Completed. *)
Example happy_path_trace :
  let ops :=
    [ op_create (Some "U1") 10 "b1"
        {| cb_pickup_location := Js.lit "A"; cb_dropoff_location := Js.lit "B";
           cb_scheduled_time := None; cb_notes := None;
           cb_is_asap := Some true; cb_booking_type := trip;
           cb_name := Js.lit "Airport" |};
      op_accept (Some "R1") 11 "b1";
      op_advance 12 (Sample.chat accepted "R1" true);
      op_advance 13 (Sample.chat on_the_way "R1" true) ] in
  let dbs := run_ops RlsSelect.view_own Rls.bookings_policies
               (Sample.store []) ops in
  status_trace 0 (Sample.store [] :: dbs)
  = [pending; accepted; on_the_way; completed]
  ∧ (rider_id <$> (last dbs ≫= fun db => bookings db !! 0%nat))
    = Some (Some "R1").
Proof. by vm_compute. Qed.

(** A second rider finds the booking taken. *)
Example second_accept_refused :
  let db1 := (riderService.acceptBooking RlsSelect.view_own (Some "R1") 11
                (Sample.store [Sample.b_pending]) "b1").1 in
  riderService.acceptBooking RlsSelect.view_own (Some "R2") 12 db1 "b1"
  = (db1, Err (Raised "Booking is not available for acceptance"))
  ∧ rider_id <$> bookings db1 = [Some "R1"].
Proof. by vm_compute. Qed.

(** An unrelated user cannot cancel. *)
Example unrelated_cancel_refused :
  bookingService.cancelBooking Rls.bookings_policies (Some "U2") 12
    (Sample.store [Sample.b_accepted]) "b1" (Js.lit "mine now")
  = (Sample.store [Sample.b_accepted], Err NoSingleRow).
Proof. by vm_compute. Qed.

Lemma lifecycle_trace_steps_witness :
  Sorted code_step
    (status_trace 0
       (Sample.store [Sample.b_pending]
          :: run_ops RlsSelect.view_own Rls.bookings_policies
               (Sample.store [Sample.b_pending])
               [ op_accept (Some "R1") 11 "b1";
                 op_advance 12 (Sample.chat accepted "R1" true);
                 op_cancel (Some "U1") 13 "b1" (Js.lit "too late") ])).
Proof.
  exact (proj1 (lifecycle_trace_steps RlsSelect.view_own
                  Rls.bookings_policies _ _ 0)).
Defined.

Lemma poll_sorts_push_appends_witness :
  let early := Sample.a_message "m1" "U1" 2 "where are you" in
  let late := Sample.a_message "m2" "R1" 9 "two minutes" in
  let db := Sample.chat_store [early; late] in
  let st1 := ChatScreen.poll db "b1" (Sample.chat accepted "U1" false) in
  NoDup (ChatScreen.msg_id <$> ChatScreen.view st1)
  ∧ ¬ NoDup (ChatScreen.msg_id
               <$> ChatScreen.view (ChatScreen.push db early st1)).
Proof.
  intros early late db st1.
  pose proof (poll_sorts_push_appends db "b1"
                (Sample.chat accepted "U1" false))
    as (_ & Hpoll & _ & _ & Hpush & _).
  split.
  - apply Hpoll. vm_compute. repeat constructor.
    + rewrite elem_of_cons. intros [H|H]; [discriminate|by inversion H].
    + by inversion 1.
  - refine (proj2 (Hpush st1 early
                     {| p_id := "U1"; p_username := Js.lit "una";
                        p_avatar_url := None |}
                     (ChatScreen.with_sender early
                        {| p_id := "U1"; p_username := Js.lit "una";
                           p_avatar_url := None |}) _ _ _)).
    + reflexivity.
    + vm_compute. left.
    + reflexivity.
Defined.

Lemma poll_omits_only_unenriched_witness :
  let una := {| p_id := "U1"; p_username := Js.lit "una";
                p_avatar_url := None |} in
  let batch := [Sample.a_message "m1" "U1" 2 "where are you";
                Sample.a_message "m2" "R9" 5 "on my way";
                Sample.a_message "m3" "U1" 9 "thanks"] in
  let delivered :=
    ChatScreen.view
      (ChatScreen.pollCycle (Ok batch) (fun _ => Ok [una])
         (Sample.chat accepted "U1" false)) in
  ("m2" ∉ ChatScreen.msg_id <$> delivered)
  ∧ ∃ v, v ∈ delivered ∧ ChatScreen.msg_id v = "m3"
         ∧ ChatScreen.msg_content v = Js.lit "thanks"
         ∧ ChatScreen.s_id (ChatScreen.msg_sender v) = "U1".
Proof.
  intros una batch delivered.
  pose proof (poll_omits_only_unenriched batch [una]
                (Sample.chat accepted "U1" false) (Sample.chat_store []) "b1"
                (Sample.chat accepted "U1" false) NoSingleRow)
    as (_ & Homit & Hkeep & _).
  split.
  - apply (Homit (Sample.a_message "m2" "R9" 5 "on my way")).
    + right. left.
    + vm_compute. intros H. apply list_elem_of_singleton in H. discriminate.
    + vm_compute. repeat constructor.
      * rewrite !elem_of_cons, elem_of_nil. by intros [?|[?|[]]].
      * rewrite !elem_of_cons, elem_of_nil. by intros [?|[]].
      * by apply not_elem_of_nil.
  - apply (Hkeep (Sample.a_message "m3" "U1" 9 "thanks")).
    + right. right. left.
    + vm_compute. left.
Defined.

(** * Further properties *)

(** ** What the lifecycle operations keep *)

Lemma kept_refl (b : Booking) : kept b b.
Proof. unfold kept. repeat split; done. Qed.

Lemma Forall2_kept_refl (t : list Booking) : Forall2 kept t t.
Proof. induction t; constructor; auto using kept_refl. Qed.

Lemma update_Forall2 (R : Booking → Booking → Prop) (now : Timestamp)
    (whr : Booking → bool) (set : Booking → Booking) (t : list Booking) :
  (∀ b, R b b) →
  (∀ b, whr b = true → R b (Sql.update_updated_at_column now (set b))) →
  Forall2 R t (Sql.update now whr set t).1.
Proof.
  intros Hrefl Hset. rewrite update_table.
  induction t as [|b t IH]; constructor; [|exact IH].
  destruct (whr b) eqn:Hb; auto.
Qed.

(** What [accept_booking] leaves in the table. *)
Lemma accept_booking_table (uid : option Uuid) (now : Timestamp) (db : Db)
    (i : Uuid) :
  (Schema.accept_booking uid now db i).1 = db
  ∨ (is_Some uid
     ∧ (Schema.accept_booking uid now db i).1
       = with_bookings db
           (Sql.update now (Schema.available_for_acceptance i)
              (apply_patch
                 {| set_status := Some accepted; set_rider_id := uid;
                    set_updated_at := Some now; set_completed_at := None;
                    set_cancelled_at := None; set_cancelled_by := None;
                    set_cancellation_reason := None |})
              (bookings db)).1).
Proof.
  unfold Schema.accept_booking.
  destruct (Rls.available_rider db uid) eqn:Hr; cbn [negb]; [|by left].
  destruct (negb (existsb _ _)); [by left|].
  destruct (Sql.update _ _ _ _) as [t' rows] eqn:Hu.
  destruct rows; [by left|]. right. split; [|done].
  by apply available_rider_session in Hr.
Qed.

Lemma acceptBooking_store (sel : Db → option Uuid → Booking → bool)
    (uid : option Uuid) (now : Timestamp) (db : Db) (i : Uuid) :
  (riderService.acceptBooking sel uid now db i).1 = db
  ∨ (riderService.acceptBooking sel uid now db i).1
    = (Schema.accept_booking uid now db i).1.
Proof.
  unfold riderService.acceptBooking. destruct uid as [u|]; [|by left].
  destruct (filter _ (rider_profiles db)) as [|rp [|]]; try by left.
  destruct (negb (rp_is_available rp)); [by left|].
  destruct (Schema.accept_booking _ _ _ _) as [db' [[]|e]]; [|by right].
  right. by destruct (Sql.single _).
Qed.

Lemma run_op_kept (sel : Db → option Uuid → Booking → bool)
    (ps : list Rls.UpdatePolicy) (db : Db) (op : Op) :
  ∃ t1 news, bookings (run_op sel ps db op) = t1 ++ news
             ∧ Forall2 kept (bookings db) t1.
Proof.
  assert (Hsame : ∃ t1 news, bookings db = t1 ++ news
                             ∧ Forall2 kept (bookings db) t1).
  { exists (bookings db), []. rewrite app_nil_r.
    split; [done|apply Forall2_kept_refl]. }
  destruct op as [uid now new_id data|uid now i|now st|uid now i reason];
    cbn.
  - unfold bookingService.createBooking. destruct uid as [u|]; [|done].
    destruct (existsb _ _); [done|]. cbn.
    eexists (bookings db), [_]. split; [done|apply Forall2_kept_refl].
  - destruct (acceptBooking_store sel uid now db i) as [->| ->]; [done|].
    destruct (accept_booking_table uid now db i) as [->|[[u ->] ->]];
      [done|].
    cbn. eexists _, []. rewrite app_nil_r. split; [done|].
    apply update_Forall2; [apply kept_refl|]. intros b Hb.
    unfold Schema.available_for_acceptance in Hb.
    apply andb_true_iff in Hb as [_ Hb]. apply bool_decide_eq_true in Hb.
    unfold kept. cbn. rewrite Hb. repeat split; try done.
  - unfold ChatScreen.pressStatusButton.
    destruct (ChatScreen.isRider st); [|done].
    destruct (ChatScreen.handlePress _) as [target|]; [|done].
    destruct (ChatScreen.bookingId st) as [i|]; [|done].
    unfold ChatScreen.updateBookingStatus.
    destruct (Sql.update_rls _ _ _ _ _ _) as [[t' rows]|e] eqn:Hu; [|done].
    destruct rows as [|r rows]; [done|].
    apply update_rls_table in Hu. cbn. subst t'.
    eexists _, []. rewrite app_nil_r. split; [done|].
    apply update_Forall2; [apply kept_refl|]. intros b _.
    unfold kept. cbn. repeat split; try done.
  - unfold bookingService.cancelBooking, bookingService.update_by_id.
    destruct (Sql.update_rls _ _ _ _ _ _) as [[t' rows]|e] eqn:Hu; [|done].
    destruct (Sql.single rows); [|done].
    apply update_rls_table in Hu. cbn. subst t'.
    eexists _, []. rewrite app_nil_r. split; [done|].
    apply update_Forall2; [apply kept_refl|]. intros b _.
    unfold kept. cbn. repeat split; try done.
Qed.

Lemma kept_trans (a b c : Booking) : kept a b → kept b c → kept a c.
Proof.
  unfold kept. intros (?&?&?&?&?&?&?&?&?&?&Hr1) (?&?&?&?&?&?&?&?&?&?&Hr2).
  repeat split; try congruence. intros r Hr. by apply Hr2, Hr1.
Qed.

(** X1. Over every sequence of lifecycle operations a stored booking
    stays in the store, at its place, and keeps its identifier, owner,
    creation time, locations, schedule, notes, kind and name; and once
    it has a rider it keeps that rider: no later acceptance, advance or
    cancellation hands it to another one. *)
Theorem lifecycle_keeps_booking (sel : Db → option Uuid → Booking → bool)
    (ps : list Rls.UpdatePolicy) (ops : list Op) (db : Db) (k : nat)
    (b : Booking) :
  bookings db !! k = Some b →
  Forall (fun db' => ∃ b', bookings db' !! k = Some b' ∧ kept b b')
    (run_ops sel ps db ops).
Proof.
  revert db b. induction ops as [|op ops IH]; intros db b Hk; [constructor|].
  cbn [run_ops].
  destruct (run_op_kept sel ps db op) as (t1 & news & Ht & Hrows).
  destruct (Forall2_lookup_l _ _ _ _ _ Hrows Hk) as (b' & Hk' & Hkept).
  assert (Hk2 : bookings (run_op sel ps db op) !! k = Some b').
  { rewrite Ht. by apply lookup_app_l_Some. }
  constructor; [by exists b'|].
  eapply Forall_impl; [exact (IH _ _ Hk2)|].
  intros db' (b'' & ? & ?). exists b''. split; [done|].
  by apply (kept_trans b b' b'').
Qed.

Lemma lifecycle_keeps_booking_witness :
  Forall (fun db' => ∃ b', bookings db' !! 0%nat = Some b'
                           ∧ kept Sample.b_accepted b')
    (run_ops RlsSelect.view_own Rls.bookings_policies
       (Sample.store [Sample.b_accepted])
       [ op_accept (Some "R2") 11 "b1";
         op_advance 12 (Sample.chat accepted "R1" true);
         op_cancel (Some "U1") 13 "b1" (Js.lit "too late") ]).
Proof.
  apply (lifecycle_keeps_booking RlsSelect.view_own Rls.bookings_policies _
           (Sample.store [Sample.b_accepted]) 0 Sample.b_accepted).
  reflexivity.
Defined.

(** ** [riderService.acceptBooking] *)

Lemma filter_unique_by_id (P : Booking → Prop) `{!∀ x, Decision (P x)}
    (t : list Booking) (b : Booking) :
  NoDup (id <$> t) → b ∈ t → P b → (∀ x, x ∈ t → P x → id x = id b) →
  filter P t = [b].
Proof.
  intros Hnd Hin Hb Hid. induction t as [|x t IH]; [by inversion Hin|].
  cbn in Hnd. apply NoDup_cons in Hnd as [Hx Hnd].
  rewrite filter_cons. apply elem_of_cons in Hin as [<-|Hin].
  - rewrite decide_True by done. f_equal.
    destruct (filter P t) as [|y ys] eqn:Hf; [done|]. exfalso.
    assert (Hy : y ∈ filter P t) by (rewrite Hf; left).
    apply list_elem_of_filter in Hy as [Hy Hyin].
    apply Hx. rewrite <- (Hid y); [|by right|done].
    apply list_elem_of_fmap. by exists y.
  - destruct (decide (P x)) as [Hpx|Hpx].
    + exfalso. apply Hx. rewrite (Hid x); [|left|done].
      apply list_elem_of_fmap. by exists b.
    + apply IH; try done. intros y Hy. apply Hid. by right.
Qed.

Lemma Forall2_fmap_eq {A B} (f : A → B) (l k : list A) :
  Forall2 (fun x y => f y = f x) l k → f <$> k = f <$> l.
Proof. induction 1; cbn; congruence. Qed.

(** A successful call went through every step. *)
Lemma acceptBooking_Ok_inv (sel : Db → option Uuid → Booking → bool)
    (uid : option Uuid) (now : Timestamp) (db db' : Db) (i : Uuid) :
  riderService.acceptBooking sel uid now db i = (db', Ok tt) →
  ∃ u rp,
    uid = Some u
    ∧ filter (fun rp => rp_user_id rp = u) (rider_profiles db) = [rp]
    ∧ rp_is_available rp = true
    ∧ Schema.accept_booking uid now db i = (db', Ok tt)
    ∧ ∃ b, filter (fun b => id b = i)
             (filter (fun b => sel db' uid b) (bookings db')) = [b].
Proof.
  unfold riderService.acceptBooking. destruct uid as [u|]; [|discriminate].
  destruct (filter _ (rider_profiles db)) as [|rp [|]] eqn:Hrp;
    try discriminate.
  destruct (rp_is_available rp) eqn:Hav; cbn [negb]; [|discriminate].
  destruct (Schema.accept_booking _ _ _ _) as [db1 [[]|e]] eqn:Ha;
    [|discriminate].
  destruct (Sql.single _) as [b|e] eqn:Hs; [|discriminate].
  intros [= <-]. exists u, rp. repeat split; try done.
  exists b. by apply single_Ok in Hs.
Qed.

(** After [accept_booking] has returned, no row with that identifier is
    open to acceptance. *)
Lemma accept_booking_closes (uid : option Uuid) (now : Timestamp)
    (db db' : Db) (i : Uuid) :
  Schema.accept_booking uid now db i = (db', Ok tt) →
  ∀ b, b ∈ bookings db' → id b = i →
       ¬ (status b = pending ∧ rider_id b = None).
Proof.
  intros Ha b' Hin Hid [Hs Hr].
  apply accept_booking_Ok in Ha as (_ & _ & Hrows & _).
  apply list_elem_of_lookup in Hin as [k Hk].
  destruct (Forall2_lookup_r _ _ _ _ _ Hrows Hk) as (b & _ & Hb).
  cbn in Hb. destruct (Schema.available_for_acceptance i b) eqn:Hav.
  - destruct Hb as (_ & Hst & _). congruence.
  - subst b'. unfold Schema.available_for_acceptance, id_is in Hav.
    by rewrite !bool_decide_eq_true_2 in Hav.
Qed.

(** X2. A booking is claimed once: after [acceptBooking] has succeeded
    on a booking, every further [acceptBooking] on it, by any session at
    any time, returns an error and leaves the store as it is. *)
Theorem acceptBooking_claims_once
    (sel : Db → option Uuid → Booking → bool) (uid uid2 : option Uuid)
    (now now2 : Timestamp) (db db' : Db) (i : Uuid) :
  riderService.acceptBooking sel uid now db i = (db', Ok tt) →
  ∃ e, riderService.acceptBooking sel uid2 now2 db' i = (db', Err e).
Proof.
  intros H. apply acceptBooking_Ok_inv in H as (u & rp & _ & _ & _ & Ha & _).
  pose proof (accept_booking_closes _ _ _ _ _ Ha) as Hclosed.
  unfold riderService.acceptBooking. destruct uid2 as [u2|]; [|by eexists].
  destruct (filter _ (rider_profiles db')) as [|rp2 [|]]; try by eexists.
  destruct (rp_is_available rp2); cbn [negb]; [|by eexists].
  destruct (Rls.available_rider db' (Some u2)) eqn:Hr.
  - rewrite (accept_booking_unavailable (Some u2) now2 db' i Hr Hclosed).
    by eexists.
  - unfold Schema.accept_booking. rewrite Hr. by eexists.
Qed.

Lemma acceptBooking_claims_once_witness :
  ∃ e, riderService.acceptBooking RlsSelect.view_own (Some "R2") 12
         (riderService.acceptBooking RlsSelect.view_own (Some "R1") 11
            (Sample.store [Sample.b_pending]) "b1").1 "b1"
       = ((riderService.acceptBooking RlsSelect.view_own (Some "R1") 11
             (Sample.store [Sample.b_pending]) "b1").1, Err e).
Proof.
  apply (acceptBooking_claims_once RlsSelect.view_own (Some "R1") (Some "R2")
           11 12 (Sample.store [Sample.b_pending])).
  reflexivity.
Defined.

(** With unique identifiers and a SELECT policy that shows riders their
    bookings, the read-back after [accept_booking] finds its row: a call
    that fails has written nothing. *)
Lemma acceptBooking_Err_store (sel : Db → option Uuid → Booking → bool)
    (uid : option Uuid) (now : Timestamp) (db db' : Db) (i : Uuid)
    (e : Error) :
  NoDup (id <$> bookings db) → shows_own sel →
  riderService.acceptBooking sel uid now db i = (db', Err e) → db' = db.
Proof.
  intros Hnd Hsel. unfold riderService.acceptBooking.
  destruct uid as [u|]; [|congruence].
  destruct (filter _ (rider_profiles db)) as [|rp [|]]; try congruence.
  destruct (negb (rp_is_available rp)); [congruence|].
  destruct (Schema.accept_booking _ _ _ _) as [db1 [[]|e']] eqn:Ha.
  - pose proof (accept_booking_Ok _ _ _ _ _ Ha) as (_ & Hb & Hrows & _).
    destruct Hb as (b & Hin & Hid & Hs & Hn).
    apply list_elem_of_lookup in Hin as [k Hk].
    destruct (Forall2_lookup_l _ _ _ _ _ Hrows Hk) as (b' & Hk' & Hb').
    cbn in Hb'.
    assert (Hav : Schema.available_for_acceptance i b = true).
    { unfold Schema.available_for_acceptance, id_is.
      by rewrite !bool_decide_eq_true_2. }
    rewrite Hav in Hb'. destruct Hb' as (Hid' & _ & Hr' & _).
    assert (Hids : id <$> bookings db1 = id <$> bookings db).
    { apply Forall2_fmap_eq. eapply Forall2_impl; [exact Hrows|].
      intros x y Hxy. cbn in Hxy.
      destruct (Schema.available_for_acceptance i x); [tauto|by subst]. }
    rewrite list_filter_filter.
    rewrite (filter_unique_by_id _ (bookings db1) b'); [done| | | |].
    + by rewrite Hids.
    + by apply list_elem_of_lookup_2 in Hk'.
    + split; [congruence|]. apply Is_true_true, Hsel. by right.
    + intros x _ [Hx _]. congruence.
  - intros [= <- _]. by apply accept_booking_Err in Ha.
Qed.

(** X3. A successful [acceptBooking] was called by a user with an
    available rider profile on a booking that was Pending without a
    rider, and leaves that booking Accepted with the caller as rider,
    stamped now, every other booking as it was. With unique identifiers
    and a SELECT policy that shows riders their bookings, a failed call
    leaves the whole store as it was. *)
Theorem acceptBooking_assigns_caller
    (sel : Db → option Uuid → Booking → bool) (uid : option Uuid)
    (now : Timestamp) (db : Db) (i : Uuid) :
  let r := riderService.acceptBooking sel uid now db i in
  (r.2 = Ok tt →
   ∃ u, uid = Some u ∧ Rls.available_rider db uid = true
        ∧ (∃ b, b ∈ bookings db ∧ id b = i ∧ status b = pending
                ∧ rider_id b = None)
        ∧ Forall2
            (fun b b' =>
               if Schema.available_for_acceptance i b
               then kept b b' ∧ status b' = accepted
                    ∧ rider_id b' = Some u ∧ updated_at b' = now
               else b' = b)
            (bookings db) (bookings r.1))
  ∧ (NoDup (id <$> bookings db) → shows_own sel →
     ∀ e, r.2 = Err e → r.1 = db).
Proof.
  cbv zeta. split.
  - destruct (riderService.acceptBooking sel uid now db i) as [db' res] eqn:H.
    cbn. intros ->.
    apply acceptBooking_Ok_inv in H as (u & rp & -> & _ & _ & Ha & _).
    exists u. split; [done|].
    pose proof (accept_booking_Ok _ _ _ _ _ Ha) as (Hr & Hb & _ & _).
    split; [done|]. split; [done|].
    destruct (accept_booking_table (Some u) now db i) as [Hsame|[_ Hnew]];
      rewrite Ha in *; cbn [fst] in *.
    + subst db'. exfalso. destruct Hb as (b & Hin & Hid & Hs & Hn).
      by apply (accept_booking_closes _ _ _ _ _ Ha b).
    + subst db'. cbn [bookings with_bookings]. rewrite update_table.
      clear Ha Hr Hb.
      induction (bookings db) as [|b t IH]; constructor; [|exact IH].
      destruct (Schema.available_for_acceptance i b) eqn:Hav; [|done].
      unfold Schema.available_for_acceptance in Hav.
      apply andb_true_iff in Hav as [_ Hav]. apply bool_decide_eq_true in Hav.
      unfold kept. cbn. rewrite Hav. repeat split; done.
  - intros Hnd Hsel e.
    destruct (riderService.acceptBooking sel uid now db i) as [db' res] eqn:H.
    cbn. intros ->. by apply (acceptBooking_Err_store sel uid now db db' i e).
Qed.

Lemma acceptBooking_assigns_caller_witness :
  (riderService.acceptBooking RlsSelect.view_own (Some "R1") 11
     (Sample.store [Sample.b_accepted]) "b1").1
  = Sample.store [Sample.b_accepted].
Proof.
  refine (proj2 (acceptBooking_assigns_caller RlsSelect.view_own (Some "R1")
                   11 (Sample.store [Sample.b_accepted]) "b1") _ _ _ _).
  - vm_compute. repeat constructor. by apply not_elem_of_nil.
  - intros db u b Hb. unfold RlsSelect.view_own, Rls.uid_is, Rls.uid_is_opt.
    apply orb_true_iff. destruct Hb as [<-|Hb].
    + left. by apply bool_decide_eq_true.
    + right. apply bool_decide_eq_true. rewrite Hb. by split.
  - vm_compute. reflexivity.
Defined.

(** ** The rider's lists *)

Lemma isRider_true (uid : option Uuid) (db : Db) :
  (riderService.isRider uid db).1 = true
  ↔ ∃ u rp, uid = Some u
            ∧ filter (fun rp => rp_user_id rp = u) (rider_profiles db) = [rp].
Proof.
  unfold riderService.isRider. destruct uid as [u|].
  - destruct (filter _ (rider_profiles db)) as [|rp [|rp2 l]] eqn:Hf; cbn.
    + split; [done|]. intros (? & ? & [= <-] & H). congruence.
    + split; [|done]. intros _. by exists u, rp.
    + split; [done|]. intros (? & ? & [= <-] & H). congruence.
  - cbn. split; [done|]. by intros (? & ? & ? & _).
Qed.

Lemma booking_with_user (ps : list Profile) (rows : list Booking) :
  riderService.booking <$> (riderService.with_user ps <$> rows) = rows.
Proof. induction rows as [|b rows IH]; cbn; by f_equal. Qed.

(** For a rider the list is built from the sorted rows, with some list
    of profiles. *)
Lemma getAvailableBookings_rows
    (sel : Db → option Uuid → Booking → bool) (uid : option Uuid) (db : Db) :
  (riderService.isRider uid db).1 = true →
  ∃ ps, riderService.getAvailableBookings sel uid db
        = Ok (riderService.with_user ps
                <$> merge_sort riderService.newer_first
                      (filter (fun b => status b = pending ∧ rider_id b = None)
                         (filter (fun b => sel db uid b) (bookings db)))).
Proof.
  intros Hr. unfold riderService.getAvailableBookings.
  destruct uid as [u|].
  - rewrite Hr. cbn [negb].
    destruct (merge_sort _ _) as [|b rows]; [by exists []|]. by eexists.
  - apply isRider_true in Hr as (? & ? & ? & _). discriminate.
Qed.

Lemma getAvailableBookings_Ok_rider
    (sel : Db → option Uuid → Booking → bool) (uid : option Uuid) (db : Db)
    (data : list riderService.BookingWithUser) :
  riderService.getAvailableBookings sel uid db = Ok data →
  (riderService.isRider uid db).1 = true.
Proof.
  unfold riderService.getAvailableBookings.
  destruct uid as [u|]; [|discriminate].
  by destruct ((riderService.isRider (Some u) db).1).
Qed.

(** X4. For a caller with a rider profile [getAvailableBookings] returns
    every Pending booking without a rider that the SELECT policy shows
    the caller, each stored row once; under the migration's policy that
    is every such booking of the store. *)
Theorem getAvailableBookings_complete
    (sel : Db → option Uuid → Booking → bool) (uid : option Uuid) (db : Db) :
  (riderService.isRider uid db).1 = true →
  (∃ data, riderService.getAvailableBookings sel uid db = Ok data
           ∧ riderService.booking <$> data
             ≡ₚ filter (fun b => status b = pending ∧ rider_id b = None)
                  (filter (fun b => sel db uid b) (bookings db)))
  ∧ (∃ data,
       riderService.getAvailableBookings RlsSelect.view_own_or_pending uid db
       = Ok data
       ∧ riderService.booking <$> data
         ≡ₚ filter (fun b => status b = pending ∧ rider_id b = None)
              (bookings db)).
Proof.
  intros Hr. split.
  - destruct (getAvailableBookings_rows sel uid db Hr) as (ps & ->).
    eexists. split; [done|].
    by rewrite booking_with_user, merge_sort_Permutation.
  - destruct (getAvailableBookings_rows RlsSelect.view_own_or_pending uid db
                Hr) as (ps & ->).
    eexists. split; [done|].
    rewrite booking_with_user, merge_sort_Permutation, list_filter_filter.
    erewrite list_filter_iff; [done|].
    intros b. split; [tauto|]. intros [Hs Hn]. split; [done|].
    apply isRider_true in Hr as (u & rp & -> & Hrp).
    unfold RlsSelect.view_own_or_pending. apply Is_true_true.
    apply orb_true_iff. right.
    rewrite !bool_decide_eq_true_2 by done. cbn.
    apply existsb_exists. exists rp. split.
    + apply list_elem_of_In. eapply list_elem_of_filter.
      rewrite Hrp. left.
    + apply bool_decide_eq_true. unfold Rls.uid_is.
      assert (Hin : rp ∈ filter (fun rp => rp_user_id rp = u)
                         (rider_profiles db)) by (rewrite Hrp; left).
      apply list_elem_of_filter in Hin as [-> _]. done.
Qed.

Lemma getAvailableBookings_complete_witness :
  ∃ data,
    riderService.getAvailableBookings RlsSelect.view_own_or_pending
      (Some "R2") (Sample.store [Sample.b_accepted; Sample.b_pending])
    = Ok data
    ∧ riderService.booking <$> data
      ≡ₚ filter (fun b => status b = pending ∧ rider_id b = None)
           (bookings (Sample.store [Sample.b_accepted; Sample.b_pending])).
Proof.
  refine (proj2 (getAvailableBookings_complete RlsSelect.view_own
                   (Some "R2")
                   (Sample.store [Sample.b_accepted; Sample.b_pending]) _)).
  reflexivity.
Defined.

Lemma ab_booking_with_active_user (upd : Profile → Timestamp)
    (now : Timestamp) (ps : list Profile) (rows : list Booking) :
  riderReads.ab_booking <$> (riderReads.with_active_user upd now ps <$> rows)
  = rows.
Proof. induction rows as [|b rows IH]; cbn; by f_equal. Qed.

Lemma getActiveBookings_rows
    (sel : Db → option Uuid → Booking → bool) (uid : option Uuid)
    (upd : Profile → Timestamp) (now : Timestamp) (db : Db) :
  (riderService.isRider uid db).1 = true →
  ∃ ps, riderReads.getActiveBookings sel uid upd now db
        = Ok (riderReads.with_active_user upd now ps
                <$> filter (fun b => sel db uid b ∧ rider_id b = uid
                              ∧ (status b = accepted ∨ status b = on_the_way))
                      (bookings db)).
Proof.
  intros Hr. unfold riderReads.getActiveBookings.
  destruct uid as [u|].
  2:{ apply isRider_true in Hr as (? & ? & ? & _). discriminate. }
  rewrite Hr. cbn [negb].
  set (rows := filter _ (filter _ (filter _ (bookings db)))).
  match goal with
  | |- ∃ ps, _ = Ok (_ <$> ?f) => assert (Hrows : rows = f)
  end.
  { subst rows. rewrite !list_filter_filter. apply list_filter_iff.
    intros b. rewrite !elem_of_cons, elem_of_nil. tauto. }
  rewrite <- Hrows. destruct rows as [|b rows]; [by exists []|]. by eexists.
Qed.

(** X5. [getActiveBookings] fails for a caller without a session or
    without a rider profile; otherwise it returns, in the store's order,
    exactly the bookings the caller may see whose rider is the caller and
    whose status is Accepted or OnTheWay. *)
Theorem getActiveBookings_exact
    (sel : Db → option Uuid → Booking → bool) (uid : option Uuid)
    (upd : Profile → Timestamp) (now : Timestamp) (db : Db) :
  match riderReads.getActiveBookings sel uid upd now db with
  | Ok data =>
      (riderService.isRider uid db).1 = true
      ∧ riderReads.ab_booking <$> data
        = filter (fun b => sel db uid b ∧ rider_id b = uid
                           ∧ (status b = accepted ∨ status b = on_the_way))
            (bookings db)
  | Err e =>
      (uid = None ∧ e = NotAuthenticated)
      ∨ (is_Some uid ∧ (riderService.isRider uid db).1 = false
         ∧ e = NotARider)
  end.
Proof.
  destruct ((riderService.isRider uid db).1) eqn:Hr.
  - destruct (getActiveBookings_rows sel uid upd now db Hr) as (ps & ->).
    split; [done|]. by rewrite ab_booking_with_active_user.
  - unfold riderReads.getActiveBookings. destruct uid as [u|]; [|by left].
    rewrite Hr. cbn [negb]. right. by eauto.
Qed.

(** X6. An acceptance moves the booking from the available list to the
    caller's active list: after a successful [acceptBooking], under a
    SELECT policy that shows riders their bookings, the booking is in
    what [getActiveBookings] returns to the caller, Accepted, and in
    nothing [getAvailableBookings] returns to anybody. *)
Theorem accept_moves_to_active
    (sel : Db → option Uuid → Booking → bool) (uid : option Uuid)
    (upd : Profile → Timestamp) (now now' : Timestamp) (db db' : Db)
    (i : Uuid) :
  shows_own sel →
  riderService.acceptBooking sel uid now db i = (db', Ok tt) →
  (∃ data x, riderReads.getActiveBookings sel uid upd now' db' = Ok data
             ∧ x ∈ data ∧ id (riderReads.ab_booking x) = i
             ∧ status (riderReads.ab_booking x) = accepted)
  ∧ (∀ uid2 data2 x,
       riderService.getAvailableBookings sel uid2 db' = Ok data2 →
       x ∈ data2 → id (riderService.booking x) ≠ i).
Proof.
  intros Hsel H.
  apply acceptBooking_Ok_inv in H as (u & rp & -> & Hrp & _ & Ha & _).
  pose proof (accept_booking_Ok _ _ _ _ _ Ha)
    as (_ & (b & Hin & Hid & Hs & Hn) & Hrows & Hprof & _).
  split.
  - assert (Hr : (riderService.isRider (Some u) db').1 = true).
    { apply isRider_true. exists u, rp. by rewrite Hprof. }
    destruct (getActiveBookings_rows sel (Some u) upd now' db' Hr)
      as (ps & Hact).
    assert (Hdata : riderReads.ab_booking
                      <$> (riderReads.with_active_user upd now' ps
                             <$> filter
                                   (fun b => sel db' (Some u) b
                                      ∧ rider_id b = Some u
                                      ∧ (status b = accepted
                                         ∨ status b = on_the_way))
                                   (bookings db'))
                    = filter (fun b => sel db' (Some u) b
                                ∧ rider_id b = Some u
                                ∧ (status b = accepted
                                   ∨ status b = on_the_way))
                        (bookings db'))
      by apply ab_booking_with_active_user.
    apply list_elem_of_lookup in Hin as [k Hk].
    destruct (Forall2_lookup_l _ _ _ _ _ Hrows Hk) as (b' & Hk' & Hb').
    cbn in Hb'.
    assert (Hav : Schema.available_for_acceptance i b = true).
    { unfold Schema.available_for_acceptance, id_is.
      by rewrite !bool_decide_eq_true_2. }
    rewrite Hav in Hb'. destruct Hb' as (Hid' & Hs' & Hr' & _).
    assert (Hb' : b' ∈ filter (fun b => sel db' (Some u) b
                                 ∧ rider_id b = Some u
                                 ∧ (status b = accepted
                                    ∨ status b = on_the_way))
                         (bookings db')).
    { apply list_elem_of_filter. split.
      - split; [apply Is_true_true, Hsel; by right|]. auto.
      - by apply list_elem_of_lookup_2 in Hk'. }
    rewrite <- Hdata in Hb'.
    apply list_elem_of_fmap in Hb' as (x & -> & Hx).
    eexists _, x. split; [exact Hact|]. repeat split; try done. congruence.
  - intros uid2 data2 x Hd Hx Hxi.
    pose proof (getAvailableBookings_Ok_rider _ _ _ _ Hd) as Hr2.
    destruct (getAvailableBookings_rows sel uid2 db' Hr2) as (ps & Heq).
    rewrite Heq in Hd. injection Hd as <-.
    assert (Hb : riderService.booking x
                 ∈ riderService.booking
                     <$> (riderService.with_user ps
                            <$> merge_sort riderService.newer_first
                                  (filter (fun b => status b = pending
                                                    ∧ rider_id b = None)
                                     (filter (fun b => sel db' uid2 b)
                                        (bookings db')))))
      by (by apply list_elem_of_fmap_2).
    rewrite booking_with_user, merge_sort_Permutation in Hb.
    apply list_elem_of_filter in Hb as [Hpend Hb].
    apply list_elem_of_filter in Hb as [_ Hb].
    by apply (accept_booking_closes _ _ _ _ _ Ha (riderService.booking x)).
Qed.

Lemma accept_moves_to_active_witness :
  ∃ data x,
    riderReads.getActiveBookings RlsSelect.view_own (Some "R1")
      (fun _ => 0) 12
      (riderService.acceptBooking RlsSelect.view_own (Some "R1") 11
         (Sample.store [Sample.b_pending]) "b1").1
    = Ok data
    ∧ x ∈ data ∧ id (riderReads.ab_booking x) = "b1"
    ∧ status (riderReads.ab_booking x) = accepted.
Proof.
  refine (proj1 (accept_moves_to_active RlsSelect.view_own (Some "R1")
                   (fun _ => 0) 11 12 (Sample.store [Sample.b_pending]) _
                   "b1" _ _)).
  - intros db u b Hb. unfold RlsSelect.view_own, Rls.uid_is, Rls.uid_is_opt.
    apply orb_true_iff. destruct Hb as [<-|Hb].
    + left. by apply bool_decide_eq_true.
    + right. apply bool_decide_eq_true. rewrite Hb. by split.
  - vm_compute. reflexivity.
Defined.

(** X7. A rider whose profile is marked unavailable is still shown the
    available bookings, and cannot take any: [acceptBooking] answers
    'User is not an available rider' and leaves the store as it is. *)
Theorem unavailable_rider_only_browses
    (sel : Db → option Uuid → Booking → bool) (u : Uuid) (rp : RiderProfile)
    (now : Timestamp) (db : Db) (i : Uuid) :
  filter (fun rp => rp_user_id rp = u) (rider_profiles db) = [rp] →
  rp_is_available rp = false →
  is_ok (riderService.getAvailableBookings sel (Some u) db) = true
  ∧ riderService.acceptBooking sel (Some u) now db i
    = (db, Err (Raised "User is not an available rider")).
Proof.
  intros Hrp Hav. split.
  - assert (Hr : (riderService.isRider (Some u) db).1 = true).
    { apply isRider_true. by exists u, rp. }
    by destruct (getAvailableBookings_rows sel (Some u) db Hr) as (ps & ->).
  - unfold riderService.acceptBooking. by rewrite Hrp, Hav.
Qed.

Lemma unavailable_rider_only_browses_witness :
  is_ok (riderService.getAvailableBookings RlsSelect.view_own_or_pending
           (Some "R3")
           {| bookings := [Sample.b_pending];
              rider_profiles :=
                [ {| rp_user_id := "R3"; rp_is_available := false |} ];
              profiles := []; messages := [] |}) = true
  ∧ riderService.acceptBooking RlsSelect.view_own_or_pending (Some "R3") 11
      {| bookings := [Sample.b_pending];
         rider_profiles :=
           [ {| rp_user_id := "R3"; rp_is_available := false |} ];
         profiles := []; messages := [] |} "b1"
    = ({| bookings := [Sample.b_pending];
          rider_profiles :=
            [ {| rp_user_id := "R3"; rp_is_available := false |} ];
          profiles := []; messages := [] |},
       Err (Raised "User is not an available rider")).
Proof.
  apply (unavailable_rider_only_browses RlsSelect.view_own_or_pending "R3"
           {| rp_user_id := "R3"; rp_is_available := false |}).
  - reflexivity.
  - reflexivity.
Defined.

(** ** The customer's lists *)

Lemma insert_Permutation {A} (before : A → A → bool) (x : A) (l : list A) :
  JsArray.insert before x l ≡ₚ x :: l.
Proof.
  induction l as [|y l IH]; [done|]. cbn.
  destruct (before x y); [done|]. rewrite IH. apply Permutation_swap.
Qed.

Lemma sort_Permutation {A} (before : A → A → bool) (l : list A) :
  JsArray.sort before l ≡ₚ l.
Proof.
  induction l as [|x l IH]; [done|]. cbn.
  fold (JsArray.sort before l). by rewrite insert_Permutation, IH.
Qed.

(** A stable sort leaves a sorted list alone. *)
Lemma sort_sorted {A} (before : A → A → bool) (l : list A) :
  StronglySorted (fun a b => before a b = true) l →
  JsArray.sort before l = l.
Proof.
  induction 1 as [|x l Hs IH Hall]; [done|]. cbn.
  fold (JsArray.sort before l). rewrite IH.
  destruct l as [|y l]; [done|]. cbn.
  apply Forall_cons in Hall as [-> _]. done.
Qed.

Lemma StronglySorted_filter {A} (R : relation A) (P : A → Prop)
    `{!∀ x, Decision (P x)} (l : list A) :
  StronglySorted R l → StronglySorted R (filter P l).
Proof.
  induction 1 as [|x l Hs IH Hall]; [constructor|].
  rewrite filter_cons. destruct (decide (P x)); [|exact IH].
  constructor; [exact IH|].
  apply list.Forall_forall. intros y Hy.
  apply list_elem_of_filter in Hy as [_ Hy].
  rewrite list.Forall_forall in Hall. by apply Hall.
Qed.

Lemma StronglySorted_weaken {A} (R1 R2 : relation A) (l : list A) :
  (∀ a b, R1 a b → R2 a b) → StronglySorted R1 l → StronglySorted R2 l.
Proof.
  intros HR. induction 1 as [|x l Hs IH Hall]; constructor; [done|].
  eapply Forall_impl; [exact Hall|]. auto.
Qed.

Lemma getUserBookings_sorted (sel : Db → option Uuid → Booking → bool)
    (uid : option Uuid) (db : Db) (st : option BookingStatus) :
  StronglySorted riderService.newer_first
    (bookingReads.getUserBookings sel uid db st).
Proof. apply StronglySorted_merge_sort; apply _. Qed.

(** The screens' second sort changes nothing: the service's list is
    already newest first. *)
Lemma fetchBookings_filter (sel : Db → option Uuid → Booking → bool)
    (u : Uuid) (kept : list BookingStatus) (db : Db) (shown : list Booking) :
  BookingLists.fetchBookings sel (Some u) kept db shown
  = filter (fun b => status b ∈ kept)
      (bookingReads.getUserBookings sel (Some u) db None).
Proof.
  unfold BookingLists.fetchBookings. apply sort_sorted.
  apply StronglySorted_filter.
  eapply StronglySorted_weaken; [|apply getUserBookings_sorted].
  intros a b Hab. unfold BookingLists.newest_first.
  by apply bool_decide_eq_true.
Qed.

Lemma count_cons (tab : BookingStatus) (b : Booking) (l : list Booking) :
  BookingLists.count tab (b :: l)
  = ((if decide (status b = tab) then 1 else 0) + BookingLists.count tab l)%nat.
Proof.
  unfold BookingLists.count, BookingLists.filteredBookings.
  rewrite filter_cons. by destruct (decide (status b = tab)).
Qed.

Lemma sum_list_add {A} (f g : A → nat) (l : list A) :
  sum_list ((fun x => f x + g x)%nat <$> l)
  = (sum_list (f <$> l) + sum_list (g <$> l))%nat.
Proof. induction l as [|x l IH]; cbn; [done|]. rewrite IH. lia. Qed.

Lemma sum_list_indicator (s : BookingStatus) (tabs : list BookingStatus) :
  NoDup tabs →
  sum_list ((fun tab => if decide (s = tab) then 1 else 0)%nat <$> tabs)
  = if decide (s ∈ tabs) then 1%nat else 0%nat.
Proof.
  induction 1 as [|t tabs Ht Hnd IH]; cbn; [done|]. rewrite IH.
  destruct (decide (s = t)) as [->|Hne].
  - rewrite (decide_False (P := t ∈ tabs)) by done.
    rewrite decide_True by left. done.
  - destruct (decide (s ∈ tabs)) as [Hin|Hnin].
    + rewrite decide_True by (by right). done.
    + rewrite decide_False; [done|]. by apply not_elem_of_cons.
Qed.

(** The badges of the tabs add up to the rows of the list. *)
Lemma tab_counts (tabs : list BookingStatus) (l : list Booking) :
  NoDup tabs → Forall (fun b => status b ∈ tabs) l →
  sum_list ((fun tab => BookingLists.count tab l) <$> tabs) = length l.
Proof.
  intros Hnd. induction 1 as [|b l Hb Hl IH]; cbn.
  - clear Hnd. induction tabs; cbn; auto.
  - rewrite <- IH.
    rewrite (list_fmap_ext _ (fun tab =>
               (if decide (status b = tab) then 1 else 0)
               + BookingLists.count tab l)%nat tabs)
      by (intros; apply count_cons).
    rewrite sum_list_add, sum_list_indicator by done.
    by rewrite decide_True.
Qed.

(** X8. For a signed-in customer the list of the status screen
    (Pending, Accepted, OnTheWay) and the list of the history screen
    (Completed, Cancelled) together hold every booking the customer may
    see, each once and on one screen only; both lists are newest first;
    and on each screen the numbers in the tabs' badges add up to the
    length of the list. *)
Theorem booking_lists_partition
    (sel : Db → option Uuid → Booking → bool) (u : Uuid) (db : Db)
    (shown : list Booking) :
  let active :=
    BookingLists.fetchBookings sel (Some u) BookingLists.active_statuses db
      shown in
  let history :=
    BookingLists.fetchBookings sel (Some u) BookingLists.history_statuses db
      shown in
  active ++ history ≡ₚ filter (fun b => sel db (Some u) b) (bookings db)
  ∧ StronglySorted riderService.newer_first active
  ∧ StronglySorted riderService.newer_first history
  ∧ Forall (fun b => status b ∈ BookingLists.active_statuses) active
  ∧ Forall (fun b => status b ∈ BookingLists.history_statuses) history
  ∧ (BookingLists.count pending active + BookingLists.count accepted active
     + BookingLists.count on_the_way active = length active)%nat
  ∧ (BookingLists.count completed history
     + BookingLists.count cancelled history = length history)%nat.
Proof.
  cbv zeta. rewrite !fetchBookings_filter.
  set (all := bookingReads.getUserBookings sel (Some u) db None).
  assert (Hact : Forall (fun b => status b ∈ BookingLists.active_statuses)
                   (filter (fun b => status b ∈ BookingLists.active_statuses)
                      all)).
  { apply list.Forall_forall. intros b Hb.
    by apply list_elem_of_filter in Hb as [? _]. }
  assert (Hhis : Forall (fun b => status b ∈ BookingLists.history_statuses)
                   (filter (fun b => status b ∈ BookingLists.history_statuses)
                      all)).
  { apply list.Forall_forall. intros b Hb.
    by apply list_elem_of_filter in Hb as [? _]. }
  split; [|split; [|split; [|split; [|split; [|split]]]]]; try done.
  - rewrite (list_filter_iff
               (fun b => status b ∈ BookingLists.history_statuses)
               (fun b => ¬ status b ∈ BookingLists.active_statuses)).
    + rewrite filter_app_complement. subst all.
      unfold bookingReads.getUserBookings. apply merge_sort_Permutation.
    + intros b. unfold BookingLists.history_statuses,
        BookingLists.active_statuses.
      rewrite !elem_of_cons, !elem_of_nil.
      destruct (status b); intuition discriminate.
  - apply StronglySorted_filter, getUserBookings_sorted.
  - apply StronglySorted_filter, getUserBookings_sorted.
  - assert (Hnd : NoDup BookingLists.active_statuses)
      by (apply (bool_decide_unpack _); by vm_compute).
    pose proof (tab_counts _ _ Hnd Hact) as H.
    set (l := filter (fun b => status b ∈ BookingLists.active_statuses)
                all) in *.
    change BookingLists.active_statuses with [pending; accepted; on_the_way]
      in H.
    cbn [fmap list_fmap] in H. unfold sum_list in H.
    cbn [sum_list_with] in H. unfold Datatypes.id in H. lia.
  - assert (Hnd : NoDup BookingLists.history_statuses)
      by (apply (bool_decide_unpack _); by vm_compute).
    pose proof (tab_counts _ _ Hnd Hhis) as H.
    set (l := filter (fun b => status b ∈ BookingLists.history_statuses)
                all) in *.
    change BookingLists.history_statuses with [completed; cancelled] in H.
    cbn [fmap list_fmap] in H. unfold sum_list in H.
    cbn [sum_list_with] in H. unfold Datatypes.id in H. lia.
Qed.

(** ** Create, then read *)

Lemma createBooking_Ok_inv (uid : option Uuid) (now : Timestamp)
    (new_id : Uuid) (db db' : Db) (data : CreateBookingData) (b : Booking) :
  bookingService.createBooking uid now new_id db data = (db', Ok b) →
  ∃ u, uid = Some u ∧ b = bookingService.new_booking now new_id u data
       ∧ db' = with_bookings db (bookings db ++ [b])
       ∧ new_id ∉ id <$> bookings db.
Proof.
  unfold bookingService.createBooking. destruct uid as [u|]; [|discriminate].
  destruct (existsb _ _) eqn:Hex; [discriminate|]. intros [= <- <-].
  exists u. repeat split; try done.
  intros Hin. apply list_elem_of_fmap in Hin as (x & Hx & Hin).
  assert (existsb (id_is new_id) (bookings db) = true); [|congruence].
  apply existsb_exists. exists x. split; [by apply list_elem_of_In|].
  by apply id_is_true.
Qed.

(** X9. A booking [createBooking] has stored can be read back: with
    unique identifiers and a SELECT policy that shows customers their
    bookings, [getBooking] returns the creator exactly the row created,
    the status screen lists it under its Pending tab, and under the
    migration's policy [getAvailableBookings] offers it to every caller
    with a rider profile. *)
Theorem created_booking_is_listed
    (sel : Db → option Uuid → Booking → bool) (uid : option Uuid)
    (now : Timestamp) (new_id : Uuid) (db db' : Db)
    (data : CreateBookingData) (b : Booking) (shown : list Booking) :
  shows_own sel → NoDup (id <$> bookings db) →
  bookingService.createBooking uid now new_id db data = (db', Ok b) →
  bookingReads.getBooking sel uid db' (id b) = Ok b
  ∧ b ∈ BookingLists.filteredBookings pending
          (BookingLists.fetchBookings sel uid BookingLists.active_statuses
             db' shown)
  ∧ (∀ uid2, (riderService.isRider uid2 db').1 = true →
       ∃ offered x,
         riderService.getAvailableBookings RlsSelect.view_own_or_pending
           uid2 db' = Ok offered
         ∧ x ∈ offered ∧ riderService.booking x = b).
Proof.
  intros Hsel Hnd H.
  apply createBooking_Ok_inv in H as (u & -> & Hb & -> & Hfresh).
  assert (Hin : b ∈ bookings db ++ [b]) by (apply elem_of_app; right; left).
  assert (Hvis : sel (with_bookings db (bookings db ++ [b])) (Some u) b
                 = true) by (apply Hsel; left; by subst b).
  assert (Hst : status b = pending ∧ rider_id b = None) by (by subst b).
  assert (Hid : id b = new_id) by (by subst b).
  split; [|split].
  - unfold bookingReads.getBooking. cbn [bookings with_bookings].
    rewrite list_filter_filter.
    rewrite (filter_unique_by_id _ (bookings db ++ [b]) b); try done.
    + rewrite fmap_app. cbn. apply NoDup_app. split; [done|]. split.
      * intros x Hx Hx'. apply list_elem_of_singleton in Hx'. congruence.
      * apply NoDup_singleton.
    + split; [done|]. by apply Is_true_true.
    + by intros x _ [-> _].
  - rewrite fetchBookings_filter. unfold BookingLists.filteredBookings.
    apply list_elem_of_filter. split; [tauto|].
    apply list_elem_of_filter. split.
    + destruct Hst as [-> _]. left.
    + unfold bookingReads.getUserBookings. rewrite merge_sort_Permutation.
      apply list_elem_of_filter. split; [by apply Is_true_true|done].
  - intros uid2 Hr.
    destruct (getAvailableBookings_rows RlsSelect.view_own_or_pending uid2 _
                Hr) as (ps & Hoff).
    cbn [bookings with_bookings] in Hoff.
    eexists _, (riderService.with_user ps b). split; [exact Hoff|].
    split; [|done]. apply list_elem_of_fmap_2.
    rewrite merge_sort_Permutation. apply list_elem_of_filter. split; [done|].
    apply list_elem_of_filter. split; [|done].
    apply isRider_true in Hr as (u2 & rp & -> & Hrp).
    apply Is_true_true. unfold RlsSelect.view_own_or_pending.
    apply orb_true_iff. right. destruct Hst as [Hs Hn].
    rewrite !bool_decide_eq_true_2 by done. cbn.
    apply existsb_exists. exists rp.
    assert (Hin' : rp ∈ filter (fun rp => rp_user_id rp = u2)
                          (rider_profiles db))
      by (unfold with_bookings in Hrp; cbn [rider_profiles] in Hrp;
          rewrite Hrp; left).
    apply list_elem_of_filter in Hin' as [-> Hin']. split.
    + by apply list_elem_of_In.
    + by apply bool_decide_eq_true.
Qed.

Lemma created_booking_is_listed_witness :
  ∃ b, bookingReads.getBooking RlsSelect.view_own (Some "U2")
         (bookingService.createBooking (Some "U2") 10 "b2"
            (Sample.store [Sample.b_accepted])
            (TripScreen.booking_data
               {| TripScreen.fd_name := Js.lit "Station";
                  TripScreen.pickupLocation := Js.lit "C";
                  TripScreen.dropoffLocation := Js.lit "D";
                  TripScreen.isASAP := true;
                  TripScreen.scheduledTime := Some 20;
                  TripScreen.specialNotes := [] |})).1
         "b2"
       = Ok b ∧ status b = pending ∧ user_id b = "U2".
Proof.
  exists (bookingService.new_booking 10 "b2" "U2"
            (TripScreen.booking_data
               {| TripScreen.fd_name := Js.lit "Station";
                  TripScreen.pickupLocation := Js.lit "C";
                  TripScreen.dropoffLocation := Js.lit "D";
                  TripScreen.isASAP := true;
                  TripScreen.scheduledTime := Some 20;
                  TripScreen.specialNotes := [] |})).
  split; [|split; reflexivity].
  refine (proj1 (created_booking_is_listed RlsSelect.view_own (Some "U2") 10
                   "b2" (Sample.store [Sample.b_accepted]) _ _
                   (bookingService.new_booking 10 "b2" "U2" _) [] _ _ _)).
  - intros db u b Hb. unfold RlsSelect.view_own, Rls.uid_is, Rls.uid_is_opt.
    apply orb_true_iff. destruct Hb as [<-|Hb].
    + left. by apply bool_decide_eq_true.
    + right. apply bool_decide_eq_true. rewrite Hb. by split.
  - vm_compute. repeat constructor. by apply not_elem_of_nil.
  - reflexivity.
Defined.

(** ** [startTrip] and [completeBooking] *)

(** An UPDATE by identifier that leaves [rider_id] alone, under
    lib/bookings_policies.sql: a party of the booking writes the one
    row, anybody else writes nothing and gets the error of
    [.single()]. *)
Lemma update_by_id_party (uid : option Uuid) (now : Timestamp) (db : Db)
    (p : Patch) (b : Booking) :
  set_rider_id p = None →
  NoDup (id <$> bookings db) → b ∈ bookings db →
  (is_party uid b →
   bookingService.update_by_id Rls.bookings_policies uid now db (id b) p
   = (with_bookings db
        ((fun x => if id_is (id b) x then touch now p x else x)
           <$> bookings db),
      Ok (touch now p b)))
  ∧ (¬ is_party uid b →
     bookingService.update_by_id Rls.bookings_policies uid now db (id b) p
     = (db, Err NoSingleRow)).
Proof.
  intros Hp Hnd Hin. split.
  - intros Hparty.
    assert (Hf : filter (fun x => admitted Rls.bookings_policies uid db
                                    (id b) x) (bookings db) = [b]).
    { apply filter_by_id_unique; try done.
      - unfold admitted. rewrite (proj2 (id_is_true (id b) b) eq_refl).
        cbn [andb]. by apply may_update_bookings_policies.
      - intros x Hx. unfold admitted in Hx.
        apply andb_true_iff in Hx as [Hx _]. by apply id_is_true in Hx. }
    assert (Hchk : Rls.may_become Rls.bookings_policies db uid
                     (touch now p b) = true).
    { apply may_become_bookings_policies.
      destruct Hparty as (u & -> & Hu). exists u. split; [done|].
      unfold touch. cbn. rewrite Hp. exact Hu. }
    pose proof (update_by_id_succeeds Rls.bookings_policies uid now db
                  (id b) p b Hf Hchk) as Hok.
    destruct (bookingService.update_by_id _ _ _ _ _ _) as [db' r] eqn:Hu.
    cbn in Hok. subst r.
    apply update_by_id_Ok in Hu as (b0 & _ & _ & _ & ->).
    f_equal. f_equal. apply list_fmap_ext. intros k x Hk.
    apply list_elem_of_lookup_2 in Hk. unfold admitted.
    destruct (id_is (id b) x) eqn:Hx; [|done]. cbn [andb].
    apply id_is_true in Hx.
    rewrite (NoDup_id_inj (bookings db) x b Hnd Hk Hin Hx).
    by rewrite (proj2 (may_update_bookings_policies db uid b) Hparty).
  - intros Hno. unfold bookingService.update_by_id, Sql.update_rls.
    assert (Hf : filter (fun x => id_is (id b) x
                           && Rls.may_update Rls.bookings_policies db uid x)
                   (bookings db) = []).
    { destruct (filter _ (bookings db)) as [|x rest] eqn:Hf; [done|]. exfalso.
      assert (Hx : x ∈ filter (fun x => id_is (id b) x
                       && Rls.may_update Rls.bookings_policies db uid x)
                     (bookings db)) by (rewrite Hf; left).
      apply list_elem_of_filter in Hx as [Hx Hxin]. apply Is_true_true in Hx.
      apply andb_true_iff in Hx as [H1 H2]. apply id_is_true in H1.
      apply may_update_bookings_policies in H2.
      by rewrite (NoDup_id_inj (bookings db) x b Hnd Hxin Hin H1) in H2. }
    unfold Sql.update. cbv zeta. cbn [fst snd]. rewrite Hf. done.
Qed.

(** X10. [startTrip] and [completeBooking] look at no status. Under
    lib/bookings_policies.sql, for a booking of a store with unique
    identifiers, either call by the owner or the assigned rider
    succeeds whatever the booking's status: it writes the status
    (OnTheWay, or Completed with [completed_at]) and the trigger's
    [updated_at] in that one row, which keeps its other columns, and
    leaves every other row as it is; for anybody else both calls write
    nothing and return the error of [.single()]. *)
Theorem startTrip_completeBooking_by_party (uid : option Uuid)
    (now : Timestamp) (db : Db) (b : Booking) :
  NoDup (id <$> bookings db) → b ∈ bookings db →
  let written p :=
    (with_bookings db
       ((fun x => if id_is (id b) x then touch now p x else x)
          <$> bookings db),
     Ok (touch now p b)) in
  (is_party uid b →
   bookingService.startTrip Rls.bookings_policies uid now db (id b)
   = written start_patch
   ∧ bookingService.completeBooking Rls.bookings_policies uid now db (id b)
     = written (complete_patch now))
  ∧ (¬ is_party uid b →
     bookingService.startTrip Rls.bookings_policies uid now db (id b)
     = (db, Err NoSingleRow)
     ∧ bookingService.completeBooking Rls.bookings_policies uid now db
         (id b)
       = (db, Err NoSingleRow))
  ∧ kept b (touch now start_patch b)
  ∧ kept b (touch now (complete_patch now) b)
  ∧ status (touch now start_patch b) = on_the_way
  ∧ completed_at (touch now start_patch b) = completed_at b
  ∧ status (touch now (complete_patch now) b) = completed
  ∧ completed_at (touch now (complete_patch now) b) = Some now
  ∧ rider_id (touch now (complete_patch now) b) = rider_id b.
Proof.
  intros Hnd Hin written. subst written. cbv beta.
  unfold bookingService.startTrip, bookingService.completeBooking.
  fold start_patch. fold (complete_patch now).
  destruct (update_by_id_party uid now db start_patch b eq_refl Hnd Hin)
    as [Hs1 Hs2].
  destruct (update_by_id_party uid now db (complete_patch now) b eq_refl
              Hnd Hin) as [Hc1 Hc2].
  split; [by auto|]. split; [by auto|].
  repeat split; done.
Qed.

Lemma startTrip_completeBooking_by_party_witness :
  bookingService.startTrip Rls.bookings_policies (Some "R1") 10
    (Sample.store [Sample.b_completed]) "b1"
  = (Sample.store [touch 10 start_patch Sample.b_completed],
     Ok (touch 10 start_patch Sample.b_completed)).
Proof.
  refine (proj1 (proj1 (startTrip_completeBooking_by_party (Some "R1") 10
                          (Sample.store [Sample.b_completed])
                          Sample.b_completed _ _) _)).
  - vm_compute. repeat constructor. by apply not_elem_of_nil.
  - left.
  - exists "R1". split; [reflexivity|by right].
Defined.

(** ** The booking-details screen *)

Lemma getBooking_Ok (sel : Db → option Uuid → Booking → bool)
    (uid : option Uuid) (db : Db) (i : Uuid) (b : Booking) :
  bookingReads.getBooking sel uid db i = Ok b →
  b ∈ bookings db ∧ id b = i ∧ sel db uid b = true.
Proof.
  unfold bookingReads.getBooking. intros H. apply single_Ok in H.
  assert (Hb : b ∈ filter (fun b => id b = i)
                     (filter (fun b => sel db uid b) (bookings db)))
    by (rewrite H; left).
  apply list_elem_of_filter in Hb as [Hid Hb].
  apply list_elem_of_filter in Hb as [Hs Hb]. by apply Is_true_true in Hs.
Qed.

(** X11. The details screen, loaded on a store with unique identifiers
    and pressed on that store, under lib/bookings_policies.sql. A
    cancellation that reports success cancelled a booking that was
    Pending, as a party of it: that one row now is Cancelled, by the
    caller, with the reason 'Cancelled by user', and no other row
    changed. Without the button, and on an error, the store is as it
    was. When the screen's SELECT policy is "own bookings", a press on
    the button always succeeds. An error left by an earlier load is
    never cleared: after it no load brings the button back. *)
Theorem details_screen_cancels_pending
    (sel : Db → option Uuid → Booking → bool) (uid : option Uuid)
    (now : Timestamp) (db : Db) (st : BookingDetailsScreen.State) :
  NoDup (id <$> bookings db) →
  let st1 := BookingDetailsScreen.loadBooking sel uid db st in
  let r := BookingDetailsScreen.handleCancelBooking Rls.bookings_policies
             uid now db st1 in
  (BookingDetailsScreen.error st = None →
   match r.2 with
   | BookingDetailsScreen.AlertSuccess =>
       ∃ u b, uid = Some u ∧ b ∈ bookings db
              ∧ id b = BookingDetailsScreen.bookingId st
              ∧ status b = pending
              ∧ (user_id b = u ∨ rider_id b = Some u)
              ∧ bookings r.1
                = (fun x => if id_is (id b) x
                            then touch now
                                   (cancel_patch uid now
                                      (Js.lit "Cancelled by user")) x
                            else x) <$> bookings db
   | _ => r.1 = db
   end)
  ∧ (BookingDetailsScreen.error st = None → sel = RlsSelect.view_own →
     BookingDetailsScreen.cancelButton st1 = true →
     r.2 = BookingDetailsScreen.AlertSuccess)
  ∧ (is_Some (BookingDetailsScreen.error st) →
     BookingDetailsScreen.cancelButton st1 = false
     ∧ r = (db, BookingDetailsScreen.NoButton)).
Proof.
  intros Hnd st1 r. subst st1 r.
  unfold BookingDetailsScreen.handleCancelBooking,
    BookingDetailsScreen.loadBooking.
  destruct (bookingReads.getBooking sel uid db _) as [b|e] eqn:Hget.
  2:{ unfold BookingDetailsScreen.cancelButton. cbn.
      split; [|split]; [done|done|]. intros _.
      by destruct (BookingDetailsScreen.error st). }
  apply getBooking_Ok in Hget as (Hin & Hid & Hsel).
  unfold BookingDetailsScreen.cancelButton.
  cbn [BookingDetailsScreen.error BookingDetailsScreen.booking
       BookingDetailsScreen.bookingId].
  unfold bookingService.cancelBooking.
  fold (cancel_patch uid now (Js.lit "Cancelled by user")).
  rewrite <- Hid.
  destruct (update_by_id_party uid now db
              (cancel_patch uid now (Js.lit "Cancelled by user")) b eq_refl
              Hnd Hin) as [Hyes Hno].
  assert (Hcases : is_party uid b ∨ ¬ is_party uid b).
  { destruct (Rls.may_update Rls.bookings_policies db uid b) eqn:E.
    - left. by apply (may_update_bookings_policies db).
    - right. intros H. apply (may_update_bookings_policies db) in H.
      congruence. }
  split; [|split].
  - intros ->. destruct (bool_decide (status b = pending)) eqn:Hst; [|done].
    apply bool_decide_eq_true in Hst.
    destruct Hcases as [Hp|Hp].
    + rewrite (Hyes Hp). cbn [fst snd bookings with_bookings].
      destruct Hp as (u & -> & Hu). by exists u, b.
    + by rewrite (Hno Hp).
  - intros -> -> Hbtn.
    destruct (bool_decide (status b = pending)); [|done].
    assert (Hp : is_party uid b).
    { apply is_party_iff. unfold RlsSelect.view_own in Hsel.
      apply orb_true_iff in Hsel as [H|H]; apply bool_decide_eq_true in H;
        [by left|by right]. }
    by rewrite (Hyes Hp).
  - intros [e He]. rewrite He. done.
Qed.

Lemma details_screen_cancels_pending_witness :
  (BookingDetailsScreen.handleCancelBooking Rls.bookings_policies
     (Some "U1") 10 (Sample.store [Sample.b_pending])
     (BookingDetailsScreen.loadBooking RlsSelect.view_own (Some "U1")
        (Sample.store [Sample.b_pending])
        {| BookingDetailsScreen.bookingId := "b1";
           BookingDetailsScreen.booking := None;
           BookingDetailsScreen.error := None;
           BookingDetailsScreen.isUserBooking := false |})).2
  = BookingDetailsScreen.AlertSuccess.
Proof.
  refine (proj1 (proj2 (details_screen_cancels_pending RlsSelect.view_own
                          (Some "U1") 10 (Sample.store [Sample.b_pending])
                          {| BookingDetailsScreen.bookingId := "b1";
                             BookingDetailsScreen.booking := None;
                             BookingDetailsScreen.error := None;
                             BookingDetailsScreen.isUserBooking := false |}
                          _)) _ _ _).
  - vm_compute. repeat constructor. by apply not_elem_of_nil.
  - reflexivity.
  - reflexivity.
  - reflexivity.
Defined.

(** ** Messages: who reads and who writes *)

Lemma party_of_iff (db : Db) (uid : option Uuid) (i : Uuid) :
  Rls.party_of db uid i = true
  ↔ ∃ b, b ∈ bookings db ∧ id b = i ∧ is_party uid b.
Proof.
  unfold Rls.party_of. rewrite existsb_exists. split.
  - intros (b & Hin & Hb). apply list_elem_of_In in Hin.
    apply andb_true_iff in Hb as [H1 H2]. apply bool_decide_eq_true in H1.
    exists b. split; [done|]. split; [done|]. apply is_party_iff.
    apply orb_true_iff in H2 as [H|H]; apply bool_decide_eq_true in H;
      [by left|by right].
  - intros (b & Hin & Hid & Hp). exists b. split; [by apply list_elem_of_In|].
    apply andb_true_iff. split; [by apply bool_decide_eq_true|].
    apply is_party_iff in Hp as [H|H]; apply orb_true_iff;
      [left|right]; by apply bool_decide_eq_true.
Qed.

Lemma party_of_with_messages (db : Db) (t : list MessageRow)
    (uid : option Uuid) (i : Uuid) :
  Rls.party_of (with_messages db t) uid i = Rls.party_of db uid i.
Proof. reflexivity. Qed.

(** The SELECT on [messages] shows a party of the booking all its
    messages and anybody else none. *)
Lemma select_by_booking_Permutation (db : Db) (uid : option Uuid)
    (i : Uuid) :
  Messages.select_by_booking db uid i
  ≡ₚ if Rls.party_of db uid i
     then filter (fun m => m_booking_id m = i) (messages db) else [].
Proof.
  unfold Messages.select_by_booking.
  rewrite merge_sort_Permutation, list_filter_filter.
  destruct (Rls.party_of db uid i) eqn:Hp.
  - erewrite list_filter_iff; [done|]. intros m. split; [tauto|].
    intros Hm. split; [done|]. by rewrite Hm, Hp.
  - destruct (filter _ (messages db)) as [|m l] eqn:Hf; [done|]. exfalso.
    assert (Hm : m ∈ filter (fun m => m_booking_id m = i
                               ∧ Rls.party_of db uid (m_booking_id m))
                       (messages db)) by (rewrite Hf; left).
    apply list_elem_of_filter in Hm as [[Hi Hm] _].
    rewrite Hi, Hp in Hm. done.
Qed.

Lemma select_by_booking_insert (db : Db) (m : MessageRow)
    (reader : option Uuid) (j : Uuid) :
  Messages.select_by_booking (with_messages db (messages db ++ [m])) reader j
  ≡ₚ Messages.select_by_booking db reader j
     ++ (if decide (m_booking_id m = j)
         then if Rls.party_of db reader j then [m] else []
         else []).
Proof.
  rewrite !select_by_booking_Permutation, party_of_with_messages.
  cbn [messages with_messages].
  destruct (Rls.party_of db reader j).
  - rewrite filter_app. f_equiv. rewrite filter_cons, filter_nil.
    by destruct (decide (m_booking_id m = j)).
  - by destruct (decide (m_booking_id m = j)).
Qed.

Lemma insert_Ok (db db' : Db) (uid : option Uuid) (now : Timestamp)
    (new_id i sender : Uuid) (content : Js.str) (m : MessageRow) :
  Messages.insert db uid now new_id i sender content = (db', Ok m) →
  Rls.party_of db uid i = true
  ∧ db' = with_messages db (messages db ++ [m])
  ∧ m = {| m_id := new_id; m_booking_id := i; m_sender_id := sender;
           m_content := content; m_created_at := now; m_image_url := None;
           m_file_url := None; m_file_name := None |}.
Proof.
  unfold Messages.insert.
  destruct (Rls.party_of db uid i); cbn [negb]; [|congruence].
  destruct (existsb _ _); [congruence|]. by intros [= <- <-].
Qed.

Lemma insert_not_party (db : Db) (uid : option Uuid) (now : Timestamp)
    (new_id i sender : Uuid) (content : Js.str) :
  Rls.party_of db uid i = false →
  Messages.insert db uid now new_id i sender content = (db, Err RlsViolation).
Proof. unfold Messages.insert. by intros ->. Qed.

(** What a poll shows, in terms of the store: each fetched message with
    the first stored profile of its sender, if there is one. *)
Lemma poll_view_omap (db : Db) (i : Uuid) (st : ChatScreen.State) :
  ChatScreen.view (ChatScreen.poll db i st)
  = omap (fun m => ChatScreen.with_sender m
                     <$> head (filter (fun p => p_id p = m_sender_id m)
                                 (profiles db)))
      (Messages.select_by_booking db (ChatScreen.user st) i).
Proof.
  rewrite poll_view. unfold ChatScreen.messagesWithSenders.
  apply list_omap_ext, Forall_Forall2_diag, list.Forall_forall.
  intros m Hm. by rewrite find_sender_select_profiles.
Qed.

(** The identifiers a poll shows: those of the fetched messages whose
    sender has a profile in the store. *)
Lemma poll_view_ids (db : Db) (i : Uuid) (st : ChatScreen.State) :
  ChatScreen.msg_id <$> ChatScreen.view (ChatScreen.poll db i st)
  = m_id <$> filter (fun m => m_sender_id m ∈ p_id <$> profiles db)
               (Messages.select_by_booking db (ChatScreen.user st) i).
Proof.
  rewrite poll_view_omap.
  induction (Messages.select_by_booking db (ChatScreen.user st) i)
    as [|m l IH]; [done|].
  rewrite filter_cons. cbn [omap list_omap].
  destruct (head (filter (fun p => p_id p = m_sender_id m) (profiles db)))
    as [p|] eqn:Hp.
  - rewrite decide_True.
    + cbn. by rewrite <- IH.
    + apply head_Some_elem_of, list_elem_of_filter in Hp as [Hpid Hin].
      apply list_elem_of_fmap. by exists p.
  - rewrite decide_False; [exact IH|]. intros Hin.
    apply list_elem_of_fmap in Hin as (p & Hq & Hin).
    assert (Hs : is_Some (head (filter (fun p => p_id p = m_sender_id m)
                                  (profiles db))))
      by (apply head_filter_is_Some; by exists p).
    rewrite Hp in Hs. by destruct Hs.
Qed.

(** X12. Messages are for the parties of a booking. To the owner and
    to the assigned rider of booking [i] the panel's fetch shows every
    stored message of it, and the chat screen's poll shows every one
    whose sender has a profile, and no other; for any other session the
    panel's fetch and the chat screen's poll show nothing, and neither
    send handler stores anything: the chat screen reports a failure
    unless the text is blank or nobody is signed in, the panel keeps
    the text in its input box. *)
Theorem messages_are_for_parties (db : Db) (uid : option Uuid) (i : Uuid)
    (st : ChatScreen.State) (now : Timestamp) (new_id : Uuid)
    (text : Js.str) :
  ChatScreen.user st = uid → ChatScreen.bookingId st = Some i →
  ((∃ b, b ∈ bookings db ∧ id b = i ∧ is_party uid b) →
   ChatPanelView.fetchMessages db uid i
   ≡ₚ filter (fun m => m_booking_id m = i) (messages db)
   ∧ ChatScreen.msg_id <$> ChatScreen.view (ChatScreen.poll db i st)
     ≡ₚ m_id <$> filter (fun m => m_booking_id m = i
                                  ∧ m_sender_id m ∈ p_id <$> profiles db)
                   (messages db))
  ∧ ((∀ b, b ∈ bookings db → id b = i → ¬ is_party uid b) →
     ChatPanelView.fetchMessages db uid i = []
     ∧ ChatScreen.view (ChatScreen.poll db i st) = []
     ∧ ChatScreen.sendMessage now new_id db st
       = (db, st,
          if decide (Js.trim (ChatScreen.newMessage st) = [] ∨ uid = None)
          then ChatScreen.Returned else ChatScreen.Alerted)
     ∧ (ChatPanel.handleSendMessage uid now new_id db i text).1
       = (db, text)).
Proof.
  intros Hu Hi. unfold ChatPanelView.fetchMessages. split.
  - intros Hp. apply party_of_iff in Hp. split.
    + by rewrite select_by_booking_Permutation, Hp.
    + rewrite poll_view_ids, Hu, select_by_booking_Permutation, Hp.
      rewrite list_filter_filter.
      erewrite list_filter_iff; [done|]. intros m. cbn. tauto.
  - intros Hno.
    assert (Hp : Rls.party_of db uid i = false).
    { destruct (Rls.party_of db uid i) eqn:Hp; [|done]. exfalso.
      apply party_of_iff in Hp as (b & Hin & Hid & Hb).
      by apply (Hno b). }
    assert (Hnone : Messages.select_by_booking db uid i = []).
    { apply Permutation_nil_r.
      by rewrite select_by_booking_Permutation, Hp. }
    split; [done|]. split; [by rewrite poll_view_omap, Hu, Hnone|]. split.
    + unfold ChatScreen.sendMessage. rewrite Hi, Hu.
      destruct (Js.trim (ChatScreen.newMessage st)) as [|c s].
      { rewrite decide_True by (by left). by destruct uid. }
      destruct uid as [u|].
      * rewrite insert_not_party by done.
        rewrite decide_False by (by intros [?|?]). done.
      * rewrite decide_True by (by right). done.
    + unfold ChatPanel.handleSendMessage.
      destruct (Js.trim text) as [|c s]; [done|].
      destruct uid as [u|]; [|done].
      by rewrite insert_not_party.
Qed.

Lemma messages_are_for_parties_witness :
  let db := Sample.chat_store [Sample.a_message "m1" "U1" 3 "hello";
                               Sample.a_message "m2" "R9" 5 "hi";
                               Sample.a_message "m3" "U1" 9 "thanks"] in
  (ChatPanelView.fetchMessages db (Some "R2") "b1" = []
   ∧ (ChatPanel.handleSendMessage (Some "R2") 10 "m4" db "b1"
        (Js.lit "hi")).1 = (db, Js.lit "hi"))
  ∧ ChatScreen.msg_id
      <$> ChatScreen.view
            (ChatScreen.poll db "b1" (Sample.chat accepted "U1" false))
    ≡ₚ ["m1"; "m3"].
Proof.
  intros db. split.
  - destruct (proj2 (messages_are_for_parties db (Some "R2") "b1"
                       (Sample.chat accepted "R2" true) 10 "m4" (Js.lit "hi")
                       eq_refl eq_refl))
      as (H1 & _ & _ & H4).
    + intros b Hb Hid (u & [= <-] & Hu).
      apply list_elem_of_singleton in Hb. subst b.
      destruct Hu as [Hu|Hu]; discriminate Hu.
    + exact (conj H1 H4).
  - refine (proj2 (proj1 (messages_are_for_parties db (Some "U1") "b1"
                            (Sample.chat accepted "U1" false) 10 "m4"
                            (Js.lit "hi") eq_refl eq_refl) _)).
    exists Sample.b_accepted. split; [left|]. split; [reflexivity|].
    exists "U1". split; [reflexivity|by left].
Defined.

(** ** A sent message and the lists that show it *)

(** X13. A send from the chat panel that goes through empties the input
    box and adds one row to [messages], touching no other table; from
    then on the panel's fetch shows every party of the booking what it
    showed before and this row, and shows everybody what it showed
    before for any other booking. What the panel's subscription
    appends on the row's INSERT event is, up to order, what a new fetch
    returns. *)
Theorem panel_send_reaches_parties (uid : option Uuid) (now : Timestamp)
    (new_id : Uuid) (db db' : Db) (i : Uuid) (text text' : Js.str) :
  ChatPanel.handleSendMessage uid now new_id db i text
  = (db', text', ChatPanel.Sent) →
  ∃ u m,
    uid = Some u ∧ text' = [] ∧ m_sender_id m = u ∧ m_booking_id m = i
    ∧ m_content m = Js.trim text
    ∧ db' = with_messages db (messages db ++ [m])
    ∧ (∀ reader, Rls.party_of db reader i = true →
         ChatPanelView.fetchMessages db' reader i
         ≡ₚ ChatPanelView.fetchMessages db reader i ++ [m])
    ∧ (∀ reader j, j ≠ i →
         ChatPanelView.fetchMessages db' reader j
         ≡ₚ ChatPanelView.fetchMessages db reader j)
    ∧ ChatPanelView.onInsert m (ChatPanelView.fetchMessages db uid i)
      ≡ₚ ChatPanelView.fetchMessages db' uid i.
Proof.
  unfold ChatPanel.handleSendMessage.
  destruct (Js.trim text) as [|c s] eqn:Ht; [congruence|].
  destruct uid as [u|]; [|congruence].
  destruct (Messages.insert _ _ _ _ _ _ _) as [db1 [m|e]] eqn:Hins;
    [|congruence].
  intros [= <- <-]. apply insert_Ok in Hins as (Hp & -> & Hm).
  exists u, m. repeat split; try by subst m.
  - intros reader Hr. unfold ChatPanelView.fetchMessages.
    rewrite select_by_booking_insert, Hr.
    by rewrite decide_True by (by subst m).
  - intros reader j Hj. unfold ChatPanelView.fetchMessages.
    rewrite select_by_booking_insert.
    rewrite decide_False by (subst m; cbn; congruence).
    by rewrite app_nil_r.
  - unfold ChatPanelView.onInsert, ChatPanelView.fetchMessages.
    rewrite select_by_booking_insert, Hp.
    by rewrite decide_True by (by subst m).
Qed.

Lemma panel_send_reaches_parties_witness :
  let db := Sample.chat_store [Sample.a_message "m1" "R1" 3 "hello"] in
  let db' := (ChatPanel.handleSendMessage (Some "U1") 10 "m2" db "b1"
                (Js.lit " hi ")).1.1 in
  ∃ m, m_content m = Js.lit "hi"
       ∧ ChatPanelView.fetchMessages db' (Some "R1") "b1"
         ≡ₚ ChatPanelView.fetchMessages db (Some "R1") "b1" ++ [m].
Proof.
  intros db db'.
  destruct (panel_send_reaches_parties (Some "U1") 10 "m2" db db' "b1"
              (Js.lit " hi ") [] eq_refl)
    as (u & m & _ & _ & _ & _ & Hc & _ & Hread & _).
  exists m. split; [exact Hc|]. apply Hread. reflexivity.
Defined.

(** X14. A send from the chat screen that goes through clears the input
    and puts at the end of the view the message as the next poll will
    deliver it: the view a poll builds from the new store is the view a
    poll built from the old one and that message, up to order. Until
    that poll, with unique profile identifiers, the subscription's
    delivery of the same row, which looks the sender up again, appends
    the message a second time. *)
Theorem send_agrees_with_poll (now : Timestamp) (new_id : Uuid) (db db' : Db)
    (st st' : ChatScreen.State) :
  ChatScreen.sendMessage now new_id db st = (db', st', ChatScreen.Sent) →
  ∃ i m x,
    ChatScreen.bookingId st = Some i
    ∧ db' = with_messages db (messages db ++ [m])
    ∧ ChatScreen.msg_id x = new_id
    ∧ ChatScreen.msg_content x = Js.trim (ChatScreen.newMessage st)
    ∧ ChatScreen.view st' = ChatScreen.view st ++ [x]
    ∧ ChatScreen.newMessage st' = []
    ∧ ChatScreen.view (ChatScreen.poll db' i st')
      ≡ₚ ChatScreen.view (ChatScreen.poll db i st) ++ [x]
    ∧ (NoDup (p_id <$> profiles db) →
       ChatScreen.view (ChatScreen.push db' m st')
       = ChatScreen.view st ++ [x; x]).
Proof.
  unfold ChatScreen.sendMessage.
  destruct (Js.trim (ChatScreen.newMessage st)) as [|c s] eqn:Ht;
    [congruence|].
  destruct (ChatScreen.bookingId st) as [i|]; [|congruence].
  destruct (ChatScreen.user st) as [u|] eqn:Hu; [|congruence].
  destruct (Messages.insert _ _ _ _ _ _ _) as [db1 [m|e]] eqn:Hins;
    [|congruence].
  destruct (head _) as [p|] eqn:Hp; [|congruence].
  intros [= <- <-]. apply insert_Ok in Hins as (Hparty & -> & Hm).
  cbn [profiles with_messages] in Hp.
  exists i, m, (ChatScreen.with_sender m p).
  split; [done|]. split; [done|]. split; [by subst m|].
  split; [by subst m|]. split; [done|]. split; [done|]. split.
  - rewrite !poll_view_omap. cbn [ChatScreen.user ChatScreen.setNewMessage
                                  ChatScreen.setMessages].
    rewrite Hu, select_by_booking_insert, Hparty.
    rewrite decide_True by (by subst m).
    rewrite omap_app. cbn [profiles with_messages]. f_equiv.
    cbn. by rewrite Hp.
  - intros Hnd. unfold ChatScreen.push, Messages.select_profile.
    cbn [profiles with_messages].
    assert (Hone : filter (fun q => p_id q = m_sender_id m) (profiles db)
                   = [p]).
    { destruct (filter _ (profiles db)) as [|q [|q2 l]] eqn:Hf;
        [done|by injection Hp as ->|exfalso].
      injection Hp as ->.
      assert (H1 : p ∈ filter (fun q => p_id q = m_sender_id m)
                         (profiles db)) by (rewrite Hf; left).
      assert (H2 : q2 ∈ filter (fun q => p_id q = m_sender_id m)
                          (profiles db)) by (rewrite Hf; right; left).
      apply list_elem_of_filter in H1 as [H1 _].
      apply list_elem_of_filter in H2 as [H2 _].
      assert (Hsub : p :: q2 :: l `sublist_of` profiles db)
        by (rewrite <- Hf; apply sublist_filter).
      apply (fmap_sublist p_id) in Hsub.
      apply (sublist_NoDup _ _ Hnd) in Hsub. cbn in Hsub.
      apply NoDup_cons in Hsub as [Hsub _]. apply Hsub.
      rewrite H1, H2. left. }
    rewrite Hone. cbn. by rewrite <- app_assoc.
Qed.

Lemma send_agrees_with_poll_witness :
  let db := Sample.chat_store [Sample.a_message "m1" "U1" 3 "hello"] in
  let st := ChatScreen.setNewMessage (Js.lit "on my way ")
              (Sample.chat accepted "R1" true) in
  let r := ChatScreen.sendMessage 10 "m2" db st in
  ∃ x, ChatScreen.msg_content x = Js.lit "on my way"
       ∧ ChatScreen.view (ChatScreen.poll r.1.1 "b1" r.1.2)
         ≡ₚ ChatScreen.view (ChatScreen.poll db "b1" st) ++ [x].
Proof.
  intros db st r.
  destruct (send_agrees_with_poll 10 "m2" db r.1.1 st r.1.2 eq_refl)
    as (i & m & x & Hi & _ & _ & Hc & _ & _ & Hpoll & _).
  injection Hi as <-. exists x. split; [exact Hc|exact Hpoll].
Defined.

(** ** The task form *)

(** The task form passes exactly when no required text field is blank
    and a time is there unless the task is ASAP. *)
Lemma validateTaskForm_true (fd : TaskScreen.FormData) :
  TaskScreen.validateTaskForm fd = true
  ↔ ¬ blank (TaskScreen.fd_name fd)
    ∧ ¬ blank (TaskScreen.itemsList fd)
    ∧ ¬ blank (TaskScreen.storePreference fd)
    ∧ ¬ blank (TaskScreen.dropoffLocation fd)
    ∧ (TaskScreen.isASAP fd = true ∨ is_Some (TaskScreen.scheduledTime fd)).
Proof.
  unfold TaskScreen.validateTaskForm, TaskScreen.validationErrors.
  rewrite bool_decide_eq_true, <- !truthy_trim.
  destruct (Js.truthy (Js.trim (TaskScreen.fd_name fd)));
    destruct (Js.truthy (Js.trim (TaskScreen.itemsList fd)));
    destruct (Js.truthy (Js.trim (TaskScreen.storePreference fd)));
    destruct (Js.truthy (Js.trim (TaskScreen.dropoffLocation fd)));
    destruct (TaskScreen.isASAP fd);
    destruct (TaskScreen.scheduledTime fd) as [t|]; cbn;
    try rewrite bool_decide_eq_true_2 by (by eexists);
    try rewrite bool_decide_eq_false_2 by (by intros [? ?]); cbn;
    split; try done; try (intros (? & ? & ? & ? & ?); done);
    try (intros _; repeat split; by eauto).
  all: intros (_ & _ & _ & _ & [?|[? ?]]); done.
Qed.

(** X15. The task form validates before it calls the service. Nobody
    signed in: the log-in alert, whatever the form holds. A blank name,
    item list, store or dropoff (empty or white space only), or no time
    on a task that is not ASAP: the validation alert; in both cases the
    store is not touched. Otherwise, for a fresh identifier, one
    booking of type task is appended, Pending and without a rider,
    whose pickup is the store preference and whose notes are the items,
    the priority and the special notes if any; riders who are offered
    it see the task's name in place of the owner's username. *)
Theorem task_submit_validates_then_inserts (uid : option Uuid)
    (now : Timestamp) (new_id : Uuid) (db : Db) (fd : TaskScreen.FormData) :
  let r := TaskScreen.handleSubmit uid now new_id db fd in
  let invalid :=
    blank (TaskScreen.fd_name fd) ∨ blank (TaskScreen.itemsList fd)
    ∨ blank (TaskScreen.storePreference fd)
    ∨ blank (TaskScreen.dropoffLocation fd)
    ∨ (TaskScreen.isASAP fd = false ∧ TaskScreen.scheduledTime fd = None) in
  (uid = None → r = (db, TripScreen.MustBeLoggedIn))
  ∧ (invalid → is_Some uid → r = (db, TripScreen.MissingInformation))
  ∧ (¬ invalid → ∀ u, uid = Some u →
       (∀ b, b ∈ bookings db → id b ≠ new_id) →
       ∃ b, r = (with_bookings db (bookings db ++ [b]), TripScreen.Created b)
            ∧ booking_type b = task
            ∧ status b = pending ∧ rider_id b = None ∧ user_id b = u
            ∧ id b = new_id ∧ created_at b = now
            ∧ pickup_location b = TaskScreen.storePreference fd
            ∧ dropoff_location b = TaskScreen.dropoffLocation fd
            ∧ name b = TaskScreen.fd_name fd
            ∧ notes b = Some (TaskScreen.task_notes fd)
            ∧ ∀ ps, riderService.u_username
                      (riderService.user (riderService.with_user ps b))
                    = TaskScreen.fd_name fd).
Proof.
  cbv zeta. split; [|split].
  - by intros ->.
  - intros Hinv [u ->]. unfold TaskScreen.handleSubmit.
    destruct (TaskScreen.validateTaskForm fd) eqn:Hv; [|done]. exfalso.
    apply validateTaskForm_true in Hv as (Hn & Hi & Hp & Hd & Ht).
    destruct Hinv as [?|[?|[?|[?|[Ha Hs]]]]]; try done.
    destruct Ht as [Ht|[t Ht]]; congruence.
  - intros Hvalid u -> Hfresh. unfold TaskScreen.handleSubmit.
    assert (Hv : TaskScreen.validateTaskForm fd = true).
    { apply validateTaskForm_true.
      repeat split; try (intros ?; apply Hvalid; tauto).
      destruct (TaskScreen.isASAP fd) eqn:Ha; [by left|]. right.
      destruct (TaskScreen.scheduledTime fd) eqn:Hs; [by eexists|].
      exfalso. apply Hvalid. tauto. }
    rewrite Hv. cbn [negb]. rewrite createBooking_inserts by done.
    eexists. split; [reflexivity|]. repeat split; try done.
    intros ps. cbn. unfold Js.or_else.
    apply validateTaskForm_true in Hv as (Hn & _).
    destruct (TaskScreen.fd_name fd) as [|c s]; [|done].
    exfalso. apply Hn. constructor.
Qed.

Lemma task_submit_validates_then_inserts_witness :
  TaskScreen.handleSubmit (Some "U1") 10 "b9" (Sample.store [])
    {| TaskScreen.fd_name := Js.lit "Groceries";
       TaskScreen.itemsList := Js.lit "  ";
       TaskScreen.storePreference := Js.lit "Market";
       TaskScreen.dropoffLocation := Js.lit "Home";
       TaskScreen.isASAP := true;
       TaskScreen.scheduledTime := None;
       TaskScreen.specialNotes := [];
       TaskScreen.taskPriority := TaskScreen.Normal |}
  = (Sample.store [], TripScreen.MissingInformation).
Proof.
  apply (proj1 (proj2 (task_submit_validates_then_inserts (Some "U1") 10 "b9"
                         (Sample.store []) _))).
  - right. left. vm_compute. repeat constructor.
  - by eexists.
Defined.

(** ** The sign-up form *)

Lemma field_check (s : Js.str) (bad : bool) (P : SignUpScreen.Problem) :
  P ≠ SignUpScreen.Missing →
  let e := if negb (Js.truthy (Js.trim s)) then Some SignUpScreen.Missing
           else if bad then Some P else None in
  (e = None ↔ ¬ blank s ∧ bad = false)
  ∧ (e = Some SignUpScreen.Missing ↔ blank s).
Proof.
  intros HP. cbv zeta. pose proof (truthy_trim s) as H.
  destruct (Js.truthy (Js.trim s)); cbn [negb].
  - assert (Hs : ¬ blank s) by (by apply H).
    destruct bad; (split; split; [| |intros [= ?]|]); try done;
      try (by intros [_ ?]); congruence.
  - assert (Hs : blank s).
    { destruct (trim_nil_iff s) as [Hn _]. apply Hn.
      destruct (Js.trim s) as [|c r] eqn:Ht; [done|].
      exfalso. destruct H as [_ H]. assert (false = true); [|done].
      apply H. intros Hb. apply trim_nil_iff in Hb. congruence. }
    split; split; try done. by intros [? _].
Qed.

(** X16. The sign-up form passes exactly when the username, the e-mail
    address and the password each hold something other than white
    space, the address contains an at sign, and the username and the
    password, counted with their white space, have at least three and
    six code units. A blank field is reported as missing, never as too
    short or malformed. *)
Theorem validateInputs_passes_iff (username email password : Js.str) :
  (SignUpScreen.validateInputs username email password = true
   ↔ (¬ blank username ∧ (3 ≤ length username)%nat)
     ∧ (¬ blank email ∧ 64%N ∈ email)
     ∧ (¬ blank password ∧ (6 ≤ length password)%nat))
  ∧ (let e := SignUpScreen.newErrors username email password in
     (SignUpScreen.e_username e = Some SignUpScreen.Missing ↔ blank username)
     ∧ (SignUpScreen.e_email e = Some SignUpScreen.Missing ↔ blank email)
     ∧ (SignUpScreen.e_password e = Some SignUpScreen.Missing
        ↔ blank password)).
Proof.
  unfold SignUpScreen.validateInputs, SignUpScreen.newErrors,
    SignUpScreen.has_at.
  cbn [SignUpScreen.e_username SignUpScreen.e_email SignUpScreen.e_password].
  destruct (field_check username (bool_decide (length username < 3)%nat)
              SignUpScreen.TooShort ltac:(done)) as [Hu1 Hu2].
  destruct (field_check email (negb (bool_decide (64%N ∈ email)))
              SignUpScreen.NotAnAddress ltac:(done)) as [He1 He2].
  destruct (field_check password (bool_decide (length password < 6)%nat)
              SignUpScreen.TooShort ltac:(done)) as [Hp1 Hp2].
  rewrite bool_decide_eq_false in Hu1, Hp1.
  rewrite negb_false_iff, bool_decide_eq_true in He1.
  split; [|done].
  assert (Hlt3 : ¬ (length username < 3)%nat ↔ (3 ≤ length username)%nat)
    by lia.
  assert (Hlt6 : ¬ (length password < 6)%nat ↔ (6 ≤ length password)%nat)
    by lia.
  rewrite <- Hlt3, <- Hlt6, <- Hu1, <- He1, <- Hp1.
  destruct (if negb (Js.truthy (Js.trim username)) then _ else _);
    destruct (if negb (Js.truthy (Js.trim email)) then _ else _);
    destruct (if negb (Js.truthy (Js.trim password)) then _ else _);
    split; try done; intros (? & ? & ?); done.
Qed.

(** ** The profile service *)

Section Profiles.

Import profileService.

Lemma filter_key_fmap (f : Row → Row) (k : Uuid) (t : list Row) :
  (∀ r, r_id (f r) = r_id r) →
  filter (fun r => r_id r = k) (f <$> t)
  = f <$> filter (fun r => r_id r = k) t.
Proof.
  intros Hf. induction t as [|r t IH]; [done|].
  rewrite fmap_cons, !filter_cons, Hf, IH.
  by destruct (decide (r_id r = k)).
Qed.

(** With a primary key at most one row has a given identifier. *)
Lemma filter_key_cases (k : Uuid) (t : list Row) :
  NoDup (r_id <$> t) →
  (filter (fun r => r_id r = k) t = [] ∧ k ∉ r_id <$> t)
  ∨ ∃ x, filter (fun r => r_id r = k) t = [x] ∧ r_id x = k.
Proof.
  induction t as [|r t IH]; [left; split; [done|by apply not_elem_of_nil]|].
  rewrite fmap_cons, NoDup_cons. intros [Hr Hnd]. rewrite filter_cons.
  destruct (decide (r_id r = k)) as [Hk|Hk].
  - right. exists r. split; [|done]. f_equal.
    destruct (IH Hnd) as [[H _]|(x & H & Hx)]; [done|]. exfalso.
    assert (Hin : x ∈ filter (fun r => r_id r = k) t) by (rewrite H; left).
    apply list_elem_of_filter in Hin as [_ Hin]. apply Hr.
    rewrite Hk, <- Hx. apply list_elem_of_fmap. by exists x.
  - destruct (IH Hnd) as [[H Hn]|(x & H & Hx)]; [left|right; by exists x].
    split; [done|]. rewrite not_elem_of_cons. by split.
Qed.

(** One call of [upsertProfile] on a table with unique identifiers. *)
Lemma upsertProfile_once (uid : option Uuid) (now : Timestamp)
    (t : list Row) (p : Input) :
  NoDup (r_id <$> t) →
  let r := upsertProfile uid now t p in
  let row := {| r_id := i_id p; r_username := i_username p;
                r_avatar_url := Js.or_null (i_avatar_url p);
                r_updated_at := now |} in
  (uid = Some (i_id p) →
   r.2 = Ok row ∧ getProfile r.1 (i_id p) = Ok (Some row)
   ∧ i_id p ∈ r_id <$> r.1)
  ∧ (uid ≠ Some (i_id p) →
     r = (t, Err (if decide (i_id p ∈ r_id <$> t) then NoSingleRow
                  else RlsViolation)))
  ∧ NoDup (r_id <$> r.1)
  ∧ (∀ j, j ≠ i_id p → getProfile r.1 j = getProfile t j)
  ∧ (i_id p ∈ r_id <$> t → r_id <$> r.1 = r_id <$> t).
Proof.
  intros Hnd. cbv zeta.
  assert (Hupd : ∀ t0 x, NoDup (r_id <$> t0) →
            filter (fun r => r_id r = i_id p) t0 = [x] → r_id x = i_id p →
            upsertProfile uid now t0 p
            = if decide (uid = Some (i_id p))
              then ((fun r => if bool_decide (r_id r = i_id p)
                              then {| r_id := r_id r;
                                      r_username := i_username p;
                                      r_avatar_url :=
                                        Js.or_null (i_avatar_url p);
                                      r_updated_at := now |}
                              else r) <$> t0,
                    Ok {| r_id := i_id p; r_username := i_username p;
                          r_avatar_url := Js.or_null (i_avatar_url p);
                          r_updated_at := now |})
              else (t0, Err NoSingleRow)).
  { intros t0 x Hnd0 Hf Hx. unfold upsertProfile, getProfile. rewrite Hf.
    cbn [maybeSingle].
    destruct (decide (uid = Some (i_id p))) as [->|Hne].
    - assert (Hhit : filter (fun r => bool_decide (r_id r = i_id p)
                                      && own (Some (i_id p)) r) t0 = [x]).
      { rewrite <- Hf. apply list_filter_iff. intros r. unfold own.
        rewrite andb_True, !bool_decide_spec. split; [tauto|].
        intros Hr. split; [done|]. by rewrite Hr. }
      rewrite Hhit. cbn [fmap list_fmap forallb]. unfold own at 1.
      cbn [r_id]. rewrite Hx, bool_decide_eq_true_2 by done.
      cbn [andb Sql.single]. f_equal.
      apply list_fmap_ext. intros k r _. unfold own.
      destruct (bool_decide (r_id r = i_id p)) eqn:Hr; [|done].
      apply bool_decide_eq_true in Hr.
      by rewrite Hr, bool_decide_eq_true_2.
    - assert (Hhit : filter (fun r => bool_decide (r_id r = i_id p)
                                      && own uid r) t0 = []).
      { destruct (filter (fun r => bool_decide _ && _) t0) as [|y l] eqn:Hy;
          [done|]. exfalso.
        assert (Hin : y ∈ filter (fun r => bool_decide (r_id r = i_id p)
                                           && own uid r) t0)
          by (rewrite Hy; left).
        apply list_elem_of_filter in Hin as [Hin _].
        apply andb_True in Hin as [H1 H2].
        apply bool_decide_spec in H1. apply bool_decide_spec in H2.
        congruence. }
      rewrite Hhit. done. }
  assert (Hins : filter (fun r => r_id r = i_id p) t = [] →
            upsertProfile uid now t p
            = if decide (uid = Some (i_id p))
              then (t ++ [{| r_id := i_id p; r_username := i_username p;
                             r_avatar_url := Js.or_null (i_avatar_url p);
                             r_updated_at := now |}],
                    Ok {| r_id := i_id p; r_username := i_username p;
                          r_avatar_url := Js.or_null (i_avatar_url p);
                          r_updated_at := now |})
              else (t, Err RlsViolation)).
  { intros Hf. unfold upsertProfile, getProfile. rewrite Hf.
    cbn [maybeSingle]. unfold own. cbn [r_id].
    destruct (decide (uid = Some (i_id p))) as [->|Hne].
    - by rewrite bool_decide_eq_true_2.
    - by rewrite bool_decide_eq_false_2. }
  set (set_row := fun r : Row =>
         if bool_decide (r_id r = i_id p)
         then {| r_id := r_id r; r_username := i_username p;
                 r_avatar_url := Js.or_null (i_avatar_url p);
                 r_updated_at := now |}
         else r) in *.
  assert (Hkey : ∀ r, r_id (set_row r) = r_id r).
  { intros r. unfold set_row. by destruct (bool_decide _). }
  assert (Hids : ∀ t0 : list Row, r_id <$> (set_row <$> t0) = r_id <$> t0).
  { intros t0. rewrite <- list_fmap_compose. apply list_fmap_ext.
    intros k r _. apply Hkey. }
  destruct (filter_key_cases (i_id p) t Hnd) as [[Hf Hnin]|(x & Hf & Hx)].
  - rewrite (Hins Hf).
    destruct (decide (uid = Some (i_id p))) as [Hu|Hu]; cbn [fst snd].
    + assert (Hnd' : NoDup (r_id <$> t ++ [{| r_id := i_id p;
                        r_username := i_username p;
                        r_avatar_url := Js.or_null (i_avatar_url p);
                        r_updated_at := now |}])).
      { rewrite fmap_app. apply NoDup_app. split; [done|]. split.
        - intros k Hk Hk'. apply list_elem_of_singleton in Hk'. cbn in Hk'.
          congruence.
        - apply NoDup_singleton. }
      assert (Hf' : filter (fun r => r_id r = i_id p)
                      (t ++ [{| r_id := i_id p;
                                r_username := i_username p;
                                r_avatar_url := Js.or_null (i_avatar_url p);
                                r_updated_at := now |}])
                    = [{| r_id := i_id p; r_username := i_username p;
                          r_avatar_url := Js.or_null (i_avatar_url p);
                          r_updated_at := now |}]).
      { rewrite filter_app, Hf, filter_cons, decide_True by done. done. }
      split; [|split; [done|split; [done|split]]].
      * intros _. split; [done|]. split.
        { unfold getProfile. by rewrite Hf'. }
        rewrite fmap_app, elem_of_app. right. left.
      * intros j Hj. unfold getProfile.
        rewrite filter_app, filter_cons, decide_False by (cbn; congruence).
        by rewrite filter_nil, app_nil_r.
      * intros H. by destruct (Hnin H).
    + split; [done|]. split; [|by repeat split].
      intros _. by rewrite decide_False.
  - rewrite (Hupd t x Hnd Hf Hx).
    assert (Hin : i_id p ∈ r_id <$> t).
    { rewrite <- Hx. apply list_elem_of_fmap. exists x. split; [done|].
      assert (H : x ∈ filter (fun r => r_id r = i_id p) t)
        by (rewrite Hf; left).
      by apply list_elem_of_filter in H as [_ H]. }
    destruct (decide (uid = Some (i_id p))) as [Hu|Hu]; cbn [fst snd].
    + assert (Hf' : filter (fun r => r_id r = i_id p) (set_row <$> t)
                    = [{| r_id := i_id p; r_username := i_username p;
                          r_avatar_url := Js.or_null (i_avatar_url p);
                          r_updated_at := now |}]).
      { rewrite filter_key_fmap, Hf by done. cbn. unfold set_row.
        by rewrite Hx, bool_decide_eq_true_2. }
      split; [|split; [done|split; [by rewrite Hids|split]]].
      * intros _. split; [done|]. split.
        { unfold getProfile. by rewrite Hf'. }
        by rewrite Hids.
      * intros j Hj. unfold getProfile. rewrite filter_key_fmap by done.
        f_equal.
        assert (Hsame : ∀ l : list Row,
                  Forall (fun r => r_id r ≠ i_id p) l →
                              set_row <$> l = l).
        { intros l Hl. rewrite <- (list_fmap_id l) at 2.
          apply list_fmap_ext. intros k r Hr. unfold set_row.
          rewrite bool_decide_eq_false_2; [done|].
          rewrite list.Forall_forall in Hl. apply Hl.
          by apply list_elem_of_lookup_2 in Hr. }
        apply Hsame, list.Forall_forall. intros r Hr.
        apply list_elem_of_filter in Hr as [Hr _]. congruence.
      * intros _. apply Hids.
    + split; [done|]. split; [|by repeat split].
      intros _. by rewrite decide_True.
Qed.

(** X17. [upsertProfile] on a table with unique identifiers. For the
    session whose user the identifier names it succeeds, whether or not
    a row is there: afterwards [getProfile] returns the row with the
    username, the avatar (an empty one stored as null) and the time of
    the call. A later identical call succeeds again and adds no row: it
    rewrites the row's [updated_at] to its own time and nothing else.
    For any other session the call fails and writes nothing: with the
    store's no-single-row error when the profile exists, with a policy
    violation when it does not. In every case identifiers stay unique
    and the profile of every other user reads as before. *)
Theorem upsertProfile_round_trip (uid : option Uuid) (now : Timestamp)
    (t : list Row) (p : Input) :
  NoDup (r_id <$> t) →
  let r := upsertProfile uid now t p in
  let row at_ := {| r_id := i_id p; r_username := i_username p;
                    r_avatar_url := Js.or_null (i_avatar_url p);
                    r_updated_at := at_ |} in
  (uid = Some (i_id p) →
   r.2 = Ok (row now) ∧ getProfile r.1 (i_id p) = Ok (Some (row now))
   ∧ ∀ later,
       let r2 := upsertProfile uid later r.1 p in
       r2.2 = Ok (row later)
       ∧ getProfile r2.1 (i_id p) = Ok (Some (row later))
       ∧ r_id <$> r2.1 = r_id <$> r.1
       ∧ ∀ j, j ≠ i_id p → getProfile r2.1 j = getProfile t j)
  ∧ (uid ≠ Some (i_id p) →
     r = (t, Err (if decide (i_id p ∈ r_id <$> t) then NoSingleRow
                  else RlsViolation)))
  ∧ NoDup (r_id <$> r.1)
  ∧ (∀ j, j ≠ i_id p → getProfile r.1 j = getProfile t j).
Proof.
  intros Hnd. cbv zeta.
  destruct (upsertProfile_once uid now t p Hnd)
    as (Hown & Hother & Hnd1 & Hrest & _).
  split; [|by repeat split].
  intros Hu. destruct (Hown Hu) as (Hok & Hget & Hin).
  split; [done|]. split; [done|]. intros later.
  destruct (upsertProfile_once uid later (upsertProfile uid now t p).1 p
              Hnd1) as (Hown2 & _ & _ & Hrest2 & Hids2).
  destruct (Hown2 Hu) as (Hok2 & Hget2 & _).
  split; [done|]. split; [done|]. split; [by apply Hids2|].
  intros j Hj. by rewrite Hrest2, Hrest.
Qed.


Lemma upsertProfile_round_trip_witness :
  let t := [{| r_id := "U1"; r_username := Js.lit "una";
               r_avatar_url := None; r_updated_at := 2 |}] in
  let p := {| i_id := "U1"; i_username := Js.lit "Una";
              i_avatar_url := Some [] |} in
  let r := upsertProfile (Some "U1") 10 t p in
  let r2 := upsertProfile (Some "U1") 20 r.1 p in
  getProfile r.1 "U1"
  = Ok (Some {| r_id := "U1"; r_username := Js.lit "Una";
                r_avatar_url := None; r_updated_at := 10 |})
  ∧ getProfile r2.1 "U1"
    = Ok (Some {| r_id := "U1"; r_username := Js.lit "Una";
                  r_avatar_url := None; r_updated_at := 20 |})
  ∧ r_id <$> r2.1 = r_id <$> r.1.
Proof.
  cbv zeta.
  destruct (upsertProfile_round_trip (Some "U1") 10
              [{| r_id := "U1"; r_username := Js.lit "una";
                  r_avatar_url := None; r_updated_at := 2 |}]
              {| i_id := "U1"; i_username := Js.lit "Una";
                 i_avatar_url := Some [] |})
    as ((_ & Hget & Hlater) & _).
  - vm_compute. repeat constructor. by apply not_elem_of_nil.
  - reflexivity.
  - destruct (Hlater 20) as (_ & Hget2 & Hids & _).
    split; [exact Hget|]. split; [exact Hget2|exact Hids].
Defined.

End Profiles.

(** ** Completed bookings *)

Lemma getCompletedBookings_rows
    (sel : Db → option Uuid → Booking → bool) (uid : option Uuid) (db : Db) :
  riderReads.cb_booking <$> riderReads.getCompletedBookings sel uid db
  = merge_sort riderService.newer_first
      (filter (fun b => status b = completed)
         (filter (fun b => sel db uid b) (bookings db))).
Proof.
  unfold riderReads.getCompletedBookings. cbv zeta.
  rewrite <- list_fmap_compose.
  rewrite <- (list_fmap_id (merge_sort _ _)) at 2. by apply list_fmap_ext.
Qed.

(** X18. [getCompletedBookings] checks neither the session nor the
    rider profile: it returns every Completed booking the SELECT policy
    shows the caller, and only those, newest first, each with the
    stored profile of its owner, or null when the owner has none. Under
    the "own bookings" policy a caller without a session gets the
    empty list, not an error. *)
Theorem getCompletedBookings_exact
    (sel : Db → option Uuid → Booking → bool) (uid : option Uuid) (db : Db) :
  let l := riderReads.getCompletedBookings sel uid db in
  riderReads.cb_booking <$> l
  ≡ₚ filter (fun b => status b = completed ∧ sel db uid b) (bookings db)
  ∧ StronglySorted riderService.newer_first (riderReads.cb_booking <$> l)
  ∧ Forall (fun x => riderReads.cb_user x
                     = head (filter (fun p => p_id p
                                              = user_id
                                                  (riderReads.cb_booking x))
                               (profiles db))) l
  ∧ riderReads.getCompletedBookings RlsSelect.view_own None db = [].
Proof.
  cbv zeta. rewrite getCompletedBookings_rows. split; [|split; [|split]].
  - by rewrite merge_sort_Permutation, list_filter_filter.
  - apply StronglySorted_merge_sort; apply _.
  - unfold riderReads.getCompletedBookings. cbv zeta.
    apply Forall_fmap, list.Forall_forall. intros b Hb. cbn.
    f_equal. rewrite list_filter_filter. apply list_filter_iff.
    intros q. split; [tauto|]. intros Hq. split; [done|]. rewrite Hq.
    apply elem_of_remove_dups, list_elem_of_fmap. by exists b.
  - unfold riderReads.getCompletedBookings. cbv zeta.
    assert (Hnone : filter (fun b => RlsSelect.view_own db None b)
                      (bookings db) = []).
    { induction (bookings db) as [|b t IH]; [done|].
      rewrite filter_cons, decide_False; [done|].
      unfold RlsSelect.view_own, Rls.uid_is, Rls.uid_is_opt.
      rewrite (bool_decide_eq_false_2 (None = Some (user_id b))) by done.
      rewrite (bool_decide_eq_false_2 (is_Some None ∧ None = rider_id b))
        by (by intros [[? ?] _]).
      cbn. by intros []. }
    by rewrite Hnone.
Qed.

(** ** From the active list to the completed list *)

Lemma getActiveBookings_elem
    (sel : Db → option Uuid → Booking → bool) (uid : option Uuid)
    (upd : Profile → Timestamp) (now : Timestamp) (db : Db) :
  (riderService.isRider uid db).1 = true →
  ∃ data, riderReads.getActiveBookings sel uid upd now db = Ok data
          ∧ ∀ b, b ∈ riderReads.ab_booking <$> data
                 ↔ b ∈ bookings db ∧ sel db uid b = true ∧ rider_id b = uid
                   ∧ (status b = accepted ∨ status b = on_the_way).
Proof.
  intros Hr. destruct (getActiveBookings_rows sel uid upd now db Hr)
    as (ps & ->).
  eexists. split; [done|]. intros b.
  rewrite ab_booking_with_active_user, list_elem_of_filter, Is_true_true.
  tauto.
Qed.

Lemma getCompletedBookings_elem
    (sel : Db → option Uuid → Booking → bool) (uid : option Uuid) (db : Db)
    (b : Booking) :
  b ∈ riderReads.cb_booking <$> riderReads.getCompletedBookings sel uid db
  ↔ b ∈ bookings db ∧ sel db uid b = true ∧ status b = completed.
Proof.
  rewrite getCompletedBookings_rows, merge_sort_Permutation.
  rewrite !list_elem_of_filter, Is_true_true. tauto.
Qed.

Lemma NoDup_id_rewritten (f : Booking → Booking) (t : list Booking) :
  (∀ x, id (f x) = id x) → id <$> (f <$> t) = id <$> t.
Proof.
  intros Hf. rewrite <- list_fmap_compose. apply list_fmap_ext.
  intros k x _. apply Hf.
Qed.

(** X19. The rider's two presses. The assigned rider of an Accepted
    booking, on a chat screen that shows it, presses the status button
    twice, under lib/bookings_policies.sql and a SELECT policy that
    shows riders their bookings. Both presses succeed; after the first
    the booking is OnTheWay in the rider's active list; after the second
    the screen shows Completed, the button asks for nothing more, the
    booking has left the active list and is in the completed list, its
    [completed_at] still what it was before the presses. *)
Theorem rider_completes_trip
    (sel : Db → option Uuid → Booking → bool) (upd : Profile → Timestamp)
    (u : Uuid) (now1 now2 now' : Timestamp) (db : Db) (b : Booking)
    (st : ChatScreen.State) :
  shows_own sel → NoDup (id <$> bookings db) → b ∈ bookings db →
  rider_id b = Some u → status b = accepted →
  (riderService.isRider (Some u) db).1 = true →
  ChatScreen.bookingId st = Some (id b) → ChatScreen.user st = Some u →
  ChatScreen.isRider st = true → ChatScreen.bookingStatus st = accepted →
  let r1 := ChatScreen.pressStatusButton Rls.bookings_policies now1 db st in
  let r2 := ChatScreen.pressStatusButton Rls.bookings_policies now2
              r1.1.1 r1.1.2 in
  r1.2 = Some ChatScreen.AlertSuccess
  ∧ r2.2 = Some ChatScreen.AlertSuccess
  ∧ ChatScreen.bookingStatus r2.1.2 = completed
  ∧ ChatScreen.pressStatusButton Rls.bookings_policies now' r2.1.1 r2.1.2
    = (r2.1.1, r2.1.2, None)
  ∧ (∃ data x,
       riderReads.getActiveBookings sel (Some u) upd now' r1.1.1 = Ok data
       ∧ x ∈ data ∧ id (riderReads.ab_booking x) = id b
       ∧ status (riderReads.ab_booking x) = on_the_way)
  ∧ (∃ data,
       riderReads.getActiveBookings sel (Some u) upd now' r2.1.1 = Ok data
       ∧ ∀ x, x ∈ data → id (riderReads.ab_booking x) ≠ id b)
  ∧ (∃ y, y ∈ riderReads.getCompletedBookings sel (Some u) r2.1.1
          ∧ id (riderReads.cb_booking y) = id b
          ∧ completed_at (riderReads.cb_booking y) = completed_at b).
Proof.
  intros Hsel Hnd Hin Hrid Hst Hrider Hi Hu Hr Hshown. cbv zeta.
  assert (Hp : is_party (ChatScreen.user st) b)
    by (exists u; split; [done|by right]).
  rewrite (pressStatusButton_party now1 db st b on_the_way Hnd Hin Hi Hr
             ltac:(congruence) ltac:(by rewrite Hshown) Hp).
  cbn [fst snd].
  set (f1 := fun x => if id_is (id b) x
                      then touch now1 (status_patch now1 on_the_way) x
                      else x).
  set (b1 := touch now1 (status_patch now1 on_the_way) b).
  set (db1 := with_bookings db (f1 <$> bookings db)).
  set (st1 := ChatScreen.setBookingStatus on_the_way st).
  assert (Hf1 : ∀ x, id (f1 x) = id x)
    by (intros x; unfold f1; by destruct (id_is _ _)).
  assert (Hin1 : b1 ∈ bookings db1).
  { apply list_elem_of_fmap. exists b. split; [|done]. unfold f1.
    by rewrite (proj2 (id_is_true (id b) b) eq_refl). }
  assert (Hnd1 : NoDup (id <$> bookings db1))
    by (cbn; by rewrite NoDup_id_rewritten).
  assert (Hp1 : is_party (ChatScreen.user st1) b1)
    by (exists u; split; [done|by right]).
  rewrite (pressStatusButton_party now2 db1 st1 b1 completed) by done.
  cbn [fst snd].
  set (f2 := fun x => if id_is (id b1) x
                      then touch now2 (status_patch now2 completed) x
                      else x).
  set (b2 := touch now2 (status_patch now2 completed) b1).
  set (db2 := with_bookings db1 (f2 <$> bookings db1)).
  assert (Hf2 : ∀ x, id (f2 x) = id x)
    by (intros x; unfold f2; by destruct (id_is _ _)).
  assert (Hin2 : b2 ∈ bookings db2).
  { apply list_elem_of_fmap. exists b1. split; [|done]. unfold f2.
    by rewrite (proj2 (id_is_true (id b1) b1) eq_refl). }
  assert (Hnd2 : NoDup (id <$> bookings db2))
    by (cbn [db2 bookings with_bookings]; by rewrite NoDup_id_rewritten).
  split; [done|]. split; [done|]. split; [done|]. split; [|split; [|split]].
  - unfold ChatScreen.pressStatusButton. cbn. by rewrite Hr.
  - destruct (getActiveBookings_elem sel (Some u) upd now' db1 Hrider)
      as (data & Hdata & Helem).
    assert (Hb1 : b1 ∈ riderReads.ab_booking <$> data).
    { apply Helem. split; [done|]. split; [apply Hsel; by right|].
      split; [done|by right]. }
    apply list_elem_of_fmap in Hb1 as (x & Hx & Hxin).
    exists data, x. rewrite <- Hx. done.
  - destruct (getActiveBookings_elem sel (Some u) upd now' db2 Hrider)
      as (data & Hdata & Helem).
    exists data. split; [done|]. intros x Hx Hid.
    assert (Hb : riderReads.ab_booking x ∈ riderReads.ab_booking <$> data)
      by (apply list_elem_of_fmap; by exists x).
    apply Helem in Hb as (Hxin & _ & _ & Hs).
    rewrite (NoDup_id_inj (bookings db2) _ b2 Hnd2 Hxin Hin2 Hid) in Hs.
    destruct Hs as [Hs|Hs]; discriminate Hs.
  - assert (Hb2 : b2 ∈ riderReads.cb_booking
                         <$> riderReads.getCompletedBookings sel (Some u) db2).
    { apply getCompletedBookings_elem. split; [done|].
      split; [apply Hsel; by right|done]. }
    apply list_elem_of_fmap in Hb2 as (y & Hy & Hyin).
    exists y. rewrite <- Hy. done.
Qed.

Lemma rider_completes_trip_witness :
  let r1 := ChatScreen.pressStatusButton Rls.bookings_policies 10
              (Sample.store [Sample.b_accepted])
              (Sample.chat accepted "R1" true) in
  let r2 := ChatScreen.pressStatusButton Rls.bookings_policies 20
              r1.1.1 r1.1.2 in
  ∃ y, y ∈ riderReads.getCompletedBookings RlsSelect.view_own (Some "R1")
             r2.1.1
       ∧ id (riderReads.cb_booking y) = "b1"
       ∧ completed_at (riderReads.cb_booking y) = None.
Proof.
  refine (proj2 (proj2 (proj2 (proj2 (proj2 (proj2
            (rider_completes_trip RlsSelect.view_own (fun _ => 0) "R1"
               10 20 30 (Sample.store [Sample.b_accepted])
               Sample.b_accepted (Sample.chat accepted "R1" true)
               _ _ _ _ _ _ _ _ _ _))))))).
  - intros db u b [<-|Hb]; unfold RlsSelect.view_own, Rls.uid_is,
      Rls.uid_is_opt.
    + by rewrite bool_decide_eq_true_2.
    + rewrite (bool_decide_eq_true_2 (is_Some (Some u) ∧ Some u = rider_id b))
        by (by split; [eexists|]).
      apply orb_true_r.
  - vm_compute. repeat constructor. by apply not_elem_of_nil.
  - left.
  - reflexivity.
  - reflexivity.
  - reflexivity.
  - reflexivity.
  - reflexivity.
  - reflexivity.
  - reflexivity.
Defined.

(** ** The rider's screens *)

Lemma getAvailableBookings_elem
    (sel : Db → option Uuid → Booking → bool) (uid : option Uuid) (db : Db)
    (data : list riderService.BookingWithUser) (b : Booking) :
  riderService.getAvailableBookings sel uid db = Ok data →
  b ∈ riderService.booking <$> data
  ↔ b ∈ bookings db ∧ sel db uid b = true ∧ status b = pending
    ∧ rider_id b = None.
Proof.
  intros Hd. pose proof (getAvailableBookings_Ok_rider _ _ _ _ Hd) as Hr.
  destruct (getAvailableBookings_rows sel uid db Hr) as (ps & Heq).
  rewrite Heq in Hd. injection Hd as <-.
  rewrite booking_with_user, merge_sort_Permutation.
  rewrite !list_elem_of_filter, Is_true_true. tauto.
Qed.

(** What a successful [acceptBooking] leaves: the caller still has the
    rider profile, and the row with the identifier is Accepted, the
    caller's, and shown to the caller. *)
Lemma acceptBooking_Ok_row (sel : Db → option Uuid → Booking → bool)
    (uid : option Uuid) (now : Timestamp) (db db' : Db) (i : Uuid) :
  shows_own sel →
  riderService.acceptBooking sel uid now db i = (db', Ok tt) →
  (riderService.isRider uid db').1 = true
  ∧ (∃ b', b' ∈ bookings db' ∧ id b' = i ∧ status b' = accepted
           ∧ rider_id b' = uid ∧ sel db' uid b' = true)
  ∧ (∀ b, b ∈ bookings db' → id b = i →
          ¬ (status b = pending ∧ rider_id b = None)).
Proof.
  intros Hsel H.
  apply acceptBooking_Ok_inv in H as (u & rp & -> & Hrp & _ & Ha & _).
  pose proof (accept_booking_Ok _ _ _ _ _ Ha)
    as (_ & (b & Hin & Hid & Hs & Hn) & Hrows & Hprof & _).
  split; [|split].
  - apply isRider_true. exists u, rp. by rewrite Hprof.
  - apply list_elem_of_lookup in Hin as [k Hk].
    destruct (Forall2_lookup_l _ _ _ _ _ Hrows Hk) as (b' & Hk' & Hb').
    cbn in Hb'.
    assert (Hav : Schema.available_for_acceptance i b = true).
    { unfold Schema.available_for_acceptance, id_is.
      by rewrite !bool_decide_eq_true_2. }
    rewrite Hav in Hb'. destruct Hb' as (Hid' & Hs' & Hr' & _).
    exists b'. split; [by apply list_elem_of_lookup_2 in Hk'|].
    split; [congruence|]. split; [done|]. split; [done|].
    apply Hsel. by right.
  - by apply (accept_booking_closes _ _ _ _ _ Ha).
Qed.

(** X20. The rider's three tabs, as [loadData] fills them from a store
    with unique identifiers. For a caller without a rider profile the
    lists stay as they are and the riders-only message is set. For a
    rider the error is cleared and the tabs hold: the caller's Accepted
    and OnTheWay bookings; Pending bookings without a rider; Completed
    bookings. No booking is listed twice, within a tab or in two
    tabs. *)
Theorem rider_tabs_are_disjoint
    (sel : Db → option Uuid → Booking → bool) (uid : option Uuid)
    (upd : Profile → Timestamp) (now : Timestamp) (db : Db)
    (st : ActiveBookingsScreen.State) :
  NoDup (id <$> bookings db) →
  let st' := ActiveBookingsScreen.loadData sel uid upd now db st in
  let active :=
    riderReads.ab_booking <$> ActiveBookingsScreen.activeBookings st' in
  let available :=
    riderService.booking <$> ActiveBookingsScreen.availableBookings st' in
  let completed_ :=
    riderReads.cb_booking <$> ActiveBookingsScreen.completedBookings st' in
  ((riderService.isRider uid db).1 = false →
   ActiveBookingsScreen.activeBookings st'
   = ActiveBookingsScreen.activeBookings st
   ∧ ActiveBookingsScreen.availableBookings st'
     = ActiveBookingsScreen.availableBookings st
   ∧ ActiveBookingsScreen.completedBookings st'
     = ActiveBookingsScreen.completedBookings st
   ∧ is_Some (ActiveBookingsScreen.error st'))
  ∧ ((riderService.isRider uid db).1 = true →
     ActiveBookingsScreen.error st' = None
     ∧ Forall (fun b => rider_id b = uid
                        ∧ (status b = accepted ∨ status b = on_the_way))
         active
     ∧ Forall (fun b => status b = pending ∧ rider_id b = None) available
     ∧ Forall (fun b => status b = completed) completed_
     ∧ NoDup (id <$> active ++ available ++ completed_)).
Proof.
  intros Hnd. cbv zeta. unfold ActiveBookingsScreen.loadData. split.
  - intros ->. cbn. repeat split; by eauto.
  - intros Hr. rewrite Hr. cbn [negb].
    destruct (getActiveBookings_elem sel uid upd now db Hr)
      as (act & Hact & Ha).
    destruct (getAvailableBookings_rows sel uid db Hr) as (ps & Hav).
    pose proof (fun b => getAvailableBookings_elem sel uid db _ b Hav) as Hv.
    pose proof (getCompletedBookings_elem sel uid db) as Hc.
    rewrite Hact, Hav.
    cbn [ActiveBookingsScreen.error ActiveBookingsScreen.activeBookings
         ActiveBookingsScreen.availableBookings
         ActiveBookingsScreen.completedBookings].
    set (available := riderService.booking <$> _) in *.
    set (completed_ := riderReads.cb_booking <$> _) in *.
    set (active := riderReads.ab_booking <$> act) in *.
    split; [done|]. split; [|split; [|split]].
    + apply list.Forall_forall. intros b Hb. apply Ha in Hb. tauto.
    + apply list.Forall_forall. intros b Hb. apply Hv in Hb. tauto.
    + apply list.Forall_forall. intros b Hb. apply Hc in Hb. tauto.
    + assert (Hsub : ∀ l : list Booking, NoDup l →
                (∀ b, b ∈ l → b ∈ bookings db) → NoDup (id <$> l)).
      { intros l Hl Hin. apply NoDup_fmap_2_strong; [|done].
        intros x y Hx Hy Hxy.
        apply (NoDup_id_inj (bookings db)); auto. }
      assert (Hrows : NoDup (bookings db))
        by (by apply NoDup_fmap_1 in Hnd).
      apply Hsub.
      * apply NoDup_app. split; [|split; [|apply NoDup_app; split; [|split]]].
        -- subst active.
           destruct (getActiveBookings_rows sel uid upd now db Hr)
             as (ps' & Hact').
           rewrite Hact in Hact'. injection Hact' as ->.
           rewrite ab_booking_with_active_user. by apply NoDup_filter.
        -- intros b Hb Hb'. apply Ha in Hb as (_ & _ & _ & Hs).
           apply elem_of_app in Hb' as [Hb'|Hb'].
           ++ apply Hv in Hb' as (_ & _ & Hs' & _).
              destruct Hs; congruence.
           ++ apply Hc in Hb' as (_ & _ & Hs'). destruct Hs; congruence.
        -- subst available. rewrite booking_with_user.
           rewrite merge_sort_Permutation. by do 2 apply NoDup_filter.
        -- intros b Hb Hb'. apply Hv in Hb as (_ & _ & Hs & _).
           apply Hc in Hb' as (_ & _ & Hs'). congruence.
        -- subst completed_. rewrite getCompletedBookings_rows.
           rewrite merge_sort_Permutation. by do 2 apply NoDup_filter.
      * intros b Hb. apply elem_of_app in Hb as [Hb|Hb];
          [apply Ha in Hb; tauto|].
        apply elem_of_app in Hb as [Hb|Hb];
          [apply Hv in Hb; tauto|apply Hc in Hb; tauto].
Qed.

Lemma rider_tabs_are_disjoint_witness :
  NoDup
    (id <$> (riderReads.ab_booking
               <$> ActiveBookingsScreen.activeBookings
                     (ActiveBookingsScreen.loadData RlsSelect.view_own
                        (Some "R1") (fun _ => 0) 10
                        (Sample.store [Sample.b_accepted])
                        {| ActiveBookingsScreen.activeBookings := [];
                           ActiveBookingsScreen.availableBookings := [];
                           ActiveBookingsScreen.completedBookings := [];
                           ActiveBookingsScreen.selectedBooking := None;
                           ActiveBookingsScreen.error := None;
                           ActiveBookingsScreen.isRider := None |}))
            ++ [] ++ []).
Proof.
  refine (proj2 (proj2 (proj2 (proj2 (proj2
            (rider_tabs_are_disjoint RlsSelect.view_own (Some "R1")
               (fun _ => 0) 10 (Sample.store [Sample.b_accepted])
               {| ActiveBookingsScreen.activeBookings := [];
                  ActiveBookingsScreen.availableBookings := [];
                  ActiveBookingsScreen.completedBookings := [];
                  ActiveBookingsScreen.selectedBooking := None;
                  ActiveBookingsScreen.error := None;
                  ActiveBookingsScreen.isRider := None |} _) _))))).
  - vm_compute. repeat constructor. by apply not_elem_of_nil.
  - reflexivity.
Defined.

(** X21. A press on "Accept" on the rider's screens, on a store with
    unique identifiers and under a SELECT policy that shows riders
    their bookings. When the service refuses, the store is untouched
    and both screens keep their lists as they are, the refused booking
    included, and show the failure alert. When it accepts, the lists
    are reloaded from the new store: the booking is in the active tab,
    Accepted and the caller's, and in no list of available bookings.
    The available-bookings screen ignores a press made while it is
    loading: it calls nothing and lowers [loading]. *)
Theorem accept_press_reloads_lists
    (sel : Db → option Uuid → Booking → bool) (uid : option Uuid)
    (upd : Profile → Timestamp) (now now' : Timestamp) (db : Db) (i : Uuid)
    (sa : ActiveBookingsScreen.State) (sv : AvailableBookingsScreen.State) :
  shows_own sel → NoDup (id <$> bookings db) →
  let ra := ActiveBookingsScreen.handleAcceptBooking sel uid upd now now' db
              sa i in
  let rv := AvailableBookingsScreen.handleAcceptBooking sel uid now db sv i in
  let idle :=
    {| AvailableBookingsScreen.bookings := AvailableBookingsScreen.bookings sv;
       AvailableBookingsScreen.loading := false;
       AvailableBookingsScreen.error := AvailableBookingsScreen.error sv |} in
  (AvailableBookingsScreen.loading sv = true → rv = (db, idle, None))
  ∧ match (riderService.acceptBooking sel uid now db i).2 with
    | Err _ =>
        ra = (db, sa, Some ActiveBookingsScreen.AlertError)
        ∧ (AvailableBookingsScreen.loading sv = false →
           rv = (db, idle, Some AvailableBookingsScreen.AlertError))
    | Ok _ =>
        ra.2 = None
        ∧ ActiveBookingsScreen.error ra.1.2 = None
        ∧ (∃ x, x ∈ ActiveBookingsScreen.activeBookings ra.1.2
                ∧ id (riderReads.ab_booking x) = i
                ∧ status (riderReads.ab_booking x) = accepted
                ∧ rider_id (riderReads.ab_booking x) = uid)
        ∧ (∀ v, v ∈ ActiveBookingsScreen.availableBookings ra.1.2 →
                id (riderService.booking v) ≠ i)
        ∧ (AvailableBookingsScreen.loading sv = false →
           rv.2 = Some AvailableBookingsScreen.AlertSuccess
           ∧ AvailableBookingsScreen.error rv.1.2 = None
           ∧ ∀ v, v ∈ AvailableBookingsScreen.bookings rv.1.2 →
                  id (riderService.booking v) ≠ i)
    end.
Proof.
  intros Hsel Hnd. cbv zeta.
  unfold ActiveBookingsScreen.handleAcceptBooking,
    AvailableBookingsScreen.handleAcceptBooking.
  split; [by intros ->|].
  destruct (riderService.acceptBooking sel uid now db i) as [db' [[]|e]]
    eqn:Hacc; cbn [fst snd].
  - destruct (acceptBooking_Ok_row sel uid now db db' i Hsel Hacc)
      as (Hr & (b' & Hin & Hid & Hs & Hrid & Hvis) & Hclosed).
    destruct (getActiveBookings_elem sel uid upd now' db' Hr)
      as (act & Hact & Ha).
    destruct (getAvailableBookings_rows sel uid db' Hr) as (ps & Hav).
    pose proof (fun b => getAvailableBookings_elem sel uid db' _ b Hav) as Hv.
    assert (Hnot : ∀ v, v ∈ riderService.with_user ps
                              <$> merge_sort riderService.newer_first
                                    (filter (fun b => status b = pending
                                                      ∧ rider_id b = None)
                                       (filter (fun b => sel db' uid b)
                                          (bookings db'))) →
                        id (riderService.booking v) ≠ i).
    { intros v Hin' Hvi.
      assert (Hb : riderService.booking v
                   ∈ riderService.booking
                       <$> (riderService.with_user ps
                              <$> merge_sort riderService.newer_first
                                    (filter (fun b => status b = pending
                                                      ∧ rider_id b = None)
                                       (filter (fun b => sel db' uid b)
                                          (bookings db')))))
        by (by apply list_elem_of_fmap_2).
      apply Hv in Hb as (Hb & _ & Hp & Hn). by apply (Hclosed _ Hb Hvi). }
    unfold ActiveBookingsScreen.loadData, AvailableBookingsScreen.loadData.
    rewrite Hr, Hact, Hav. cbn [negb].
    cbn [ActiveBookingsScreen.error ActiveBookingsScreen.activeBookings
         ActiveBookingsScreen.availableBookings].
    split; [done|]. split; [done|]. split; [|split; [done|]].
    + assert (Hb' : b' ∈ riderReads.ab_booking <$> act)
        by (apply Ha; tauto).
      apply list_elem_of_fmap in Hb' as (x & Hx & Hxin).
      exists x. by rewrite <- Hx.
    + intros ->. cbn. done.
  - apply (acceptBooking_Err_store sel uid now db db' i e Hnd Hsel) in Hacc.
    subst db'. split; [done|]. by intros ->.
Qed.

Lemma accept_press_reloads_lists_witness :
  ∃ x, x ∈ ActiveBookingsScreen.activeBookings
             (ActiveBookingsScreen.handleAcceptBooking RlsSelect.view_own
                (Some "R1") (fun _ => 0) 11 12
                (Sample.store [Sample.b_pending])
                {| ActiveBookingsScreen.activeBookings := [];
                   ActiveBookingsScreen.availableBookings := [];
                   ActiveBookingsScreen.completedBookings := [];
                   ActiveBookingsScreen.selectedBooking := None;
                   ActiveBookingsScreen.error := None;
                   ActiveBookingsScreen.isRider := None |} "b1").1.2
       ∧ id (riderReads.ab_booking x) = "b1"
       ∧ status (riderReads.ab_booking x) = accepted
       ∧ rider_id (riderReads.ab_booking x) = Some "R1".
Proof.
  refine (proj1 (proj2 (proj2 (proj2
            (accept_press_reloads_lists RlsSelect.view_own (Some "R1")
               (fun _ => 0) 11 12 (Sample.store [Sample.b_pending]) "b1"
               {| ActiveBookingsScreen.activeBookings := [];
                  ActiveBookingsScreen.availableBookings := [];
                  ActiveBookingsScreen.completedBookings := [];
                  ActiveBookingsScreen.selectedBooking := None;
                  ActiveBookingsScreen.error := None;
                  ActiveBookingsScreen.isRider := None |}
               {| AvailableBookingsScreen.bookings := [];
                  AvailableBookingsScreen.loading := false;
                  AvailableBookingsScreen.error := None |} _ _))))).
  - intros db u b Hb. unfold RlsSelect.view_own, Rls.uid_is, Rls.uid_is_opt.
    apply orb_true_iff. destruct Hb as [<-|Hb].
    + left. by apply bool_decide_eq_true.
    + right. apply bool_decide_eq_true. rewrite Hb. by split.
  - vm_compute. repeat constructor. by apply not_elem_of_nil.
Defined.

(** ** Attachments *)

Section Attachments.

Import ChatMedia.

Lemma startsWith_app (p s : Js.str) : startsWith p (p ++ s) = true.
Proof.
  induction p as [|c p IH]; [by destruct s|].
  cbn. by rewrite bool_decide_eq_true_2, IH.
Qed.

Lemma remove_first_unfold (p s : Js.str) :
  remove_first p s
  = if startsWith p s then drop (length p) s
    else match s with
         | [] => []
         | c :: s' => c :: remove_first p s'
         end.
Proof. by destruct s. Qed.

Lemma remove_first_prefix (p s : Js.str) : remove_first p (p ++ s) = s.
Proof.
  rewrite remove_first_unfold, startsWith_app. by rewrite drop_app_length.
Qed.

Lemma last_segment_from_no_slash (cur n : Js.str) :
  47%N ∉ n → last_segment_from cur n = cur ++ n.
Proof.
  revert cur. induction n as [|c n IH]; intros cur Hn;
    [by rewrite app_nil_r|].
  apply not_elem_of_cons in Hn as [Hc Hn]. cbn.
  rewrite bool_decide_eq_false_2 by done.
  rewrite IH by done. by rewrite <- app_assoc.
Qed.

Lemma last_segment_from_slash (cur s n : Js.str) :
  last_segment_from cur (s ++ 47%N :: n) = last_segment_from [] n.
Proof.
  revert cur. induction s as [|c s IH]; intros cur; cbn.
  - by rewrite bool_decide_eq_true_2.
  - destruct (bool_decide (c = 47%N)); apply IH.
Qed.

Lemma safeFileName_no_slash (fileName : Js.str) :
  47%N ∉ safeFileName fileName.
Proof.
  unfold safeFileName. intros Hin.
  apply list_elem_of_fmap in Hin as (c & Hc & _).
  destruct (safe c) eqn:Hs; [|discriminate]. subst c. discriminate.
Qed.

(** X22. A message is drawn by the prefix of its content. The content
    an image upload stores is drawn as a picture of the uploaded URL,
    the content a file upload stores as a document with that URL, named
    by what follows the URL's last slash, or 'File' when nothing
    follows it; content with neither prefix is drawn as text. Typed
    text is not told apart from an attachment: a text message stored
    with the prefix of an image is drawn as a picture. *)
Theorem attachments_render_by_prefix (publicUrl content : Js.str) :
  renderMessageContent (image_content publicUrl) = Picture publicUrl
  ∧ renderMessageContent (file_content publicUrl)
    = Document publicUrl
        (Js.or_else (last_segment publicUrl) (Js.lit "File"))
  ∧ (renderMessageContent content = Words content
     ↔ startsWith (Js.lit "image:") content = false
       ∧ startsWith (Js.lit "file:") content = false)
  ∧ ∀ now new_id db st db' st',
      Js.trim (ChatScreen.newMessage st) = image_content publicUrl →
      ChatScreen.sendMessage now new_id db st = (db', st', ChatScreen.Sent) →
      ∃ m, last (messages db') = Some m
           ∧ renderMessageContent (m_content m) = Picture publicUrl.
Proof.
  split; [|split; [|split]].
  - unfold renderMessageContent, image_content.
    by rewrite startsWith_app, remove_first_prefix.
  - unfold renderMessageContent, file_content.
    rewrite startsWith_app, remove_first_prefix. done.
  - unfold renderMessageContent.
    destruct (startsWith (Js.lit "image:") content);
      [split; [done|by intros [? _]]|].
    destruct (startsWith (Js.lit "file:") content);
      [split; [done|by intros [_ ?]]|done].
  - intros now new_id db st db' st' Ht. unfold ChatScreen.sendMessage.
    destruct (Js.trim (ChatScreen.newMessage st)) as [|c s] eqn:Hc.
    { exfalso. cbv in Ht. discriminate Ht. }
    destruct (ChatScreen.bookingId st) as [i|]; [|done].
    destruct (ChatScreen.user st) as [u|]; [|done].
    destruct (Messages.insert _ _ _ _ _ _ _) as [db1 [m|e]] eqn:Hins;
      [|done].
    destruct (head _); [|done]. intros [= <- _].
    apply insert_Ok in Hins as (_ & -> & ->).
    eexists. split; [apply last_snoc|]. cbn [m_content]. rewrite Ht.
    unfold renderMessageContent, image_content.
    by rewrite startsWith_app, remove_first_prefix.
Qed.

Lemma attachments_render_by_prefix_witness :
  let st := ChatScreen.setNewMessage (Js.lit " image:x ")
              (Sample.chat accepted "R1" true) in
  let r := ChatScreen.sendMessage 10 "m2" (Sample.chat_store []) st in
  ∃ m, last (messages r.1.1) = Some m
       ∧ renderMessageContent (m_content m) = Picture (Js.lit "x").
Proof.
  intros st r.
  apply (proj2 (proj2 (proj2 (attachments_render_by_prefix (Js.lit "x") [])))
           10 "m2" (Sample.chat_store []) st r.1.1 r.1.2).
  - reflexivity.
  - reflexivity.
Defined.

(** X23. The name a file is stored under has the length of the name
    picked, consists of ASCII letters, digits, dots, hyphens and
    underscores, so holds no slash, and is the name picked exactly when
    that consisted of such code units; sanitising twice changes
    nothing. The stored path is the booking's identifier, a slash and
    this name; for a public URL that ends with the stored path, the
    file's message is drawn with this name, or with 'File' when the
    name is empty. *)
Theorem file_name_is_sanitised (bookingId : Uuid) (fileName pre : Js.str) :
  let name := safeFileName fileName in
  let url := pre ++ [47%N] ++ filePath bookingId fileName in
  length name = length fileName
  ∧ Forall (fun c => safe c = true ∨ c = 95%N) name
  ∧ (47%N ∉ name)
  ∧ safeFileName name = name
  ∧ (name = fileName ↔ Forall (fun c => safe c = true ∨ c = 95%N) fileName)
  ∧ renderMessageContent (file_content url)
    = Document url (Js.or_else name (Js.lit "File")).
Proof.
  cbv zeta. split; [|split; [|split; [|split; [|split]]]].
  - unfold safeFileName. by rewrite length_fmap.
  - unfold safeFileName. apply Forall_fmap, list.Forall_forall.
    intros c _. cbn. destruct (safe c) eqn:Hs; [by left|by right].
  - apply safeFileName_no_slash.
  - unfold safeFileName. rewrite <- list_fmap_compose.
    apply list_fmap_ext. intros k c _. cbn.
    destruct (safe c) eqn:Hs; [by rewrite Hs|done].
  - unfold safeFileName. induction fileName as [|c s IH]; [done|].
    rewrite fmap_cons, Forall_cons. split.
    + intros [= Hc Hs]. split; [|by apply IH].
      destruct (safe c); [by left|by right].
    + intros [Hc Hs]. f_equal; [|by apply IH].
      destruct (safe c); [done|]. by destruct Hc.
  - unfold renderMessageContent, file_content.
    rewrite startsWith_app, remove_first_prefix.
    replace (startsWith (Js.lit "image:") (Js.lit "file:" ++ _))
      with false by done.
    f_equal. f_equal. unfold filePath, last_segment. cbn [app].
    rewrite !last_segment_from_slash.
    by rewrite last_segment_from_no_slash by apply safeFileName_no_slash.
Qed.

End Attachments.
